(** * ja-rule firmware: coarse timer and RDM responder

    A shallow embedding of [coarse_timer.c] and of the discovery, reply
    framing and PID dispatch code of [firmware/src/rdm_responder.c],
    with the properties the specification states about them.

    Conventions.
    - C integers are [Z]; every store into a [uint8_t], [uint16_t] or
      [uint32_t] location writes out its wrap-around ([to_uint8], ...).
    - Byte arrays ([g_rdm_buffer], UIDs, parameter data) are [list Z];
      an indexed store is stdpp's [<[i:=v]>], guarded by a bounds test.
    - The module globals ([g_responder], [g_rdm_buffer],
      [g_internal_state], [g_coarse_timer]) are the fields of [State];
      a C function that touches them is a computation in the monad [M],
      whose [None] stands for a C execution without defined behaviour
      (a NULL [def] dereferenced, a store outside [g_rdm_buffer]). *)

From Stdlib Require Import ZArith List Bool Lia.
From stdpp Require Import base numbers option list.

Local Open Scope Z_scope.

(** ** Fixed-width integers *)

Definition to_uint8 (v : Z) : Z := v mod 256.
Definition to_uint16 (v : Z) : Z := v mod 65536.
Definition to_uint32 (v : Z) : Z := v mod 4294967296.

Definition is_uint8 (v : Z) : Prop := 0 <= v < 256.
Definition is_uint16 (v : Z) : Prop := 0 <= v < 65536.
Definition is_uint32 (v : Z) : Prop := 0 <= v < 4294967296.

(** Out-of-range reads of a byte array give 0 here; every theorem below
    that depends on a read fixes the length of the array it reads. *)
Definition byte_at (l : list Z) (i : nat) : Z := default 0 (l !! i).

(** ** coarse_timer.c *)

Module CoarseTimer.

(** [CoarseTimer_Data]: only [timer_count] is modelled, the [settings]
    field holds hardware identifiers. *)
Record CoarseTimer_Data := { timer_count : Z }.

(** [g_coarse_timer.timer_count++] on a [volatile uint32_t]. *)
Definition CoarseTimer_TimerEvent (g : CoarseTimer_Data) : CoarseTimer_Data :=
  {| timer_count := to_uint32 (timer_count g + 1) |}.

Definition CoarseTimer_GetTime (g : CoarseTimer_Data) : Z := timer_count g.

Definition CoarseTimer_ElapsedTime (g : CoarseTimer_Data) (start_time : Z) : Z :=
  to_uint32 (timer_count g - start_time).

Definition CoarseTimer_Delta (start_time end_time : Z) : Z :=
  to_uint32 (end_time - start_time).

Definition CoarseTimer_HasElapsed (g : CoarseTimer_Data)
    (start_time duration : Z) : bool :=
  if duration =? 0 then true
  else
    let diff := to_uint32 (timer_count g - start_time) in
    duration <? diff.

Definition CoarseTimer_SetCounter (count : Z) : CoarseTimer_Data :=
  {| timer_count := count |}.

End CoarseTimer.

Import CoarseTimer.

(** ** Constants of rdm.h, rdm_frame.h and constants.h *)

(** Modelled from the spec: the headers that define these constants are
    missing. The specification gives the 6-byte UID, the 24-byte header,
    start code 0xCC and sub-start code 0x01, the 24-byte DUB response,
    the start address range 1..512 with INVALID = 0xFFFF, the 32-byte
    label, "0 or negative (NO_RESPONSE)", sub-device 0 for the root,
    command class 0x10 for discovery, PID 0x0002 for DISC_MUTE and PID
    0x00F0 for DMX_START_ADDRESS. The remaining command classes,
    response types, NACK reasons and PIDs have the values that
    ANSI E1.20 assigns to the names the code uses; of a NACK reason or a
    response type the theorems use only that it fits its field. *)
Definition UID_LENGTH : nat := 6.
Definition sizeof_RDMHeader : nat := 24.
Definition RDM_START_CODE : Z := 0xCC.
Definition SUB_START_CODE : Z := 0x01.
Definition RDM_DEFAULT_STRING_SIZE : Z := 32.
Definition DUB_RESPONSE_LENGTH : Z := 24.
Definition RDM_RESPONDER_NO_RESPONSE : Z := 0.
Definition MAX_DMX_START_ADDRESS : Z := 512.
Definition INVALID_DMX_START_ADDRESS : Z := 0xFFFF.
Definition SUBDEVICE_ROOT : Z := 0.
(** Modelled from the spec: the frame buffer holds the worst-case RDM
    frame, 255 message bytes and the two checksum bytes ([rdm_buffer.h]
    is missing). *)
Definition RDM_FRAME_SIZE : nat := 257.

Definition DISCOVERY_COMMAND : Z := 0x10.
Definition DISCOVERY_COMMAND_RESPONSE : Z := 0x11.
Definition GET_COMMAND : Z := 0x20.
Definition GET_COMMAND_RESPONSE : Z := 0x21.
Definition SET_COMMAND : Z := 0x30.
Definition SET_COMMAND_RESPONSE : Z := 0x31.

Definition ACK : Z := 0.
Definition ACK_TIMER : Z := 1.
Definition NACK_REASON : Z := 2.
Definition ACK_OVERFLOW : Z := 3.

Definition NR_UNKNOWN_PID : Z := 0.
Definition NR_FORMAT_ERROR : Z := 1.
Definition NR_HARDWARE_FAULT : Z := 2.
Definition NR_UNSUPPORTED_COMMAND_CLASS : Z := 5.
Definition NR_DATA_OUT_OF_RANGE : Z := 6.

Definition PID_DISC_UNIQUE_BRANCH : Z := 0x0001.
Definition PID_DISC_MUTE : Z := 0x0002.
Definition PID_DISC_UN_MUTE : Z := 0x0003.
Definition PID_SUPPORTED_PARAMETERS : Z := 0x0050.
Definition PID_PARAMETER_DESCRIPTION : Z := 0x0051.
Definition PID_DEVICE_INFO : Z := 0x0060.
Definition PID_DEVICE_LABEL : Z := 0x0082.
Definition PID_SOFTWARE_VERSION_LABEL : Z := 0x00C0.
Definition PID_DMX_PERSONALITY : Z := 0x00E0.
Definition PID_DMX_START_ADDRESS : Z := 0x00F0.
Definition PID_IDENTIFY_DEVICE : Z := 0x1000.

(** Modelled from the spec: the control field of a mute reply "has
    bit 0 set when sub_device_count > 0, bit 1 when managed-proxy,
    bit 2 when proxied-device" (the MUTE_*_FLAG macros are missing). *)
Definition MUTE_SUBDEVICE_FLAG : Z := 1.
Definition MUTE_MANAGED_PROXY_FLAG : Z := 2.
Definition MUTE_PROXY_FLAG : Z := 4.

Definition FIVE5_CONSTANT : Z := 0x55.
Definition AA_CONSTANT : Z := 0xaa.
Definition FE_CONSTANT : Z := 0xfe.

(** Modelled from the spec: [ShortMSB], [ShortLSB] and [JoinShort] of
    the missing [utils.h] split a 16-bit value into its big-endian
    bytes ("csum_msb", "csum_lsb") and join two bytes back. *)
Definition ShortMSB (s : Z) : Z := Z.shiftr s 8.
Definition ShortLSB (s : Z) : Z := Z.land s 0xFF.
Definition JoinShort (upper lower : Z) : Z :=
  to_uint16 (Z.lor (Z.shiftl upper 8) lower).

(** [ntohs] on the little-endian target (PIC32): the two bytes of a
    16-bit value swapped. *)
Definition ntohs (x : Z) : Z :=
  Z.lor (Z.shiftl (Z.land x 0xFF) 8) (Z.shiftr x 8).

(** Modelled from the spec: "UID comparison is lexicographic
    big-endian", that is a byte-wise comparison of the first [n] bytes
    whose sign is the result. *)
Fixpoint memcmp (n : nat) (a b : list Z) : Z :=
  match n with
  | O => 0
  | S n' =>
      match a, b with
      | x :: a', y :: b' =>
          if x <? y then -1 else if y <? x then 1 else memcmp n' a' b'
      | _, _ => 0
      end
  end.

(** Modelled from the spec: [RDMUtil_UIDCompare] of the missing
    [rdm_util.h], negative, zero or positive as [uid1] is below, equal
    to or above [uid2] in the lexicographic order. *)
Definition RDMUtil_UIDCompare (uid1 uid2 : list Z) : Z :=
  memcmp UID_LENGTH uid1 uid2.

(** ** Data model *)

(** [RDMHeader] as the responder reads it from a received frame. The
    struct is declared in the missing [rdm_frame.h]: the fields have
    the names the code uses and the order and widths the specification
    lists for the 24-byte header. The two 16-bit fields hold the wire
    bytes as the little-endian target loads them, so the code applies
    [ntohs] before use. *)
Record RDMHeader := {
  start_code : Z;
  sub_start_code : Z;
  message_length : Z;
  dest_uid : list Z;
  src_uid : list Z;
  transaction_number : Z;
  port_id : Z;
  message_count : Z;
  sub_device : Z;
  command_class : Z;
  param_id : Z;
  param_data_length : Z
}.

Definition is_uid (u : list Z) : Prop :=
  length u = UID_LENGTH /\ Forall is_uint8 u.

Record RDMHeader_wf (h : RDMHeader) : Prop := {
  wf_start_code : is_uint8 (start_code h);
  wf_sub_start_code : is_uint8 (sub_start_code h);
  wf_message_length : is_uint8 (message_length h);
  wf_dest_uid : is_uid (dest_uid h);
  wf_src_uid : is_uid (src_uid h);
  wf_transaction_number : is_uint8 (transaction_number h);
  wf_port_id : is_uint8 (port_id h);
  wf_message_count : is_uint8 (message_count h);
  wf_sub_device : is_uint16 (sub_device h);
  wf_command_class : is_uint8 (command_class h);
  wf_param_id : is_uint16 (param_id h);
  wf_param_data_length : is_uint8 (param_data_length h)
}.

(** A handler stored in a PID descriptor is a function pointer: one of
    the handlers of rdm_responder.c modelled below, or a handler that a
    device model defines elsewhere, named by an index. *)
Inductive PIDCommandHandler :=
  | Handler_SetDeviceLabel
  | Handler_SetDMXPersonality
  | Handler_GetDMXStartAddress
  | Handler_SetDMXStartAddress
  | Handler_GetIdentifyDevice
  | Handler_SetIdentifyDevice
  | Handler_Model (n : nat).

Record PIDDescriptor := {
  pid : Z;
  get_handler : option PIDCommandHandler;
  set_handler : option PIDCommandHandler;
  get_param_size : Z
}.

(** [ResponderDefinition] (declared in the missing [rdm_responder.h]):
    the fields the modelled functions read. [descriptor_count] is the
    length of [descriptors]. *)
Record ResponderDefinition := {
  descriptors : list PIDDescriptor;
  personality_count : Z;
  default_device_label : list Z
}.

(** [RDMResponder] (declared in the missing [rdm_responder.h]), with
    the fields the code reads and writes; [def] is a pointer that may
    be NULL. The byte-sized fields are [uint8_t], the start address and
    the sub-device count [uint16_t]. The [sensors] array is left out,
    none of the modelled functions reads it. *)
Record RDMResponder := {
  def : option ResponderDefinition;
  device_label : list Z;
  uid : list Z;
  dmx_start_address : Z;
  sub_device_count : Z;
  current_personality : Z;
  queued_message_count : Z;
  is_muted : bool;
  identify_on : bool;
  using_factory_defaults : bool;
  is_subdevice : bool;
  is_managed_proxy : bool;
  is_proxied_device : bool
}.

(** [InternalResponderState]: the two timers; the port and bit fields
    are hardware identifiers, the levels they drive are in [Ports]. *)
Record InternalResponderState := {
  mute_timer : Z;
  identify_timer : Z
}.

(** Output levels of the mute and identify pins, as
    [PLIB_PORTS_PinSet] / [PLIB_PORTS_PinClear] leave them. *)
Record Ports := {
  mute_pin : bool;
  identify_pin : bool
}.

Record State := {
  g_responder : RDMResponder;
  g_rdm_buffer : list Z;
  g_internal_state : InternalResponderState;
  g_coarse_timer : CoarseTimer_Data;
  ports : Ports
}.

(** Field updates of the C structs. *)
Definition set_device_label (v : list Z) (r : RDMResponder) : RDMResponder :=
  {| def := def r; device_label := v; uid := uid r;
     dmx_start_address := dmx_start_address r;
     sub_device_count := sub_device_count r;
     current_personality := current_personality r;
     queued_message_count := queued_message_count r;
     is_muted := is_muted r; identify_on := identify_on r;
     using_factory_defaults := using_factory_defaults r;
     is_subdevice := is_subdevice r;
     is_managed_proxy := is_managed_proxy r;
     is_proxied_device := is_proxied_device r |}.

Definition set_dmx_start_address (v : Z) (r : RDMResponder) : RDMResponder :=
  {| def := def r; device_label := device_label r; uid := uid r;
     dmx_start_address := v;
     sub_device_count := sub_device_count r;
     current_personality := current_personality r;
     queued_message_count := queued_message_count r;
     is_muted := is_muted r; identify_on := identify_on r;
     using_factory_defaults := using_factory_defaults r;
     is_subdevice := is_subdevice r;
     is_managed_proxy := is_managed_proxy r;
     is_proxied_device := is_proxied_device r |}.

Definition set_sub_device_count (v : Z) (r : RDMResponder) : RDMResponder :=
  {| def := def r; device_label := device_label r; uid := uid r;
     dmx_start_address := dmx_start_address r;
     sub_device_count := v;
     current_personality := current_personality r;
     queued_message_count := queued_message_count r;
     is_muted := is_muted r; identify_on := identify_on r;
     using_factory_defaults := using_factory_defaults r;
     is_subdevice := is_subdevice r;
     is_managed_proxy := is_managed_proxy r;
     is_proxied_device := is_proxied_device r |}.

Definition set_current_personality (v : Z) (r : RDMResponder) : RDMResponder :=
  {| def := def r; device_label := device_label r; uid := uid r;
     dmx_start_address := dmx_start_address r;
     sub_device_count := sub_device_count r;
     current_personality := v;
     queued_message_count := queued_message_count r;
     is_muted := is_muted r; identify_on := identify_on r;
     using_factory_defaults := using_factory_defaults r;
     is_subdevice := is_subdevice r;
     is_managed_proxy := is_managed_proxy r;
     is_proxied_device := is_proxied_device r |}.

Definition set_queued_message_count (v : Z) (r : RDMResponder) : RDMResponder :=
  {| def := def r; device_label := device_label r; uid := uid r;
     dmx_start_address := dmx_start_address r;
     sub_device_count := sub_device_count r;
     current_personality := current_personality r;
     queued_message_count := v;
     is_muted := is_muted r; identify_on := identify_on r;
     using_factory_defaults := using_factory_defaults r;
     is_subdevice := is_subdevice r;
     is_managed_proxy := is_managed_proxy r;
     is_proxied_device := is_proxied_device r |}.

Definition set_is_muted (v : bool) (r : RDMResponder) : RDMResponder :=
  {| def := def r; device_label := device_label r; uid := uid r;
     dmx_start_address := dmx_start_address r;
     sub_device_count := sub_device_count r;
     current_personality := current_personality r;
     queued_message_count := queued_message_count r;
     is_muted := v; identify_on := identify_on r;
     using_factory_defaults := using_factory_defaults r;
     is_subdevice := is_subdevice r;
     is_managed_proxy := is_managed_proxy r;
     is_proxied_device := is_proxied_device r |}.

Definition set_identify_on (v : bool) (r : RDMResponder) : RDMResponder :=
  {| def := def r; device_label := device_label r; uid := uid r;
     dmx_start_address := dmx_start_address r;
     sub_device_count := sub_device_count r;
     current_personality := current_personality r;
     queued_message_count := queued_message_count r;
     is_muted := is_muted r; identify_on := v;
     using_factory_defaults := using_factory_defaults r;
     is_subdevice := is_subdevice r;
     is_managed_proxy := is_managed_proxy r;
     is_proxied_device := is_proxied_device r |}.

Definition set_using_factory_defaults (v : bool) (r : RDMResponder)
    : RDMResponder :=
  {| def := def r; device_label := device_label r; uid := uid r;
     dmx_start_address := dmx_start_address r;
     sub_device_count := sub_device_count r;
     current_personality := current_personality r;
     queued_message_count := queued_message_count r;
     is_muted := is_muted r; identify_on := identify_on r;
     using_factory_defaults := v;
     is_subdevice := is_subdevice r;
     is_managed_proxy := is_managed_proxy r;
     is_proxied_device := is_proxied_device r |}.

Definition with_responder (f : RDMResponder -> RDMResponder) (s : State)
    : State :=
  {| g_responder := f (g_responder s); g_rdm_buffer := g_rdm_buffer s;
     g_internal_state := g_internal_state s;
     g_coarse_timer := g_coarse_timer s; ports := ports s |}.

Definition with_buffer (f : list Z -> list Z) (s : State) : State :=
  {| g_responder := g_responder s; g_rdm_buffer := f (g_rdm_buffer s);
     g_internal_state := g_internal_state s;
     g_coarse_timer := g_coarse_timer s; ports := ports s |}.

Definition with_internal_state
    (f : InternalResponderState -> InternalResponderState) (s : State)
    : State :=
  {| g_responder := g_responder s; g_rdm_buffer := g_rdm_buffer s;
     g_internal_state := f (g_internal_state s);
     g_coarse_timer := g_coarse_timer s; ports := ports s |}.

Definition with_ports (f : Ports -> Ports) (s : State) : State :=
  {| g_responder := g_responder s; g_rdm_buffer := g_rdm_buffer s;
     g_internal_state := g_internal_state s;
     g_coarse_timer := g_coarse_timer s; ports := f (ports s) |}.

Definition set_mute_timer (v : Z) (i : InternalResponderState)
    : InternalResponderState :=
  {| mute_timer := v; identify_timer := identify_timer i |}.

Definition set_identify_timer (v : Z) (i : InternalResponderState)
    : InternalResponderState :=
  {| mute_timer := mute_timer i; identify_timer := v |}.

Definition set_mute_pin (v : bool) (p : Ports) : Ports :=
  {| mute_pin := v; identify_pin := identify_pin p |}.

Definition set_identify_pin (v : bool) (p : Ports) : Ports :=
  {| mute_pin := mute_pin p; identify_pin := v |}.

(** ** The monad of the C functions: state, and [None] for a run without
    defined behaviour. *)

Definition M (A : Type) : Type := State -> option (A * State).

#[global] Instance M_ret : MRet M := fun A a s => Some (a, s).

#[global] Instance M_bind : MBind M := fun A B f m s =>
  match m s with
  | Some (a, s') => f a s'
  | None => None
  end.

Definition fault {A} : M A := fun _ => None.
Definition get_state : M State := fun s => Some (s, s).
Definition modify (f : State -> State) : M unit := fun s => Some (tt, f s).

(** [*ptr = v] for [ptr = g_rdm_buffer + i], a [uint8_t] store. *)
Definition store8 (i : nat) (v : Z) : M unit := fun s =>
  if (i <? length (g_rdm_buffer s))%nat
  then Some (tt, with_buffer (fun b => <[i := to_uint8 v]> b) s)
  else None.

(** [*ptr++ = v]. *)
Definition store8_inc (ptr : nat) (v : Z) : M nat :=
  store8 ptr v;; mret (S ptr).

(** [memset(g_rdm_buffer + ptr, v, n)]. *)
Fixpoint memset (ptr : nat) (v : Z) (n : nat) : M unit :=
  match n with
  | O => mret tt
  | S n' => store8 ptr v;; memset (S ptr) v n'
  end.

(** [memcpy(g_rdm_buffer + ptr, src, n)]. *)
Fixpoint memcpy (ptr : nat) (src : list Z) (n : nat) : M unit :=
  match n with
  | O => mret tt
  | S n' => store8 ptr (byte_at src 0);; memcpy (S ptr) (tail src) n'
  end.

(** Modelled from the spec: [PushUInt16] of the missing [utils.h]
    ("serializer helpers push_u16, push_u32, all big-endian on the
    wire") stores the two bytes of [v] and returns the advanced
    pointer. *)
Definition PushUInt16 (ptr : nat) (v : Z) : M nat :=
  store8 ptr (ShortMSB v);;
  store8 (S ptr) (ShortLSB v);;
  mret (S (S ptr)).

(** The 16-bit additive sum of [bytes], as [uint16_t checksum += b]. *)
Definition checksum16 (bytes : list Z) : Z :=
  fold_left (fun c b => to_uint16 (c + b)) bytes 0.

(** Modelled from the spec: [RDMUtil_AppendChecksum] of the missing
    [rdm_util.c] "computes the 16-bit additive sum over the declared
    message length and writes two big-endian bytes"; the declared
    length is byte 2 of the frame, and the value returned is the length
    of the frame to send. *)
Definition RDMUtil_AppendChecksum : M Z :=
  s ← get_state;
  let frame := g_rdm_buffer s in
  let message_length := Z.to_nat (byte_at frame 2) in
  let checksum := checksum16 (take message_length frame) in
  store8 message_length (ShortMSB checksum);;
  store8 (S message_length) (ShortLSB checksum);;
  mret (Z.of_nat message_length + 2).

(** The helpers of [rdm_util.h] whose behaviour neither the sources nor
    the specification fix: [RDMUtil_IsUnicast] decides whether a
    destination UID is unicast, [RDMUtil_StringCopy dst dest_size src
    src_size] gives the new contents of [dst] and the number of bytes
    copied. *)
Class RDMUtil := {
  RDMUtil_IsUnicast : list Z -> bool;
  RDMUtil_StringCopy : list Z -> Z -> list Z -> Z -> list Z * Z
}.

(** The handlers that device models register next to those of
    rdm_responder.c. *)
Class ModelHandlers := {
  model_handler : nat -> RDMHeader -> list Z -> M Z
}.

(** ** rdm_responder.c *)

Section Responder.
Context `{RDMUtil} `{ModelHandlers}.

Definition update_responder (f : RDMResponder -> RDMResponder) : M unit :=
  modify (with_responder f).

(** [CoarseTimer_GetTime()] called from the responder. *)
Definition GetTime : M Z :=
  s ← get_state; mret (CoarseTimer_GetTime (g_coarse_timer s)).

Definition GetControlField : M Z :=
  s ← get_state;
  let r := g_responder s in
  mret (Z.lor
          (Z.lor (if sub_device_count r =? 0 then 0 else MUTE_SUBDEVICE_FLAG)
                 (if is_managed_proxy r then MUTE_MANAGED_PROXY_FLAG else 0))
          (if is_proxied_device r then MUTE_PROXY_FLAG else 0)).

Definition RDMResponder_ResetToFactoryDefaults : M unit :=
  update_responder (set_dmx_start_address INVALID_DMX_START_ADDRESS);;
  update_responder (set_sub_device_count 0);;
  update_responder (set_current_personality 1);;
  update_responder (set_queued_message_count 0);;
  update_responder (set_is_muted false);;
  update_responder (set_identify_on false);;
  s ← get_state;
  match def (g_responder s) with
  | Some d =>
      update_responder (fun r =>
        set_device_label
          (fst (RDMUtil_StringCopy (device_label r) RDM_DEFAULT_STRING_SIZE
                  (default_device_label d) RDM_DEFAULT_STRING_SIZE)) r);;
      (if personality_count d =? 0 then mret tt
       else
         update_responder (set_current_personality 1);;
         update_responder (set_dmx_start_address 1))
  | None => mret tt
  end;;
  update_responder (set_using_factory_defaults true).

Definition RDMResponder_HandleDUBRequest (param_data : list Z)
    (param_data_length : Z) : M Z :=
  s ← get_state;
  let own := uid (g_responder s) in
  if is_muted (g_responder s)
     || negb (param_data_length =? 2 * Z.of_nat UID_LENGTH)
  then mret RDM_RESPONDER_NO_RESPONSE
  else if negb ((RDMUtil_UIDCompare param_data own <=? 0)
                && (RDMUtil_UIDCompare own (drop UID_LENGTH param_data) <=? 0))
  then mret RDM_RESPONDER_NO_RESPONSE
  else
    memset 0 FE_CONSTANT 7;;
    store8 7 AA_CONSTANT;;
    store8 8 (Z.lor (byte_at own 0) AA_CONSTANT);;
    store8 9 (Z.lor (byte_at own 0) FIVE5_CONSTANT);;
    store8 10 (Z.lor (byte_at own 1) AA_CONSTANT);;
    store8 11 (Z.lor (byte_at own 1) FIVE5_CONSTANT);;
    store8 12 (Z.lor (byte_at own 2) AA_CONSTANT);;
    store8 13 (Z.lor (byte_at own 2) FIVE5_CONSTANT);;
    store8 14 (Z.lor (byte_at own 3) AA_CONSTANT);;
    store8 15 (Z.lor (byte_at own 3) FIVE5_CONSTANT);;
    store8 16 (Z.lor (byte_at own 4) AA_CONSTANT);;
    store8 17 (Z.lor (byte_at own 4) FIVE5_CONSTANT);;
    store8 18 (Z.lor (byte_at own 5) AA_CONSTANT);;
    store8 19 (Z.lor (byte_at own 5) FIVE5_CONSTANT);;
    s' ← get_state;
    let response := g_rdm_buffer s' in
    let checksum :=
      fold_left (fun c i => to_uint16 (c + byte_at response i))
                (seq 8 12) 0 in
    store8 20 (Z.lor (ShortMSB checksum) AA_CONSTANT);;
    store8 21 (Z.lor (ShortMSB checksum) FIVE5_CONSTANT);;
    store8 22 (Z.lor (ShortLSB checksum) AA_CONSTANT);;
    store8 23 (Z.lor (ShortLSB checksum) FIVE5_CONSTANT);;
    mret (- DUB_RESPONSE_LENGTH).

(** The [switch] on [header->command_class]; [None] is its [default]. *)
Definition response_command_class (cc : Z) : option Z :=
  if cc =? DISCOVERY_COMMAND then Some DISCOVERY_COMMAND_RESPONSE
  else if cc =? GET_COMMAND then Some GET_COMMAND_RESPONSE
  else if cc =? SET_COMMAND then Some SET_COMMAND_RESPONSE
  else None.

Definition RDMResponder_AddHeaderAndChecksum (header : RDMHeader)
    (response_type : Z) (message_length : Z) : M Z :=
  match response_command_class (command_class header) with
  | None => mret RDM_RESPONDER_NO_RESPONSE
  | Some rcc =>
      ptr ← store8_inc 0 RDM_START_CODE;
      ptr ← store8_inc ptr SUB_START_CODE;
      ptr ← store8_inc ptr message_length;
      memcpy ptr (src_uid header) UID_LENGTH;;
      let ptr := (ptr + UID_LENGTH)%nat in
      memcpy ptr (dest_uid header) UID_LENGTH;;
      let ptr := (ptr + UID_LENGTH)%nat in
      ptr ← store8_inc ptr (transaction_number header);
      ptr ← store8_inc ptr response_type;
      s ← get_state;
      ptr ← store8_inc ptr (queued_message_count (g_responder s));
      ptr ← PushUInt16 ptr (ntohs (sub_device header));
      ptr ← store8_inc ptr rcc;
      ptr ← PushUInt16 ptr (ntohs (param_id header));
      store8_inc ptr
        (to_uint32 (message_length - Z.of_nat sizeof_RDMHeader));;
      RDMUtil_AppendChecksum
  end.

Definition RDMResponder_BuildSetAck (header : RDMHeader) : M Z :=
  if negb (RDMUtil_IsUnicast (dest_uid header))
  then mret RDM_RESPONDER_NO_RESPONSE
  else RDMResponder_AddHeaderAndChecksum header ACK
         (Z.of_nat sizeof_RDMHeader).

Definition RDMResponder_BuildNack (header : RDMHeader) (reason : Z) : M Z :=
  if negb (RDMUtil_IsUnicast (dest_uid header))
  then mret RDM_RESPONDER_NO_RESPONSE
  else
    ptr ← PushUInt16 sizeof_RDMHeader reason;
    RDMResponder_AddHeaderAndChecksum header NACK_REASON (Z.of_nat ptr).

(** [*value = b] inside [RDMResponder_GenericSetBool] is the update
    [set_value b] of the responder field the caller points at. *)
Definition RDMResponder_GenericSetBool (header : RDMHeader)
    (param_data : list Z) (set_value : bool -> RDMResponder -> RDMResponder)
    : M Z :=
  if negb (param_data_length header =? 1)
  then RDMResponder_BuildNack header NR_FORMAT_ERROR
  else
    match byte_at param_data 0 with
    | 0 => update_responder (set_value false);;
           RDMResponder_BuildSetAck header
    | 1 => update_responder (set_value true);;
           RDMResponder_BuildSetAck header
    | _ => RDMResponder_BuildNack header NR_DATA_OUT_OF_RANGE
    end.

Definition RDMResponder_GenericGetBool (header : RDMHeader) (value : bool)
    : M Z :=
  store8 sizeof_RDMHeader (if value then 1 else 0);;
  RDMResponder_AddHeaderAndChecksum header ACK
    (Z.of_nat sizeof_RDMHeader + 1).

Definition RDMResponder_SetMute (header : RDMHeader) : M Z :=
  if negb (param_data_length header =? 0)
  then mret RDM_RESPONDER_NO_RESPONSE
  else
    update_responder (set_is_muted true);;
    modify (with_ports (set_mute_pin false));;
    if negb (RDMUtil_IsUnicast (dest_uid header))
    then mret RDM_RESPONDER_NO_RESPONSE
    else
      cf ← GetControlField;
      ptr ← PushUInt16 sizeof_RDMHeader cf;
      RDMResponder_AddHeaderAndChecksum header ACK (Z.of_nat ptr).

Definition RDMResponder_SetUnMute (header : RDMHeader) : M Z :=
  if negb (param_data_length header =? 0)
  then mret RDM_RESPONDER_NO_RESPONSE
  else
    update_responder (set_is_muted false);;
    modify (with_ports (set_mute_pin true));;
    now ← GetTime;
    modify (with_internal_state (set_mute_timer now));;
    if negb (RDMUtil_IsUnicast (dest_uid header))
    then mret RDM_RESPONDER_NO_RESPONSE
    else
      cf ← GetControlField;
      ptr ← PushUInt16 sizeof_RDMHeader cf;
      RDMResponder_AddHeaderAndChecksum header ACK (Z.of_nat ptr).

Definition RDMResponder_SetDeviceLabel (header : RDMHeader)
    (param_data : list Z) : M Z :=
  if RDM_DEFAULT_STRING_SIZE <? param_data_length header
  then RDMResponder_BuildNack header NR_FORMAT_ERROR
  else
    update_responder (fun r =>
      set_device_label
        (fst (RDMUtil_StringCopy (device_label r) RDM_DEFAULT_STRING_SIZE
                param_data (param_data_length header))) r);;
    update_responder (set_using_factory_defaults false);;
    RDMResponder_BuildSetAck header.

Definition RDMResponder_SetDMXPersonality (header : RDMHeader)
    (param_data : list Z) : M Z :=
  if negb (param_data_length header =? 1)
  then RDMResponder_BuildNack header NR_FORMAT_ERROR
  else
    let new_personality := byte_at param_data 0 in
    s ← get_state;
    match def (g_responder s) with
    | None => fault
    | Some d =>
        if (new_personality =? 0) || (personality_count d <? new_personality)
        then RDMResponder_BuildNack header NR_DATA_OUT_OF_RANGE
        else
          (if current_personality (g_responder s) =? new_personality
           then mret tt
           else update_responder (set_using_factory_defaults false));;
          update_responder (set_current_personality new_personality);;
          RDMResponder_BuildSetAck header
    end.

Definition RDMResponder_GetDMXStartAddress (header : RDMHeader)
    (param_data : list Z) : M Z :=
  s ← get_state;
  ptr ← PushUInt16 sizeof_RDMHeader (dmx_start_address (g_responder s));
  RDMResponder_AddHeaderAndChecksum header ACK (Z.of_nat ptr).

Definition RDMResponder_SetDMXStartAddress (header : RDMHeader)
    (param_data : list Z) : M Z :=
  if negb (param_data_length header =? 2)
  then RDMResponder_BuildNack header NR_FORMAT_ERROR
  else
    let address := JoinShort (byte_at param_data 0) (byte_at param_data 1) in
    if (address =? 0) || (MAX_DMX_START_ADDRESS <? address)
    then RDMResponder_BuildNack header NR_DATA_OUT_OF_RANGE
    else
      s ← get_state;
      (if dmx_start_address (g_responder s) =? address
       then mret tt
       else update_responder (set_using_factory_defaults false));;
      update_responder (set_dmx_start_address address);;
      RDMResponder_BuildSetAck header.

Definition RDMResponder_GetIdentifyDevice (header : RDMHeader)
    (param_data : list Z) : M Z :=
  s ← get_state;
  RDMResponder_GenericGetBool header (identify_on (g_responder s)).

Definition RDMResponder_SetIdentifyDevice (header : RDMHeader)
    (param_data : list Z) : M Z :=
  s ← get_state;
  let previous_identify := identify_on (g_responder s) in
  r ← RDMResponder_GenericSetBool header param_data set_identify_on;
  s' ← get_state;
  if eqb (identify_on (g_responder s')) previous_identify
  then mret r
  else
    update_responder (set_using_factory_defaults false);;
    (if identify_on (g_responder s')
     then
       now ← GetTime;
       modify (with_internal_state (set_identify_timer now));;
       modify (with_ports (set_identify_pin true))
     else modify (with_ports (set_identify_pin false)));;
    mret r.

(** A call through a handler pointer of the descriptor table. *)
Definition call_handler (f : PIDCommandHandler) (header : RDMHeader)
    (param_data : list Z) : M Z :=
  match f with
  | Handler_SetDeviceLabel => RDMResponder_SetDeviceLabel header param_data
  | Handler_SetDMXPersonality =>
      RDMResponder_SetDMXPersonality header param_data
  | Handler_GetDMXStartAddress =>
      RDMResponder_GetDMXStartAddress header param_data
  | Handler_SetDMXStartAddress =>
      RDMResponder_SetDMXStartAddress header param_data
  | Handler_GetIdentifyDevice =>
      RDMResponder_GetIdentifyDevice header param_data
  | Handler_SetIdentifyDevice =>
      RDMResponder_SetIdentifyDevice header param_data
  | Handler_Model n => model_handler n header param_data
  end.

(** The body of the [for] loop of [RDMResponder_DispatchPID] for the
    descriptor [d] whose [pid] matched. *)
Definition dispatch_descriptor (d : PIDDescriptor) (header : RDMHeader)
    (param_data : list Z) : M Z :=
  if command_class header =? GET_COMMAND then
    if RDMUtil_IsUnicast (dest_uid header) then
      match get_handler d with
      | Some handler =>
          if param_data_length header =? get_param_size d
          then call_handler handler header param_data
          else RDMResponder_BuildNack header NR_FORMAT_ERROR
      | None => RDMResponder_BuildNack header NR_UNSUPPORTED_COMMAND_CLASS
      end
    else mret RDM_RESPONDER_NO_RESPONSE
  else
    match set_handler d with
    | Some handler => call_handler handler header param_data
    | None => RDMResponder_BuildNack header NR_UNSUPPORTED_COMMAND_CLASS
    end.

(** The linear scan [for (; i < definition->descriptor_count; i++)]. *)
Fixpoint dispatch_scan (ds : list PIDDescriptor) (p : Z)
    (header : RDMHeader) (param_data : list Z) : M Z :=
  match ds with
  | [] => RDMResponder_BuildNack header NR_UNKNOWN_PID
  | d :: rest =>
      if p =? pid d then dispatch_descriptor d header param_data
      else dispatch_scan rest p header param_data
  end.

Definition RDMResponder_DispatchPID (header : RDMHeader)
    (param_data : list Z) : M Z :=
  s ← get_state;
  match def (g_responder s) with
  | None => fault
  | Some definition =>
      dispatch_scan (descriptors definition) (ntohs (param_id header))
        header param_data
  end.

Definition RDMResponder_HandleDiscovery (header : RDMHeader)
    (param_data : list Z) : M Z :=
  if negb (ntohs (sub_device header) =? SUBDEVICE_ROOT)
  then mret RDM_RESPONDER_NO_RESPONSE
  else
    let p := ntohs (param_id header) in
    if p =? PID_DISC_UNIQUE_BRANCH
    then RDMResponder_HandleDUBRequest param_data (param_data_length header)
    else if p =? PID_DISC_MUTE then RDMResponder_SetMute header
    else if p =? PID_DISC_UN_MUTE then RDMResponder_SetUnMute header
    else mret RDM_RESPONDER_NO_RESPONSE.

End Responder.

(** ** Reading a frame back *)

(** The cast of [g_rdm_buffer] to an [RDMHeader] pointer, as in
    [RDMResponder_BuildHeader]:
    the packed 24-byte header read field by field, the 16-bit fields as
    the little-endian target loads them. *)
Definition load16 (b : list Z) (i : nat) : Z :=
  byte_at b i + 256 * byte_at b (S i).

Definition RDMHeader_of_buffer (b : list Z) : RDMHeader :=
  {| start_code := byte_at b 0;
     sub_start_code := byte_at b 1;
     message_length := byte_at b 2;
     dest_uid := take UID_LENGTH (drop 3 b);
     src_uid := take UID_LENGTH (drop 9 b);
     transaction_number := byte_at b 15;
     port_id := byte_at b 16;
     message_count := byte_at b 17;
     sub_device := load16 b 18;
     command_class := byte_at b 20;
     param_id := load16 b 21;
     param_data_length := byte_at b 23 |}.

(** The parameter data of the frame in the buffer. *)
Definition param_data_of_buffer (b : list Z) : list Z :=
  take (Z.to_nat (byte_at b 23)) (drop sizeof_RDMHeader b).

(** A computation ended with a complete reply frame in the buffer: the
    value returned is the frame length, the header has the given
    response type and parameter data, and the two bytes after the
    message are its additive checksum. *)
Definition is_reply (response_type : Z) (data : list Z)
    (res : option (Z * State)) : Prop :=
  exists n s',
    res = Some (n, s') /\
    let b := g_rdm_buffer s' in
    let ml := Z.to_nat (byte_at b 2) in
    n = Z.of_nat ml + 2 /\
    port_id (RDMHeader_of_buffer b) = response_type /\
    param_data_of_buffer b = data /\
    Z.of_nat ml = Z.of_nat sizeof_RDMHeader + Z.of_nat (length data) /\
    b !! ml = Some (ShortMSB (checksum16 (take ml b))) /\
    b !! S ml = Some (ShortLSB (checksum16 (take ml b))).

(** A NACK frame carries the reason as two big-endian bytes. *)
Definition is_nack (reason : Z) (res : option (Z * State)) : Prop :=
  is_reply NACK_REASON [ShortMSB reason; ShortLSB reason] res.

(** A SET ACK frame has no parameter data. *)
Definition is_set_ack (res : option (Z * State)) : Prop :=
  is_reply ACK [] res.

(** ** The DUB response as the specification words it *)

(** The lexicographic order on UIDs, first byte most significant. *)
Inductive uid_lex_lt : list Z -> list Z -> Prop :=
  | uid_lex_lt_head x y a b : x < y -> uid_lex_lt (x :: a) (y :: b)
  | uid_lex_lt_tail x a b : uid_lex_lt a b -> uid_lex_lt (x :: a) (x :: b).

Definition uid_lex_le (a b : list Z) : Prop := a = b \/ uid_lex_lt a b.

(** A UID as the 48-bit number its bytes spell in big-endian order. *)
Definition UID_to_Z (u : list Z) : Z :=
  fold_left (fun acc b => acc * 256 + b) u 0.

(** "each UID byte b expanded to two bytes (b | 0xAA) and (b | 0x55)" *)
Definition DUB_expand (b : Z) : list Z := [Z.lor b 0xAA; Z.lor b 0x55].

(** "seven 0xFE bytes, one 0xAA delimiter, then each UID byte expanded
    in big-endian order, then the 16-bit additive checksum of those 12
    expanded UID bytes, also expanded the same way (high-byte pair then
    low-byte pair)" *)
Definition DUB_encode (u : list Z) : list Z :=
  let euid := flat_map DUB_expand u in
  let checksum := checksum16 euid in
  repeat 0xFE 7 ++ [0xAA] ++ euid
    ++ DUB_expand (ShortMSB checksum) ++ DUB_expand (ShortLSB checksum).

(** "Decoding by masking out 0x55/0xAA": the first byte of a pair
    carries the bits of 0x55, the second those of 0xAA. *)
Definition DUB_combine (e1 e2 : Z) : Z :=
  Z.lor (Z.land e1 0x55) (Z.land e2 0xAA).

Fixpoint DUB_combine_pairs (l : list Z) : list Z :=
  match l with
  | e1 :: e2 :: rest => DUB_combine e1 e2 :: DUB_combine_pairs rest
  | _ => []
  end.

(** The decoder of a captured 24-byte response: the UID, when the
    preamble and delimiter are in place and the decoded checksum is the
    16-bit additive sum of the 12 encoded UID bytes. *)
Definition DUB_decode (response : list Z) : option (list Z) :=
  let euid := take 12 (drop 8 response) in
  let ecsum := DUB_combine_pairs (take 4 (drop 20 response)) in
  let checksum := JoinShort (byte_at ecsum 0) (byte_at ecsum 1) in
  if bool_decide (take 8 response = repeat 0xFE 7 ++ [0xAA])
     && (length response =? 24)%nat
     && (checksum =? checksum16 euid)
  then Some (DUB_combine_pairs euid)
  else None.

(** ** Instances for running the model on concrete requests *)

(** Modelled from the spec: "Broadcast UIDs have device-id 0xFFFFFFFF; a
    UID is unicast when neither manufacturer nor device parts are
    all-ones in the relevant positions": the four device-id bytes are
    not all 0xFF. *)
Definition IsUnicast_device_id (u : list Z) : bool :=
  negb (forallb (fun b => b =? 0xFF) (drop 2 u)).

(** A bounded copy: [min dest_size src_size] bytes of [src] replace the
    head of [dst]. *)
Definition StringCopy_bounded (dst : list Z) (dest_size : Z)
    (src : list Z) (src_size : Z) : list Z * Z :=
  let n := Z.to_nat (Z.min dest_size src_size) in
  (take n src ++ drop (length (take n src)) dst,
   Z.of_nat (length (take n src))).

Definition sample_RDMUtil : RDMUtil :=
  {| RDMUtil_IsUnicast := IsUnicast_device_id;
     RDMUtil_StringCopy := StringCopy_bounded |}.

Definition no_ModelHandlers : ModelHandlers :=
  {| model_handler := fun _ _ _ => mret RDM_RESPONDER_NO_RESPONSE |}.

(** The descriptor table of a responder that supports DMX_START_ADDRESS
    and IDENTIFY_DEVICE. *)
Definition sample_definition : ResponderDefinition :=
  {| descriptors :=
       [ {| pid := PID_DEVICE_LABEL; get_handler := None;
            set_handler := Some Handler_SetDeviceLabel;
            get_param_size := 0 |};
         {| pid := PID_DMX_PERSONALITY; get_handler := None;
            set_handler := Some Handler_SetDMXPersonality;
            get_param_size := 0 |};
         {| pid := PID_DMX_START_ADDRESS;
            get_handler := Some Handler_GetDMXStartAddress;
            set_handler := Some Handler_SetDMXStartAddress;
            get_param_size := 0 |};
         {| pid := PID_IDENTIFY_DEVICE;
            get_handler := Some Handler_GetIdentifyDevice;
            set_handler := Some Handler_SetIdentifyDevice;
            get_param_size := 0 |} ];
     personality_count := 2;
     default_device_label := [] |}.

(** The responder 7a70:00000001 after a factory reset, with an all-zero
    frame buffer. *)
Definition sample_responder : RDMResponder :=
  {| def := Some sample_definition;
     device_label := [];
     uid := [0x7a; 0x70; 0; 0; 0; 1];
     dmx_start_address := 1;
     sub_device_count := 0;
     current_personality := 1;
     queued_message_count := 0;
     is_muted := false;
     identify_on := false;
     using_factory_defaults := true;
     is_subdevice := false;
     is_managed_proxy := false;
     is_proxied_device := false |}.

Definition sample_state : State :=
  {| g_responder := sample_responder;
     g_rdm_buffer := repeat 0 RDM_FRAME_SIZE;
     g_internal_state := {| mute_timer := 0; identify_timer := 0 |};
     g_coarse_timer := {| timer_count := 0 |};
     ports := {| mute_pin := true; identify_pin := false |} |}.

(** A request header from controller 0001:00000001; the 16-bit fields
    are given in host order and stored as the target holds them. *)
Definition sample_header (dest : list Z) (cc p sub pdl : Z) : RDMHeader :=
  {| start_code := RDM_START_CODE;
     sub_start_code := SUB_START_CODE;
     message_length := 24 + pdl;
     dest_uid := dest;
     src_uid := [0; 1; 0; 0; 0; 1];
     transaction_number := 7;
     port_id := 1;
     message_count := 0;
     sub_device := ntohs sub;
     command_class := cc;
     param_id := ntohs p;
     param_data_length := pdl |}.

Definition own_uid : list Z := [0x7a; 0x70; 0; 0; 0; 1].
Definition broadcast_uid : list Z := [0xFF; 0xFF; 0xFF; 0xFF; 0xFF; 0xFF].


(** ** Auxiliary notions of the proofs *)

(** The frame buffer has the size [rdm_buffer.h] declares. *)
Definition buffer_ok (s : State) : Prop :=
  length (g_rdm_buffer s) = RDM_FRAME_SIZE.

(** The guard of [RDMResponder_HandleDUBRequest]. *)
Definition DUB_guard (s : State) (param_data : list Z)
    (param_data_length : Z) : bool :=
  negb (is_muted (g_responder s))
  && (param_data_length =? 12)
  && (RDMUtil_UIDCompare param_data (uid (g_responder s)) <=? 0)
  && (RDMUtil_UIDCompare (uid (g_responder s))
        (drop UID_LENGTH param_data) <=? 0).

(** The frame buffer after a DUB response was staged. *)
Definition DUB_staged (own : list Z) (b : list Z) : list Z :=
  DUB_encode own ++ drop 24 b.

(** The 24 header bytes of a reply to [header]. *)
Definition reply_header (header : RDMHeader) (response_type qmc rcc ml : Z)
    : list Z :=
  [RDM_START_CODE; SUB_START_CODE; ml]
  ++ src_uid header ++ dest_uid header
  ++ [transaction_number header; response_type; qmc;
      ShortMSB (ntohs (sub_device header));
      ShortLSB (ntohs (sub_device header));
      rcc;
      ShortMSB (ntohs (param_id header));
      ShortLSB (ntohs (param_id header));
      ml - 24].

(** The frame with the checksum of its first [ml] bytes stored after
    them. *)
Definition append_checksum (ml : nat) (frame : list Z) : list Z :=
  let c := checksum16 (take ml frame) in
  <[S ml := ShortLSB c]> (<[ml := ShortMSB c]> frame).

(** The frame buffer after [RDMResponder_AddHeaderAndChecksum]: the
    header in front of the parameter data already staged, then the
    checksum. *)
Definition reply_frame (header : RDMHeader) (response_type qmc rcc ml : Z)
    (b : list Z) : list Z :=
  append_checksum (Z.to_nat ml)
    (reply_header header response_type qmc rcc ml ++ drop 24 b).

(** [s'] is [s] with another content of the frame buffer. *)
Definition frame_only (s s' : State) : Prop :=
  g_responder s' = g_responder s /\
  g_internal_state s' = g_internal_state s /\
  g_coarse_timer s' = g_coarse_timer s /\
  ports s' = ports s /\
  buffer_ok s'.

(** The descriptor that the scan of [RDMResponder_DispatchPID] stops
    at: the first one of the table with the requested PID. *)
Definition descriptor_for (ds : list PIDDescriptor) (p : Z)
    : option PIDDescriptor :=
  List.find (fun d => p =? pid d) ds.


(** ** The rest of rdm_responder.c *)

Definition FLASH_FAST : Z := 1000.
Definition FLASH_SLOW : Z := 10000.
Definition SENSOR_VALUE_PARAM_DATA_LENGTH : nat := 9.

(** Modelled from the spec: [SENSOR_VALUE_UNSUPPORTED] = 0 "is written
    into lowest/highest/recorded fields when the definition does not
    support them", and of the recorded-value-support flags "bit 0 =
    supports recording, bit 1 = supports lowest/highest tracking"
    ([rdm.h] is missing). [ALL_SENSORS] has the value ANSI E1.20 gives
    it. *)
Definition SENSOR_VALUE_UNSUPPORTED : Z := 0.
Definition SENSOR_SUPPORTS_RECORDING_MASK : Z := 1.
Definition SENSOR_SUPPORTS_LOWEST_HIGHEST_MASK : Z := 2.
Definition ALL_SENSORS : Z := 0xFF.

(** [htons] on the little-endian target: the byte swap that [ntohs]
    is. *)
Definition htons (x : Z) : Z := ntohs x.

(** Modelled from the spec: [ExtractUInt16], [ExtractUInt32] and
    [PushUInt32] of the missing [utils.h] read and write integers that
    are "all big-endian on the wire". *)
Definition ExtractUInt16 (ptr : list Z) : Z :=
  JoinShort (byte_at ptr 0) (byte_at ptr 1).

Definition ExtractUInt32 (ptr : list Z) : Z :=
  to_uint32
    (Z.lor (Z.lor (Z.shiftl (byte_at ptr 0) 24) (Z.shiftl (byte_at ptr 1) 16))
           (Z.lor (Z.shiftl (byte_at ptr 2) 8) (byte_at ptr 3))).

Definition PushUInt32 (ptr : nat) (v : Z) : M nat :=
  store8 ptr (Z.shiftr v 24);;
  store8 (S ptr) (Z.shiftr v 16);;
  store8 (S (S ptr)) (Z.shiftr v 8);;
  store8 (S (S (S ptr))) v;;
  mret (S (S (S (S ptr)))).

(** A store into a [uint16_t] struct field at byte offset [i] of
    [g_rdm_buffer], as the little-endian target lays it out. *)
Definition store16 (i : nat) (v : Z) : M unit :=
  store8 i (Z.land v 0xFF);;
  store8 (S i) (Z.shiftr (to_uint16 v) 8).

Definition set_uid (v : list Z) (r : RDMResponder) : RDMResponder :=
  {| def := def r; device_label := device_label r; uid := v;
     dmx_start_address := dmx_start_address r;
     sub_device_count := sub_device_count r;
     current_personality := current_personality r;
     queued_message_count := queued_message_count r;
     is_muted := is_muted r; identify_on := identify_on r;
     using_factory_defaults := using_factory_defaults r;
     is_subdevice := is_subdevice r;
     is_managed_proxy := is_managed_proxy r;
     is_proxied_device := is_proxied_device r |}.

Definition set_def (v : option ResponderDefinition) (r : RDMResponder)
    : RDMResponder :=
  {| def := v; device_label := device_label r; uid := uid r;
     dmx_start_address := dmx_start_address r;
     sub_device_count := sub_device_count r;
     current_personality := current_personality r;
     queued_message_count := queued_message_count r;
     is_muted := is_muted r; identify_on := identify_on r;
     using_factory_defaults := using_factory_defaults r;
     is_subdevice := is_subdevice r;
     is_managed_proxy := is_managed_proxy r;
     is_proxied_device := is_proxied_device r |}.

Definition set_is_subdevice (v : bool) (r : RDMResponder) : RDMResponder :=
  {| def := def r; device_label := device_label r; uid := uid r;
     dmx_start_address := dmx_start_address r;
     sub_device_count := sub_device_count r;
     current_personality := current_personality r;
     queued_message_count := queued_message_count r;
     is_muted := is_muted r; identify_on := identify_on r;
     using_factory_defaults := using_factory_defaults r;
     is_subdevice := v;
     is_managed_proxy := is_managed_proxy r;
     is_proxied_device := is_proxied_device r |}.

Definition set_is_managed_proxy (v : bool) (r : RDMResponder)
    : RDMResponder :=
  {| def := def r; device_label := device_label r; uid := uid r;
     dmx_start_address := dmx_start_address r;
     sub_device_count := sub_device_count r;
     current_personality := current_personality r;
     queued_message_count := queued_message_count r;
     is_muted := is_muted r; identify_on := identify_on r;
     using_factory_defaults := using_factory_defaults r;
     is_subdevice := is_subdevice r;
     is_managed_proxy := v;
     is_proxied_device := is_proxied_device r |}.

Definition set_is_proxied_device (v : bool) (r : RDMResponder)
    : RDMResponder :=
  {| def := def r; device_label := device_label r; uid := uid r;
     dmx_start_address := dmx_start_address r;
     sub_device_count := sub_device_count r;
     current_personality := current_personality r;
     queued_message_count := queued_message_count r;
     is_muted := is_muted r; identify_on := identify_on r;
     using_factory_defaults := using_factory_defaults r;
     is_subdevice := is_subdevice r;
     is_managed_proxy := is_managed_proxy r;
     is_proxied_device := v |}.

(** [PLIB_PORTS_PinToggle] on the two pins. *)
Definition toggle_mute_pin (p : Ports) : Ports :=
  set_mute_pin (negb (mute_pin p)) p.

Definition toggle_identify_pin (p : Ports) : Ports :=
  set_identify_pin (negb (identify_pin p)) p.

(** [RDMResponderSettings]: the UID; the port and bit fields are
    hardware identifiers. *)
Record RDMResponderSettings := { settings_uid : list Z }.

(** [SensorDefinition] and [SensorData] (declared in the missing
    [rdm_responder.h]): of a definition the modelled functions read
    only [recorded_value_support]. *)
Record SensorDefinition := { recorded_value_support : Z }.

Record SensorData := {
  present_value : Z;
  lowest_value : Z;
  highest_value : Z;
  recorded_value : Z;
  should_nack : bool;
  nack_reason : Z
}.

(** The body of [RecordSensor(i)] and of [ResetSensor(i)] on the
    definition and the data at index [i]. *)
Definition record_sensor (d : SensorDefinition) (x : SensorData)
    : SensorData :=
  if Z.land (recorded_value_support d) SENSOR_SUPPORTS_RECORDING_MASK =? 0
  then x
  else {| present_value := present_value x;
          lowest_value := lowest_value x;
          highest_value := highest_value x;
          recorded_value := present_value x;
          should_nack := should_nack x;
          nack_reason := nack_reason x |}.

Definition reset_sensor (d : SensorDefinition) (x : SensorData)
    : SensorData :=
  let low_high :=
    if Z.land (recorded_value_support d) SENSOR_SUPPORTS_LOWEST_HIGHEST_MASK
       =? 0
    then SENSOR_VALUE_UNSUPPORTED else present_value x in
  let recorded :=
    if Z.land (recorded_value_support d) SENSOR_SUPPORTS_RECORDING_MASK =? 0
    then SENSOR_VALUE_UNSUPPORTED else present_value x in
  {| present_value := present_value x;
     lowest_value := low_high;
     highest_value := low_high;
     recorded_value := recorded;
     should_nack := should_nack x;
     nack_reason := nack_reason x |}.

(** [RecordSensor] and [ResetSensor]: [defs] is [g_responder->def->sensors]
    and [sensors] is [g_responder->sensors], both arrays being passed
    in and the second one out; an index outside either array is a run
    without defined behaviour. *)
Definition update_sensor (f : SensorDefinition -> SensorData -> SensorData)
    (defs : list SensorDefinition) (sensors : list SensorData) (i : nat)
    : option (list SensorData) :=
  match defs !! i, sensors !! i with
  | Some d, Some x => Some (<[i := f d x]> sensors)
  | _, _ => None
  end.

Definition RecordSensor := update_sensor record_sensor.
Definition ResetSensor := update_sensor reset_sensor.

(** [for (i = 0; i < count; i++) f(i)] over the sensor arrays. *)
Fixpoint for_each_sensor
    (f : list SensorDefinition -> list SensorData -> nat
         -> option (list SensorData))
    (defs : list SensorDefinition) (sensors : list SensorData)
    (i count : nat) : option (list SensorData) :=
  match count with
  | O => Some sensors
  | S count' =>
      match f defs sensors i with
      | Some sensors' => for_each_sensor f defs sensors' (S i) count'
      | None => None
      end
  end.

(** [BuildSensorValueResponse]. *)
Definition BuildSensorValueResponse (ptr : nat) (index : Z)
    (sensor : SensorData) : M nat :=
  ptr ← store8_inc ptr index;
  ptr ← PushUInt16 ptr (present_value sensor);
  ptr ← PushUInt16 ptr (lowest_value sensor);
  ptr ← PushUInt16 ptr (highest_value sensor);
  PushUInt16 ptr (recorded_value sensor).

(** The [switch] of [RDMResponder_GetSupportedParameters]: the PIDs
    that are listed only for a sub-device. *)
Definition listed_for_subdevice_only (p : Z) : bool :=
  (p =? PID_DISC_UNIQUE_BRANCH) || (p =? PID_DISC_MUTE)
  || (p =? PID_DISC_UN_MUTE) || (p =? PID_SUPPORTED_PARAMETERS)
  || (p =? PID_PARAMETER_DESCRIPTION) || (p =? PID_DEVICE_INFO)
  || (p =? PID_SOFTWARE_VERSION_LABEL) || (p =? PID_DMX_START_ADDRESS)
  || (p =? PID_IDENTIFY_DEVICE).

(** The loop of [RDMResponder_GetSupportedParameters]. *)
Fixpoint push_supported_parameters (ds : list PIDDescriptor) (ptr : nat)
    : M nat :=
  match ds with
  | [] => mret ptr
  | d :: rest =>
      s ← get_state;
      ptr ← (if listed_for_subdevice_only (pid d)
             then if is_subdevice (g_responder s)
                  then PushUInt16 ptr (pid d)
                  else mret ptr
             else PushUInt16 ptr (pid d));
      push_supported_parameters rest ptr
  end.

Section ResponderRest.
Context `{RDMUtil}.

(** [RDMResponder_InitResponder]; the [sensors] pointer that it clears
    is not a field of [RDMResponder] here: the sensor handlers below
    take the sensor arrays as arguments. *)
Definition RDMResponder_InitResponder : M unit :=
  update_responder (set_is_subdevice false);;
  update_responder (set_is_managed_proxy false);;
  update_responder (set_is_proxied_device false);;
  RDMResponder_ResetToFactoryDefaults.

(** [RDMResponder_Initialize]; the pin directions that
    [PLIB_PORTS_PinDirectionOutputSet] configures are not part of
    [Ports], and [settings->uid] is an array of [UID_LENGTH] bytes. *)
Definition RDMResponder_Initialize (settings : RDMResponderSettings)
    : M unit :=
  now ← GetTime;
  modify (with_internal_state (set_mute_timer now));;
  modify (with_internal_state (set_identify_timer 0));;
  modify (with_ports (set_identify_pin false));;
  modify (with_ports (set_mute_pin true));;
  update_responder (set_uid (take UID_LENGTH (settings_uid settings)));;
  update_responder (set_def None);;
  RDMResponder_InitResponder.

Definition RDMResponder_Tasks : M unit :=
  s ← get_state;
  (if identify_on (g_responder s)
   then
     if CoarseTimer_HasElapsed (g_coarse_timer s)
          (identify_timer (g_internal_state s)) FLASH_FAST
     then
       now ← GetTime;
       modify (with_internal_state (set_identify_timer now));;
       modify (with_ports toggle_identify_pin)
     else mret tt
   else mret tt);;
  s ← get_state;
  if negb (is_muted (g_responder s))
  then
    if CoarseTimer_HasElapsed (g_coarse_timer s)
         (mute_timer (g_internal_state s)) FLASH_SLOW
    then
      now ← GetTime;
      modify (with_internal_state (set_mute_timer now));;
      modify (with_ports toggle_mute_pin)
    else mret tt
  else mret tt.

(** [RDMResponder_GetUID]: the six bytes copied out. *)
Definition RDMResponder_GetUID : M (list Z) :=
  s ← get_state; mret (take UID_LENGTH (uid (g_responder s))).

(** [RDMResponder_BuildHeader]: the stores through the header pointer
    that [g_rdm_buffer] is cast to. *)
Definition RDMResponder_BuildHeader (incoming_header : RDMHeader)
    (response_type command_class pid message_length : Z) : M unit :=
  store8 0 RDM_START_CODE;;
  store8 1 SUB_START_CODE;;
  store8 2 message_length;;
  memcpy 3 (src_uid incoming_header) UID_LENGTH;;
  memcpy 9 (dest_uid incoming_header) UID_LENGTH;;
  store8 15 (transaction_number incoming_header);;
  store8 16 response_type;;
  s ← get_state;
  store8 17 (queued_message_count (g_responder s));;
  store16 18 (sub_device incoming_header);;
  store8 20 command_class;;
  store16 21 (htons pid);;
  store8 23 (to_uint32 (message_length - Z.of_nat sizeof_RDMHeader)).

Definition RDMResponder_BuildAckTimer (header : RDMHeader) (delay : Z)
    : M Z :=
  ptr ← PushUInt16 sizeof_RDMHeader delay;
  RDMResponder_AddHeaderAndChecksum header ACK_TIMER (Z.of_nat ptr).

Definition RDMResponder_GenericGetUInt8 (header : RDMHeader) (value : Z)
    : M Z :=
  store8 sizeof_RDMHeader value;;
  RDMResponder_AddHeaderAndChecksum header ACK
    (Z.of_nat sizeof_RDMHeader + 1).

(** [*value = v] inside the generic setters is the update [set_value v]
    of the state. *)
Definition RDMResponder_GenericSetUInt8 (header : RDMHeader)
    (param_data : list Z) (set_value : Z -> State -> State) : M Z :=
  if negb (param_data_length header =? 1)
  then RDMResponder_BuildNack header NR_FORMAT_ERROR
  else
    modify (set_value (byte_at param_data 0));;
    RDMResponder_BuildSetAck header.

Definition RDMResponder_GenericGetUInt16 (header : RDMHeader) (value : Z)
    : M Z :=
  ptr ← PushUInt16 sizeof_RDMHeader value;
  RDMResponder_AddHeaderAndChecksum header ACK (Z.of_nat ptr).

Definition RDMResponder_GenericSetUInt16 (header : RDMHeader)
    (param_data : list Z) (set_value : Z -> State -> State) : M Z :=
  if negb (param_data_length header =? 2)
  then RDMResponder_BuildNack header NR_FORMAT_ERROR
  else
    modify (set_value (ExtractUInt16 param_data));;
    RDMResponder_BuildSetAck header.

Definition RDMResponder_GenericGetUInt32 (header : RDMHeader) (value : Z)
    : M Z :=
  ptr ← PushUInt32 sizeof_RDMHeader value;
  RDMResponder_AddHeaderAndChecksum header ACK (Z.of_nat ptr).

Definition RDMResponder_GenericSetUInt32 (header : RDMHeader)
    (param_data : list Z) (set_value : Z -> State -> State) : M Z :=
  if negb (param_data_length header =? 4)
  then RDMResponder_BuildNack header NR_FORMAT_ERROR
  else
    modify (set_value (ExtractUInt32 param_data));;
    RDMResponder_BuildSetAck header.

Definition RDMResponder_GetSupportedParameters (header : RDMHeader)
    (param_data : list Z) : M Z :=
  s ← get_state;
  match def (g_responder s) with
  | None => fault
  | Some definition =>
      ptr ← push_supported_parameters (descriptors definition)
              sizeof_RDMHeader;
      RDMResponder_AddHeaderAndChecksum header ACK (Z.of_nat ptr)
  end.

Definition RDMResponder_GetDMXPersonality (header : RDMHeader)
    (param_data : list Z) : M Z :=
  s ← get_state;
  ptr ← store8_inc sizeof_RDMHeader (current_personality (g_responder s));
  match def (g_responder s) with
  | None => fault
  | Some d =>
      ptr ← store8_inc ptr (personality_count d);
      RDMResponder_AddHeaderAndChecksum header ACK (Z.of_nat ptr)
  end.

(** The sensor handlers take the two sensor arrays and give back the
    data array beside the reply length; [sensor_count] is the length of
    [defs]. *)
Definition RDMResponder_GetSensorValue (defs : list SensorDefinition)
    (sensors : list SensorData) (header : RDMHeader) (param_data : list Z)
    : M Z :=
  let sensor_index := byte_at param_data 0 in
  if Z.of_nat (length defs) <=? sensor_index
  then RDMResponder_BuildNack header NR_DATA_OUT_OF_RANGE
  else
    match sensors !! Z.to_nat sensor_index with
    | None => fault
    | Some sensor =>
        if should_nack sensor
        then RDMResponder_BuildNack header (nack_reason sensor)
        else
          ptr ← BuildSensorValueResponse sizeof_RDMHeader sensor_index
                  sensor;
          RDMResponder_AddHeaderAndChecksum header ACK (Z.of_nat ptr)
    end.

Definition RDMResponder_SetSensorValue (defs : list SensorDefinition)
    (sensors : list SensorData) (header : RDMHeader) (param_data : list Z)
    : M (Z * list SensorData) :=
  if negb (param_data_length header =? 1)
  then
    r ← RDMResponder_BuildNack header NR_FORMAT_ERROR; mret (r, sensors)
  else
    let sensor_index := byte_at param_data 0 in
    let reset :=
      if sensor_index <? Z.of_nat (length defs)
      then Some (ResetSensor defs sensors (Z.to_nat sensor_index))
      else if sensor_index =? ALL_SENSORS
      then Some (for_each_sensor ResetSensor defs sensors 0 (length defs))
      else None in
    match reset with
    | None =>
        r ← RDMResponder_BuildNack header NR_DATA_OUT_OF_RANGE;
        mret (r, sensors)
    | Some None => fault
    | Some (Some sensors') =>
        if negb (RDMUtil_IsUnicast (dest_uid header))
        then mret (RDM_RESPONDER_NO_RESPONSE, sensors')
        else
          ptr ← (if sensor_index =? ALL_SENSORS
                 then
                   memset sizeof_RDMHeader 0 SENSOR_VALUE_PARAM_DATA_LENGTH;;
                   mret (sizeof_RDMHeader
                         + SENSOR_VALUE_PARAM_DATA_LENGTH)%nat
                 else
                   match sensors' !! Z.to_nat sensor_index with
                   | None => fault
                   | Some sensor =>
                       BuildSensorValueResponse sizeof_RDMHeader
                         sensor_index sensor
                   end);
          r ← RDMResponder_AddHeaderAndChecksum header ACK (Z.of_nat ptr);
          mret (r, sensors')
    end.

Definition RDMResponder_SetRecordSensor (defs : list SensorDefinition)
    (sensors : list SensorData) (header : RDMHeader) (param_data : list Z)
    : M (Z * list SensorData) :=
  if negb (param_data_length header =? 1)
  then
    r ← RDMResponder_BuildNack header NR_FORMAT_ERROR; mret (r, sensors)
  else
    let sensor_index := byte_at param_data 0 in
    if sensor_index <? Z.of_nat (length defs)
    then
      match defs !! Z.to_nat sensor_index with
      | None => fault
      | Some d =>
          if Z.land (recorded_value_support d)
               SENSOR_SUPPORTS_RECORDING_MASK =? 0
          then
            r ← RDMResponder_BuildNack header NR_DATA_OUT_OF_RANGE;
            mret (r, sensors)
          else
            match RecordSensor defs sensors (Z.to_nat sensor_index) with
            | None => fault
            | Some sensors' =>
                r ← RDMResponder_BuildSetAck header; mret (r, sensors')
            end
      end
    else if sensor_index =? ALL_SENSORS
    then
      match for_each_sensor RecordSensor defs sensors 0 (length defs) with
      | None => fault
      | Some sensors' =>
          r ← RDMResponder_BuildSetAck header; mret (r, sensors')
      end
    else
      r ← RDMResponder_BuildNack header NR_DATA_OUT_OF_RANGE;
      mret (r, sensors).

End ResponderRest.

(** ** Auxiliary notions of the further proofs *)

(** The array [b] with [bytes] stored from index [ptr] on. *)
Definition write_bytes (ptr : nat) (bytes : list Z) (b : list Z) : list Z :=
  take ptr b ++ bytes ++ drop (ptr + length bytes) b.

(** [s1] is [s] with the parameter data [data] staged after the header
    of the frame buffer, and [ptr] points behind it. *)
Definition staged (s s1 : State) (ptr : nat) (data : list Z) : Prop :=
  s1 = with_buffer (write_bytes sizeof_RDMHeader data) s /\
  ptr = (sizeof_RDMHeader + length data)%nat.

(** The two bytes that [PushUInt16] stores. *)
Definition be16 (v : Z) : list Z := [ShortMSB v; ShortLSB v].

(** The header of the reply to [header], as [RDMHeader_of_buffer] reads
    it back. *)
Definition reply_to (header : RDMHeader) (response_type qmc rcc ml : Z)
    : RDMHeader :=
  {| start_code := RDM_START_CODE;
     sub_start_code := SUB_START_CODE;
     message_length := ml;
     dest_uid := src_uid header;
     src_uid := dest_uid header;
     transaction_number := transaction_number header;
     port_id := response_type;
     message_count := qmc;
     sub_device := sub_device header;
     command_class := rcc;
     param_id := param_id header;
     param_data_length := ml - 24 |}.

(** The sensor values are 16-bit, and so is the NACK reason of a
    sensor. *)
Definition sensor_ok (x : SensorData) : Prop :=
  is_uint16 (present_value x) /\ is_uint16 (lowest_value x) /\
  is_uint16 (highest_value x) /\ is_uint16 (recorded_value x) /\
  is_uint16 (nack_reason x).

(** The nine bytes of a SENSOR_VALUE reply for the sensor [index]. *)
Definition sensor_value_data (index : Z) (x : SensorData) : list Z :=
  index :: be16 (present_value x) ++ be16 (lowest_value x)
  ++ be16 (highest_value x) ++ be16 (recorded_value x).

(** The outcome [res] of a handler run from [s] is the reply [kind] when
    the request was unicast, and silence with the state untouched when
    it was not; only the frame buffer can differ from [s]. *)
Definition answers_unicast `{RDMUtil} (header : RDMHeader) (s : State)
    (kind : option (Z * State) -> Prop) (res : option (Z * State)) : Prop :=
  exists r s',
    res = Some (r, s') /\ frame_only s s' /\
    (RDMUtil_IsUnicast (dest_uid header) = true -> kind (Some (r, s'))) /\
    (RDMUtil_IsUnicast (dest_uid header) = false ->
     r = RDM_RESPONDER_NO_RESPONSE /\ s' = s).

(** The PIDs that [RDMResponder_GetSupportedParameters] lists. *)
Definition listed_parameters (subdevice : bool) (ds : list PIDDescriptor)
    : list PIDDescriptor :=
  List.filter
    (fun d => subdevice || negb (listed_for_subdevice_only (pid d))) ds.

(** Two sensors for running the sensor handlers: the first supports
    recording and lowest/highest tracking, the second neither. *)
Definition sample_sensor_defs : list SensorDefinition :=
  [ {| recorded_value_support := 3 |}; {| recorded_value_support := 0 |} ].

Definition sample_sensors : list SensorData :=
  [ {| present_value := 300; lowest_value := 5; highest_value := 400;
       recorded_value := 7; should_nack := false; nack_reason := 0 |};
    {| present_value := 20; lowest_value := 0; highest_value := 0;
       recorded_value := 0; should_nack := true;
       nack_reason := NR_HARDWARE_FAULT |} ].

(** * Properties *)

(** ** Coarse timer *)

Lemma to_uint32_ticks (start n : Z) :
  0 <= n < 4294967296 ->
  to_uint32 (to_uint32 (start + n) - start) = n.
Proof.
  intros Hn. unfold to_uint32.
  rewrite Zminus_mod_idemp_l.
  replace (start + n - start) with n by lia.
  apply Z.mod_small. lia.
Qed.

(** C5, as stated, at a timer that has not moved since it was armed with
    a duration of 0: the code answers "elapsed" although
    [(now - start) > duration] is false. *)
Lemma HasElapsed_zero_duration_counterexample :
  let g := {| timer_count := 5 |} in
  ~ (CoarseTimer_HasElapsed g 5 0 = true
     <-> to_uint32 (timer_count g - 5) > 0).
Proof.
  intros g [Hto _].
  specialize (Hto eq_refl). vm_compute in Hto. discriminate.
Qed.

(** C5 (amended): for a non-zero duration [CoarseTimer_HasElapsed] is
    true iff the unsigned 32-bit difference [now - start] is strictly
    greater than the duration; for a duration of 0 it is true whatever
    the counter holds. The difference is the number [n] of ticks since
    [start] also when the counter wrapped in between. *)
Theorem HasElapsed_strict_after_wrap (g : CoarseTimer_Data)
    (start duration n : Z) :
  0 <= n < 4294967296 ->
  timer_count g = to_uint32 (start + n) ->
  (duration = 0 -> CoarseTimer_HasElapsed g start duration = true) /\
  (duration <> 0 ->
     (CoarseTimer_HasElapsed g start duration = true
      <-> to_uint32 (timer_count g - start) > duration)) /\
  to_uint32 (timer_count g - start) = n /\
  (duration <> 0 ->
     (CoarseTimer_HasElapsed g start duration = true <-> n > duration)).
Proof.
  intros Hn Hg.
  assert (Hd : to_uint32 (timer_count g - start) = n)
    by (rewrite Hg; apply to_uint32_ticks; exact Hn).
  unfold CoarseTimer_HasElapsed.
  repeat split.
  - intros ->. reflexivity.
  - destruct (Z.eqb_spec duration 0) as [|_]; [contradiction|].
    intros Hlt. apply Z.ltb_lt in Hlt. lia.
  - destruct (Z.eqb_spec duration 0) as [|_]; [contradiction|].
    intros Hgt. apply Z.ltb_lt. lia.
  - exact Hd.
  - destruct (Z.eqb_spec duration 0) as [|_]; [contradiction|].
    rewrite Hd. intros Hlt. apply Z.ltb_lt in Hlt. lia.
  - destruct (Z.eqb_spec duration 0) as [|_]; [contradiction|].
    rewrite Hd. intros Hgt. apply Z.ltb_lt. lia.
Qed.

(** The counter wrapped from 2^32 - 1 to 4: five ticks have passed. *)
Lemma HasElapsed_strict_after_wrap_witness :
  CoarseTimer_HasElapsed {| timer_count := 4 |} 4294967295 3 = true
  <-> 5 > 3.
Proof.
  refine (proj2 (proj2 (proj2
    (HasElapsed_strict_after_wrap {| timer_count := 4 |} 4294967295 3 5
       _ _))) _).
  - lia.
  - reflexivity.
  - lia.
Defined.

(** ** Running computations *)

Lemma run_bind {A B} (m : M A) (f : A -> M B) (s : State) :
  (m ≫= f) s = match m s with Some (a, s') => f a s' | None => None end.
Proof. reflexivity. Qed.

Lemma run_ret {A} (a : A) (s : State) : (mret a : M A) s = Some (a, s).
Proof. reflexivity. Qed.

Lemma run_get (s : State) : get_state s = Some (s, s).
Proof. reflexivity. Qed.

Lemma run_modify (f : State -> State) (s : State) :
  modify f s = Some (tt, f s).
Proof. reflexivity. Qed.

Lemma run_update_responder f (s : State) :
  update_responder f s = Some (tt, with_responder f s).
Proof. reflexivity. Qed.

Lemma run_store8 (i : nat) (v : Z) (s : State) :
  buffer_ok s -> (i < RDM_FRAME_SIZE)%nat ->
  store8 i v s = Some (tt, with_buffer (fun b => <[i := to_uint8 v]> b) s).
Proof.
  unfold buffer_ok, store8. intros -> Hi.
  destruct (Nat.ltb_spec i RDM_FRAME_SIZE); [reflexivity | lia].
Qed.

Lemma buffer_ok_store (i : nat) (v : Z) (s : State) :
  buffer_ok s -> buffer_ok (with_buffer (fun b => <[i := v]> b) s).
Proof. unfold buffer_ok. cbn. rewrite length_insert. trivial. Qed.

Lemma buffer_ok_responder f (s : State) :
  buffer_ok s -> buffer_ok (with_responder f s).
Proof. trivial. Qed.

Lemma buffer_ok_ports f (s : State) :
  buffer_ok s -> buffer_ok (with_ports f s).
Proof. trivial. Qed.

Lemma buffer_ok_internal_state f (s : State) :
  buffer_ok s -> buffer_ok (with_internal_state f s).
Proof. trivial. Qed.

Create HintDb rdm.
#[local] Hint Resolve buffer_ok_store buffer_ok_responder buffer_ok_ports
  buffer_ok_internal_state : rdm.

Ltac frame_bound := unfold RDM_FRAME_SIZE, sizeof_RDMHeader; lia.

(** One step of a run: the head computation is replaced by its result. *)
Ltac run_step :=
  first
    [ rewrite run_bind
    | rewrite run_ret
    | rewrite run_get
    | rewrite run_modify
    | rewrite run_update_responder
    | rewrite run_store8 by (eauto 30 with rdm || frame_bound) ];
  cbv beta iota zeta.

Ltac run := repeat run_step.

(** ** Bytes and 16-bit words *)

Lemma forall_uint8 (P : Z -> bool) :
  forallb P (map Z.of_nat (seq 0 256)) = true ->
  forall b, is_uint8 b -> P b = true.
Proof.
  intros Hall b [Hlo Hhi].
  rewrite forallb_forall in Hall. apply Hall.
  replace b with (Z.of_nat (Z.to_nat b)) by lia.
  apply in_map, in_seq. lia.
Qed.

Lemma forall_uint8_pair (P : Z -> Z -> bool) :
  forallb (fun x => forallb (P x) (map Z.of_nat (seq 0 256)))
          (map Z.of_nat (seq 0 256)) = true ->
  forall x y, is_uint8 x -> is_uint8 y -> P x y = true.
Proof.
  intros Hall x y Hx Hy.
  apply (forall_uint8 (P x)); [|exact Hy].
  apply (forall_uint8 (fun x => forallb (P x) (map Z.of_nat (seq 0 256))));
    assumption.
Qed.

Lemma to_uint8_small (b : Z) : is_uint8 b -> to_uint8 b = b.
Proof. intros Hb. apply Z.mod_small. exact Hb. Qed.

Lemma to_uint8_range (v : Z) : is_uint8 (to_uint8 v).
Proof. apply Z.mod_pos_bound. lia. Qed.

Lemma to_uint16_range (v : Z) : is_uint16 (to_uint16 v).
Proof. apply Z.mod_pos_bound. lia. Qed.

Lemma lor_AA_uint8 (b : Z) : is_uint8 b -> is_uint8 (Z.lor b 0xAA).
Proof.
  intros Hb.
  pose proof (forall_uint8
    (fun b => (0 <=? Z.lor b 0xAA) && (Z.lor b 0xAA <? 256)) ltac:(vm_compute; reflexivity) b Hb)
    as Hc.
  apply andb_true_iff in Hc as [Hlo Hhi].
  apply Z.leb_le in Hlo. apply Z.ltb_lt in Hhi. split; assumption.
Qed.

Lemma lor_55_uint8 (b : Z) : is_uint8 b -> is_uint8 (Z.lor b 0x55).
Proof.
  intros Hb.
  pose proof (forall_uint8
    (fun b => (0 <=? Z.lor b 0x55) && (Z.lor b 0x55 <? 256)) ltac:(vm_compute; reflexivity) b Hb)
    as Hc.
  apply andb_true_iff in Hc as [Hlo Hhi].
  apply Z.leb_le in Hlo. apply Z.ltb_lt in Hhi. split; assumption.
Qed.

(** Masking the fill out of an expanded pair gives the byte back. *)
Lemma DUB_combine_expand (b : Z) :
  is_uint8 b -> DUB_combine (Z.lor b 0xAA) (Z.lor b 0x55) = b.
Proof.
  intros Hb. apply Z.eqb_eq.
  exact (forall_uint8
    (fun b => DUB_combine (Z.lor b 0xAA) (Z.lor b 0x55) =? b) ltac:(vm_compute; reflexivity) b Hb).
Qed.

Lemma ShortMSB_div (c : Z) : ShortMSB c = c / 256.
Proof. unfold ShortMSB. rewrite Z.shiftr_div_pow2 by lia. reflexivity. Qed.

Lemma ShortLSB_mod (c : Z) : ShortLSB c = c mod 256.
Proof. unfold ShortLSB. exact (Z.land_ones c 8 ltac:(lia)). Qed.

Lemma ShortMSB_uint8 (c : Z) : is_uint16 c -> is_uint8 (ShortMSB c).
Proof.
  intros [Hlo Hhi]. rewrite ShortMSB_div. unfold is_uint8.
  split; [apply Z.div_pos; lia | apply Z.div_lt_upper_bound; lia].
Qed.

Lemma ShortLSB_uint8 (c : Z) : is_uint8 (ShortLSB c).
Proof. rewrite ShortLSB_mod. apply Z.mod_pos_bound. lia. Qed.

Lemma JoinShort_bytes (h l : Z) :
  is_uint8 h -> is_uint8 l -> JoinShort h l = 256 * h + l.
Proof.
  intros Hh Hl. apply Z.eqb_eq.
  exact (forall_uint8_pair (fun h l => JoinShort h l =? 256 * h + l)
           ltac:(vm_compute; reflexivity) h l Hh Hl).
Qed.

Lemma JoinShort_split (c : Z) :
  is_uint16 c -> JoinShort (ShortMSB c) (ShortLSB c) = c.
Proof.
  intros Hc.
  rewrite JoinShort_bytes by auto using ShortMSB_uint8, ShortLSB_uint8.
  rewrite ShortMSB_div, ShortLSB_mod.
  symmetry. apply Z.div_mod. lia.
Qed.

Lemma ntohs_bytes (x : Z) :
  is_uint16 x -> ntohs x = 256 * (x mod 256) + x / 256.
Proof.
  intros Hx. unfold is_uint16 in Hx.
  assert (Hl : is_uint8 (x mod 256)) by (apply Z.mod_pos_bound; lia).
  assert (Hh : is_uint8 (x / 256))
    by (split; [apply Z.div_pos; lia | apply Z.div_lt_upper_bound; lia]).
  pose proof (forall_uint8_pair
    (fun h l => ntohs (256 * h + l) =? 256 * l + h) ltac:(vm_compute; reflexivity) _ _ Hh Hl) as Hc.
  apply Z.eqb_eq in Hc.
  rewrite <- Z.div_mod in Hc by lia. exact Hc.
Qed.

Lemma ntohs_uint16 (x : Z) : is_uint16 x -> is_uint16 (ntohs x).
Proof.
  intros Hx. rewrite ntohs_bytes by exact Hx. unfold is_uint16 in *.
  assert (0 <= x mod 256 < 256) by (apply Z.mod_pos_bound; lia).
  assert (0 <= x / 256 < 256)
    by (split; [apply Z.div_pos; lia | apply Z.div_lt_upper_bound; lia]).
  lia.
Qed.

Lemma ntohs_zero_iff (x : Z) : is_uint16 x -> ntohs x = 0 <-> x = 0.
Proof.
  intros Hx. rewrite ntohs_bytes by exact Hx. unfold is_uint16 in *.
  assert (0 <= x mod 256 < 256) by (apply Z.mod_pos_bound; lia).
  assert (0 <= x / 256 < 256)
    by (split; [apply Z.div_pos; lia | apply Z.div_lt_upper_bound; lia]).
  pose proof (Z.div_mod x 256 ltac:(lia)). lia.
Qed.

(** The wire bytes that [PushUInt16 ptr (ntohs x)] stores load back as
    [x]. *)
Lemma load_pushed_ntohs (x : Z) :
  is_uint16 x -> ShortMSB (ntohs x) + 256 * ShortLSB (ntohs x) = x.
Proof.
  intros Hx.
  rewrite ShortMSB_div, ShortLSB_mod, ntohs_bytes by exact Hx.
  unfold is_uint16 in *.
  assert (0 <= x mod 256 < 256) by (apply Z.mod_pos_bound; lia).
  assert (0 <= x / 256 < 256)
    by (split; [apply Z.div_pos; lia | apply Z.div_lt_upper_bound; lia]).
  replace ((256 * (x mod 256) + x / 256) / 256) with (x mod 256)
    by (apply Z.div_unique with (r := x / 256); lia).
  replace ((256 * (x mod 256) + x / 256) mod 256) with (x / 256)
    by (apply Z.mod_unique with (q := x mod 256); lia).
  pose proof (Z.div_mod x 256 ltac:(lia)). lia.
Qed.

Lemma checksum16_acc_range (l : list Z) (acc : Z) :
  is_uint16 acc ->
  is_uint16 (fold_left (fun c b => to_uint16 (c + b)) l acc).
Proof.
  revert acc. induction l as [|x l IH]; intros acc Hacc; cbn [fold_left].
  - exact Hacc.
  - apply IH, to_uint16_range.
Qed.

Lemma checksum16_range (l : list Z) : is_uint16 (checksum16 l).
Proof. apply checksum16_acc_range. unfold is_uint16. lia. Qed.

#[local] Hint Resolve lor_AA_uint8 lor_55_uint8 ShortMSB_uint8 ShortLSB_uint8
  to_uint8_range to_uint16_range checksum16_range : rdm.
#[local] Hint Extern 1 (is_uint8 _) => (unfold is_uint8; lia) : rdm.
#[local] Hint Extern 1 (is_uint16 _) => (unfold is_uint16; lia) : rdm.

(** ** UID comparison *)

Lemma uid_lex_le_cons (x : Z) (a b : list Z) :
  uid_lex_le (x :: a) (x :: b) <-> uid_lex_le a b.
Proof.
  unfold uid_lex_le. split.
  - intros [Heq | Hlt].
    + left. congruence.
    + inversion Hlt; subst; [lia | right; assumption].
  - intros [-> | Hlt]; [left; reflexivity | right; constructor; assumption].
Qed.

Lemma memcmp_lex_le (n : nat) (a b : list Z) :
  length a = n -> length b = n ->
  memcmp n a b <= 0 <-> uid_lex_le a b.
Proof.
  revert a b. induction n as [|n IH]; intros a b Ha Hb.
  - destruct a; [|discriminate]. destruct b; [|discriminate].
    cbn. split; [left; reflexivity | lia].
  - destruct a as [|x a]; [discriminate|]. destruct b as [|y b]; [discriminate|].
    cbn [memcmp].
    destruct (Z.ltb_spec x y) as [Hxy | Hxy].
    + split; [right; constructor; assumption | lia].
    + destruct (Z.ltb_spec y x) as [Hyx | Hyx].
      * split; [lia|].
        intros [Heq | Hlt]; [inversion Heq; lia | inversion Hlt; lia].
      * assert (x = y) as -> by lia.
        rewrite uid_lex_le_cons. apply IH; cbn in *; lia.
Qed.

Lemma UIDCompare_lex_le (a b : list Z) :
  is_uid a -> is_uid b ->
  RDMUtil_UIDCompare a b <= 0 <-> uid_lex_le a b.
Proof.
  intros [Ha _] [Hb _]. apply memcmp_lex_le; assumption.
Qed.

(** The lexicographic order is the order of the 48-bit numbers. *)
Lemma fold_be_acc (l : list Z) (acc : Z) :
  fold_left (fun a b => a * 256 + b) l acc
  = acc * 256 ^ Z.of_nat (length l) + UID_to_Z l.
Proof.
  unfold UID_to_Z. revert acc.
  induction l as [|x l IH]; intros acc; cbn [fold_left length].
  - change (256 ^ Z.of_nat 0) with 1. lia.
  - rewrite IH. rewrite (IH (0 * 256 + x)).
    rewrite Nat2Z.inj_succ, Z.pow_succ_r by lia. lia.
Qed.

Lemma UID_to_Z_cons (x : Z) (l : list Z) :
  UID_to_Z (x :: l) = x * 256 ^ Z.of_nat (length l) + UID_to_Z l.
Proof.
  unfold UID_to_Z at 1. cbn [fold_left]. rewrite fold_be_acc. lia.
Qed.

Lemma UID_to_Z_range (l : list Z) :
  Forall is_uint8 l -> 0 <= UID_to_Z l < 256 ^ Z.of_nat (length l).
Proof.
  induction 1 as [|x l Hx _ IH].
  - cbn. lia.
  - rewrite UID_to_Z_cons. cbn [length].
    rewrite Nat2Z.inj_succ, Z.pow_succ_r by lia.
    unfold is_uint8 in Hx. nia.
Qed.

Lemma uid_lex_le_numeric (a b : list Z) :
  length a = length b -> Forall is_uint8 a -> Forall is_uint8 b ->
  uid_lex_le a b <-> UID_to_Z a <= UID_to_Z b.
Proof.
  revert b. induction a as [|x a IH]; intros b Hlen Ha Hb.
  - destruct b; [|discriminate]. split; [lia | left; reflexivity].
  - destruct b as [|y b]; [discriminate|].
    inversion Ha as [|? ? Hx Ha']; subst. inversion Hb as [|? ? Hy Hb']; subst.
    cbn [length] in Hlen. assert (Hl : length a = length b) by lia.
    rewrite !UID_to_Z_cons, Hl.
    pose proof (UID_to_Z_range a Ha') as Hra. rewrite Hl in Hra.
    pose proof (UID_to_Z_range b Hb') as Hrb.
    set (p := 256 ^ Z.of_nat (length b)) in *.
    destruct (Z.lt_trichotomy x y) as [Hlt | [-> | Hgt]].
    + split; [intros _; nia | intros _; right; constructor; assumption].
    + rewrite uid_lex_le_cons, (IH b Hl Ha' Hb'). lia.
    + split.
      * intros [Heq | Hlex]; [inversion Heq; lia | inversion Hlex; lia].
      * intros Hle. exfalso. nia.
Qed.

(** ** The DUB response *)

Lemma State_eq (s1 s2 : State) :
  g_responder s1 = g_responder s2 ->
  g_rdm_buffer s1 = g_rdm_buffer s2 ->
  g_internal_state s1 = g_internal_state s2 ->
  g_coarse_timer s1 = g_coarse_timer s2 ->
  ports s1 = ports s2 ->
  s1 = s2.
Proof. destruct s1, s2. cbn. intros. subst. reflexivity. Qed.

Lemma HandleDUBRequest_miss (s : State) (pd : list Z) (pdl : Z) :
  DUB_guard s pd pdl = false ->
  RDMResponder_HandleDUBRequest pd pdl s
  = Some (RDM_RESPONDER_NO_RESPONSE, s).
Proof.
  unfold DUB_guard, RDMResponder_HandleDUBRequest. intros Hg. run.
  change (2 * Z.of_nat UID_LENGTH) with 12.
  destruct (is_muted (g_responder s)); [reflexivity|].
  destruct (pdl =? 12); [|reflexivity].
  cbn [negb orb andb] in *. rewrite Hg. reflexivity.
Qed.

Lemma HandleDUBRequest_hit (s : State) (pd : list Z) (pdl : Z) :
  buffer_ok s -> is_uid (uid (g_responder s)) ->
  DUB_guard s pd pdl = true ->
  RDMResponder_HandleDUBRequest pd pdl s
  = Some (- DUB_RESPONSE_LENGTH,
          with_buffer (DUB_staged (uid (g_responder s))) s).
Proof.
  unfold DUB_guard, RDMResponder_HandleDUBRequest.
  intros Hok [Hlen Hbytes] Hg.
  apply andb_true_iff in Hg as [Hg H2].
  apply andb_true_iff in Hg as [Hg H1].
  apply andb_true_iff in Hg as [Hm Hp].
  apply negb_true_iff in Hm.
  run. change (2 * Z.of_nat UID_LENGTH) with 12.
  rewrite Hm, Hp, H1, H2. cbn [negb orb andb].
  unfold memset. run.
  do 2 f_equal. apply State_eq; try reflexivity.
  cbn [g_rdm_buffer with_buffer].
  unfold buffer_ok in Hok.
  destruct (uid (g_responder s)) as [|u0 [|u1 [|u2 [|u3 [|u4 [|u5 [|]]]]]]];
    try discriminate Hlen.
  destruct (g_rdm_buffer s) as [|? b]; [discriminate Hok|].
  do 23 (destruct b as [|? b]; [discriminate Hok|]).
  clear - Hbytes.
  unfold DUB_staged, DUB_encode.
  cbn -[to_uint8 to_uint16 ShortMSB ShortLSB Z.lor Z.add].
  change AA_CONSTANT with 170. change FIVE5_CONSTANT with 85.
  change FE_CONSTANT with 254.
  repeat match goal with
         | Hf : Forall _ (_ :: _) |- _ =>
             apply Forall_cons_iff in Hf; destruct Hf as [? Hf]
         end.
  rewrite !to_uint8_small by eauto 10 with rdm.
  reflexivity.
Qed.

Lemma memcmp_app_l (n : nat) (a x b : list Z) :
  length a = n -> memcmp n (a ++ x) b = memcmp n a b.
Proof.
  revert a b. induction n as [|n IH]; intros a b Ha; [reflexivity|].
  destruct a as [|y a]; [discriminate|].
  cbn [memcmp app]. destruct b as [|z b]; [reflexivity|].
  rewrite IH by (cbn in Ha; lia). reflexivity.
Qed.

Lemma DUB_guard_range (s : State) (lower upper : list Z) (pdl : Z) :
  is_uid (uid (g_responder s)) -> is_uid lower -> is_uid upper ->
  DUB_guard s (lower ++ upper) pdl = true
  <-> (is_muted (g_responder s) = false /\ pdl = 12 /\
       uid_lex_le lower (uid (g_responder s)) /\
       uid_lex_le (uid (g_responder s)) upper).
Proof.
  intros Hown Hlo Hup. unfold DUB_guard.
  replace (drop UID_LENGTH (lower ++ upper)) with upper
    by (destruct Hlo as [<- _]; symmetry; apply drop_app_length).
  replace (RDMUtil_UIDCompare (lower ++ upper) (uid (g_responder s)))
    with (RDMUtil_UIDCompare lower (uid (g_responder s)))
    by (symmetry; apply memcmp_app_l, Hlo).
  rewrite !andb_true_iff, negb_true_iff, Z.eqb_eq, !Z.leb_le.
  rewrite !UIDCompare_lex_le by assumption.
  tauto.
Qed.

Lemma DUB_encode_length (u : list Z) :
  length u = UID_LENGTH -> length (DUB_encode u) = 24%nat.
Proof.
  destruct u as [|u0 [|u1 [|u2 [|u3 [|u4 [|u5 [|]]]]]]]; try discriminate.
  reflexivity.
Qed.

Lemma DUB_decode_encode (u : list Z) :
  is_uid u -> DUB_decode (DUB_encode u) = Some u.
Proof.
  intros [Hlen Hbytes].
  destruct u as [|u0 [|u1 [|u2 [|u3 [|u4 [|u5 [|]]]]]]];
    try discriminate Hlen.
  repeat match goal with
         | Hf : Forall _ (_ :: _) |- _ =>
             apply Forall_cons_iff in Hf; destruct Hf as [? Hf]
         end.
  unfold DUB_decode, DUB_encode.
  cbn -[to_uint16 ShortMSB ShortLSB Z.lor Z.add DUB_combine JoinShort
        Z.eqb bool_decide].
  rewrite !DUB_combine_expand by eauto 10 with rdm.
  rewrite JoinShort_split by eauto 10 with rdm.
  rewrite Z.eqb_refl, bool_decide_eq_true_2 by reflexivity.
  reflexivity.
Qed.

(** C1: a DISC_UNIQUE_BRANCH request with payload [lower ++ upper] gets
    a DUB reply (the value [-DUB_RESPONSE_LENGTH] and the 24 bytes of
    the response at the head of the frame buffer) exactly when the
    responder is not muted, the parameter data length is 12 and
    [lower <= own_uid <= upper] in the lexicographic order; in every
    other case the value is [RDM_RESPONDER_NO_RESPONSE] and the state,
    frame buffer included, is as before. *)
Theorem HandleDUBRequest_reply_iff (s : State) (lower upper : list Z)
    (pdl : Z) :
  buffer_ok s -> is_uid (uid (g_responder s)) ->
  is_uid lower -> is_uid upper ->
  let own := uid (g_responder s) in
  let in_range :=
    is_muted (g_responder s) = false /\ pdl = 12 /\
    uid_lex_le lower own /\ uid_lex_le own upper in
  let res := RDMResponder_HandleDUBRequest (lower ++ upper) pdl s in
  ((exists s', res = Some (- DUB_RESPONSE_LENGTH, s')) <-> in_range) /\
  (in_range <->
   is_muted (g_responder s) = false /\ pdl = 12 /\
   UID_to_Z lower <= UID_to_Z own <= UID_to_Z upper) /\
  (in_range ->
     exists s', res = Some (- DUB_RESPONSE_LENGTH, s') /\
       take 24 (g_rdm_buffer s') = DUB_encode own /\
       length (DUB_encode own) = 24%nat /\
       drop 24 (g_rdm_buffer s') = drop 24 (g_rdm_buffer s) /\
       g_responder s' = g_responder s) /\
  (~ in_range -> res = Some (RDM_RESPONDER_NO_RESPONSE, s)).
Proof.
  intros Hok Hown Hlo Hup own in_range res.
  pose proof (DUB_guard_range s lower upper pdl Hown Hlo Hup) as Hguard.
  fold own in Hguard. fold in_range in Hguard.
  assert (Hhit : in_range ->
                 res = Some (- DUB_RESPONSE_LENGTH,
                             with_buffer (DUB_staged own) s)).
  { intros Hin. apply HandleDUBRequest_hit; [assumption..|].
    apply Hguard, Hin. }
  assert (Hmiss : ~ in_range -> res = Some (RDM_RESPONDER_NO_RESPONSE, s)).
  { intros Hout. apply HandleDUBRequest_miss.
    destruct (DUB_guard s (lower ++ upper) pdl) eqn:Hg; [|reflexivity].
    exfalso. apply Hout, Hguard. reflexivity. }
  assert (Hlen : length (DUB_encode own) = 24%nat)
    by (apply DUB_encode_length, Hown).
  split; [|split; [|split]].
  - split.
    + intros [s' Hs'].
      destruct (DUB_guard s (lower ++ upper) pdl) eqn:Hg.
      * apply Hguard. reflexivity.
      * exfalso. unfold res in Hs'.
        rewrite (HandleDUBRequest_miss _ _ _ Hg) in Hs'. discriminate Hs'.
    + intros Hin. eexists. apply Hhit, Hin.
  - unfold in_range.
    assert (Hl1 : length lower = length own)
      by (unfold own; destruct Hown, Hlo; congruence).
    assert (Hl2 : length own = length upper)
      by (unfold own; destruct Hown, Hup; congruence).
    rewrite (uid_lex_le_numeric lower own Hl1 (proj2 Hlo) (proj2 Hown)).
    rewrite (uid_lex_le_numeric own upper Hl2 (proj2 Hown) (proj2 Hup)).
    tauto.
  - intros Hin. eexists. split; [apply Hhit, Hin|].
    cbn [g_rdm_buffer g_responder with_buffer]. unfold DUB_staged.
    split; [|split; [exact Hlen|split; [|reflexivity]]].
    + rewrite take_app_length'; [reflexivity | symmetry; exact Hlen].
    + rewrite drop_app_length'; [reflexivity | symmetry; exact Hlen].
  - exact Hmiss.
Qed.

(** Scenario 2 of the specification: own UID 7a70:00000001, range
    7a70:00000000 .. 7a70:00000002, not muted. *)
Lemma HandleDUBRequest_reply_iff_witness :
  exists s',
    RDMResponder_HandleDUBRequest
      ([0x7a; 0x70; 0; 0; 0; 0] ++ [0x7a; 0x70; 0; 0; 0; 2]) 12 sample_state
    = Some (- DUB_RESPONSE_LENGTH, s').
Proof.
  assert (Hu : forall u, length u = 6%nat ->
                 forallb (fun b => (0 <=? b) && (b <? 256)) u = true ->
                 is_uid u).
  { intros u Hl Hb. split; [exact Hl|].
    apply Forall_forall. intros x Hx.
    rewrite forallb_forall in Hb. apply list_elem_of_In in Hx.
    specialize (Hb x Hx). apply andb_true_iff in Hb as [H1 H2].
    apply Z.leb_le in H1. apply Z.ltb_lt in H2. split; assumption. }
  refine (proj2 (proj1
    (HandleDUBRequest_reply_iff sample_state
       [0x7a; 0x70; 0; 0; 0; 0] [0x7a; 0x70; 0; 0; 0; 2] 12 _ _ _ _)) _).
  - reflexivity.
  - apply Hu; reflexivity.
  - apply Hu; reflexivity.
  - apply Hu; reflexivity.
  - split; [reflexivity|]. split; [reflexivity|].
    split; right; repeat (first [ apply uid_lex_lt_head; lia
                                | apply uid_lex_lt_tail ]).
Defined.


(** ** Reply framing *)

Lemma response_command_class_uint8 (cc rcc : Z) :
  response_command_class cc = Some rcc -> is_uint8 rcc.
Proof.
  unfold response_command_class.
  repeat match goal with
         | |- context [if ?c then _ else _] => destruct c
         end; intros [= <-]; unfold is_uint8; cbv; intuition discriminate.
Qed.

Lemma AppendChecksum_run (s : State) (ml : nat) :
  buffer_ok s -> byte_at (g_rdm_buffer s) 2 = Z.of_nat ml ->
  (S ml < RDM_FRAME_SIZE)%nat ->
  RDMUtil_AppendChecksum s
  = Some (Z.of_nat ml + 2, with_buffer (append_checksum ml) s).
Proof.
  intros Hok Hml Hlt. unfold RDMUtil_AppendChecksum.
  run. rewrite Hml, Nat2Z.id.
  rewrite run_store8 by (auto; lia). cbv beta iota.
  run. do 2 f_equal. apply State_eq; try reflexivity.
  cbn [g_rdm_buffer with_buffer]. unfold append_checksum.
  rewrite !to_uint8_small by eauto 10 with rdm. reflexivity.
Qed.

Lemma AddHeaderAndChecksum_run (header : RDMHeader)
    (response_type ml rcc : Z) (s : State) :
  buffer_ok s -> RDMHeader_wf header ->
  is_uint8 response_type ->
  is_uint8 (queued_message_count (g_responder s)) ->
  24 <= ml <= 255 ->
  response_command_class (command_class header) = Some rcc ->
  RDMResponder_AddHeaderAndChecksum header response_type ml s
  = Some (ml + 2,
          with_buffer
            (reply_frame header response_type
               (queued_message_count (g_responder s)) rcc ml) s).
Proof.
  intros Hok Hwf Hrt Hq Hml Hrcc.
  unfold RDMResponder_AddHeaderAndChecksum. rewrite Hrcc.
  unfold store8_inc, PushUInt16, UID_LENGTH. cbn [memcpy Nat.add].
  run.
  match goal with |- RDMUtil_AppendChecksum ?s1 = _ => set (s1' := s1) end.
  assert (Hbuf : g_rdm_buffer s1'
                 = reply_header header response_type
                     (queued_message_count (g_responder s)) rcc ml
                   ++ drop 24 (g_rdm_buffer s)).
  { subst s1'. cbn [g_rdm_buffer with_buffer g_responder].
    pose proof (response_command_class_uint8 _ _ Hrcc) as Hrcc8.
    destruct Hwf as [_ _ _ [Hdl Hdb] [Hsl Hsb] Htn _ _ Hsd _ Hpid _].
    pose proof (ntohs_uint16 _ Hsd). pose proof (ntohs_uint16 _ Hpid).
    unfold reply_header, buffer_ok in *.
    destruct (src_uid header) as [|s0 [|s1 [|s2 [|s3 [|s4 [|s5 [|]]]]]]];
      try discriminate Hsl.
    destruct (dest_uid header) as [|d0 [|d1 [|d2 [|d3 [|d4 [|d5 [|]]]]]]];
      try discriminate Hdl.
    destruct (g_rdm_buffer s) as [|? b]; [discriminate Hok|].
    do 23 (destruct b as [|? b]; [discriminate Hok|]).
    repeat match goal with
           | Hf : Forall _ (_ :: _) |- _ =>
               apply Forall_cons_iff in Hf; destruct Hf as [? Hf]
           end.
    cbn -[to_uint8 to_uint16 to_uint32 ShortMSB ShortLSB ntohs Z.sub].
    rewrite (to_uint8_small (to_uint32 _)) by
      (unfold to_uint32, sizeof_RDMHeader; rewrite Z.mod_small;
       unfold is_uint8; lia).
    rewrite !to_uint8_small by
      (eauto 10 with rdm || (unfold is_uint8, RDM_START_CODE, SUB_START_CODE;
                             lia)).
    unfold to_uint32, sizeof_RDMHeader. rewrite Z.mod_small by lia.
    reflexivity. }
  rewrite (AppendChecksum_run s1' (Z.to_nat ml)).
  - rewrite Z2Nat.id by lia. do 2 f_equal.
    apply State_eq; try reflexivity.
    cbn [g_rdm_buffer with_buffer]. rewrite Hbuf. reflexivity.
  - subst s1'. eauto 40 with rdm.
  - rewrite Hbuf. unfold reply_header. cbn [app]. unfold byte_at.
    cbn [lookup list_lookup default from_option id]. lia.
  - unfold RDM_FRAME_SIZE. lia.
Qed.

Lemma reply_header_length (header : RDMHeader) (rt qmc rcc ml : Z) :
  RDMHeader_wf header -> length (reply_header header rt qmc rcc ml) = 24%nat.
Proof.
  intros [_ _ _ [Hdl _] [Hsl _] _ _ _ _ _ _ _]. unfold reply_header.
  rewrite !length_app, Hsl, Hdl. reflexivity.
Qed.

(** The header that [RDMHeader_of_buffer] reads from a reply. *)
Lemma RDMHeader_of_reply (header : RDMHeader) (rt qmc rcc ml : Z)
    (rest : list Z) :
  RDMHeader_wf header ->
  RDMHeader_of_buffer (reply_header header rt qmc rcc ml ++ rest)
  = {| start_code := RDM_START_CODE;
       sub_start_code := SUB_START_CODE;
       message_length := ml;
       dest_uid := src_uid header;
       src_uid := dest_uid header;
       transaction_number := transaction_number header;
       port_id := rt;
       message_count := qmc;
       sub_device := sub_device header;
       command_class := rcc;
       param_id := param_id header;
       param_data_length := ml - 24 |}.
Proof.
  intros [_ _ _ [Hdl _] [Hsl _] _ _ _ Hsd _ Hpid _].
  pose proof (load_pushed_ntohs _ Hsd) as Hs.
  pose proof (load_pushed_ntohs _ Hpid) as Hp.
  unfold RDMHeader_of_buffer, reply_header, load16, byte_at.
  destruct (src_uid header) as [|s0 [|s1 [|s2 [|s3 [|s4 [|s5 [|]]]]]]];
    try discriminate Hsl.
  destruct (dest_uid header) as [|d0 [|d1 [|d2 [|d3 [|d4 [|d5 [|]]]]]]];
    try discriminate Hdl.
  cbn -[ShortMSB ShortLSB ntohs Z.sub Z.add Z.mul].
  rewrite Hs, Hp. reflexivity.
Qed.

Lemma append_checksum_split (n : nat) (hdr rest : list Z) :
  (length hdr <= n)%nat ->
  append_checksum n (hdr ++ rest)
  = hdr ++ <[(S n - length hdr)%nat :=
               ShortLSB (checksum16 (take n (hdr ++ rest)))]>
             (<[(n - length hdr)%nat :=
                  ShortMSB (checksum16 (take n (hdr ++ rest)))]> rest).
Proof.
  intros Hle. unfold append_checksum.
  rewrite (insert_app_r_alt hdr rest n) by exact Hle.
  rewrite (insert_app_r_alt hdr _ (S n)) by lia.
  reflexivity.
Qed.

Lemma append_checksum_take (n : nat) (frame : list Z) :
  take n (append_checksum n frame) = take n frame.
Proof.
  unfold append_checksum. rewrite !take_insert_ge by lia. reflexivity.
Qed.

Lemma append_checksum_length (n : nat) (frame : list Z) :
  length (append_checksum n frame) = length frame.
Proof. unfold append_checksum. rewrite !length_insert. reflexivity. Qed.

(** The two bytes after the message are the checksum of the message as
    it stands in the buffer. *)
Lemma append_checksum_lookup (n : nat) (frame : list Z) :
  (S n < length frame)%nat ->
  let b := append_checksum n frame in
  b !! n = Some (ShortMSB (checksum16 (take n b))) /\
  b !! S n = Some (ShortLSB (checksum16 (take n b))).
Proof.
  intros Hlt b. subst b. rewrite append_checksum_take.
  unfold append_checksum. split.
  - rewrite list_lookup_insert_ne by lia.
    apply list_lookup_insert_eq. lia.
  - apply list_lookup_insert_eq. rewrite length_insert. lia.
Qed.

(** What a run of [RDMResponder_AddHeaderAndChecksum] that frames the
    [ml - 24] bytes of parameter data already in the buffer leaves. *)
Lemma AddHeaderAndChecksum_is_reply (header : RDMHeader)
    (response_type ml rcc : Z) (s : State) :
  buffer_ok s -> RDMHeader_wf header ->
  is_uint8 response_type ->
  is_uint8 (queued_message_count (g_responder s)) ->
  24 <= ml <= 255 ->
  response_command_class (command_class header) = Some rcc ->
  is_reply response_type
    (take (Z.to_nat ml - 24) (drop 24 (g_rdm_buffer s)))
    (RDMResponder_AddHeaderAndChecksum header response_type ml s).
Proof.
  intros Hok Hwf Hrt Hq Hml Hrcc.
  rewrite (AddHeaderAndChecksum_run _ _ _ _ _ Hok Hwf Hrt Hq Hml Hrcc).
  unfold is_reply. do 2 eexists. split; [reflexivity|].
  cbn [g_rdm_buffer with_buffer].
  set (q := queued_message_count (g_responder s)).
  set (hdr := reply_header header response_type q rcc ml).
  set (rest := drop 24 (g_rdm_buffer s)).
  assert (Hhl : length hdr = 24%nat) by (apply reply_header_length, Hwf).
  assert (Hrl : length rest = 233%nat).
  { subst rest. rewrite length_drop. unfold buffer_ok in Hok.
    rewrite Hok. reflexivity. }
  unfold reply_frame. fold q hdr rest.
  pose proof (append_checksum_lookup (Z.to_nat ml) (hdr ++ rest)) as Hck.
  rewrite length_app, Hhl, Hrl in Hck. specialize (Hck ltac:(lia)).
  cbv zeta in Hck.
  set (b' := append_checksum (Z.to_nat ml) (hdr ++ rest)) in *.
  assert (Hsplit : exists rest', b' = hdr ++ rest' /\
            take (Z.to_nat ml - 24) rest' = take (Z.to_nat ml - 24) rest).
  { eexists. split.
    - subst b'. apply append_checksum_split. lia.
    - rewrite Hhl, !take_insert_ge by lia. reflexivity. }
  destruct Hsplit as (rest' & Hb' & Hrest').
  assert (Hhdr := RDMHeader_of_reply header response_type q rcc ml rest' Hwf).
  fold hdr in Hhdr. rewrite <- Hb' in Hhdr.
  change (byte_at b' 2) with (message_length (RDMHeader_of_buffer b')).
  unfold param_data_of_buffer.
  change (byte_at b' 23) with (param_data_length (RDMHeader_of_buffer b')).
  rewrite Hhdr. cbn [message_length port_id param_data_length].
  assert (Hdrop : drop sizeof_RDMHeader b' = rest').
  { rewrite Hb'. apply drop_app_length'. symmetry. exact Hhl. }
  rewrite Hdrop.
  replace (Z.to_nat (ml - 24)) with (Z.to_nat ml - 24)%nat by lia.
  rewrite Hrest', length_take, Hrl.
  repeat split; try tauto; unfold sizeof_RDMHeader; lia.
Qed.

Lemma frame_only_with_buffer (f : list Z -> list Z) (s : State) :
  length (f (g_rdm_buffer s)) = RDM_FRAME_SIZE ->
  frame_only s (with_buffer f s).
Proof. intros Hl. repeat split. exact Hl. Qed.

Lemma reply_frame_length (header : RDMHeader) (rt qmc rcc ml : Z)
    (b : list Z) :
  RDMHeader_wf header -> length b = RDM_FRAME_SIZE ->
  length (reply_frame header rt qmc rcc ml b) = RDM_FRAME_SIZE.
Proof.
  intros Hwf Hb. unfold reply_frame.
  rewrite append_checksum_length, length_app, length_drop, Hb.
  rewrite reply_header_length by exact Hwf. reflexivity.
Qed.

(** C4, as stated, at a GET request addressed to the UID
    7a70:00000002 and framed by the responder 7a70:00000001: the source
    UID of the reply is the destination UID of the request, not the
    UID of the responder. *)
Lemma AddHeaderAndChecksum_source_uid_counterexample :
  let header :=
    sample_header [0x7a; 0x70; 0; 0; 0; 2] GET_COMMAND
      PID_DMX_START_ADDRESS 0 0 in
  exists s',
    RDMResponder_AddHeaderAndChecksum header ACK 24 sample_state
    = Some (26, s') /\
    src_uid (RDMHeader_of_buffer (g_rdm_buffer s'))
    <> uid (g_responder sample_state).
Proof.
  eexists. split.
  - vm_compute. reflexivity.
  - vm_compute. intros Heq. discriminate Heq.
Qed.

(** C4 (amended): a reply frame built by
    [RDMResponder_AddHeaderAndChecksum] for a DISCOVERY, GET or SET
    request has the request's source UID as destination and the
    request's destination UID as source (hence the responder's own UID
    when the request was addressed to it), echoes the transaction number
    and the sub-device, carries the queued message count and the mapped
    command class, and is followed by the two bytes of its additive
    checksum. For any other command class no frame is built. *)
Theorem AddHeaderAndChecksum_reply_fields (header : RDMHeader)
    (response_type ml : Z) (s : State) :
  buffer_ok s -> RDMHeader_wf header ->
  is_uint8 response_type ->
  is_uint8 (queued_message_count (g_responder s)) ->
  24 <= ml <= 255 ->
  let res := RDMResponder_AddHeaderAndChecksum header response_type ml s in
  let cc := command_class header in
  (cc = DISCOVERY_COMMAND \/ cc = GET_COMMAND \/ cc = SET_COMMAND ->
   exists s',
     res = Some (ml + 2, s') /\
     g_responder s' = g_responder s /\
     let b := g_rdm_buffer s' in
     let reply := RDMHeader_of_buffer b in
     dest_uid reply = src_uid header /\
     src_uid reply = dest_uid header /\
     (dest_uid header = uid (g_responder s) ->
      src_uid reply = uid (g_responder s)) /\
     transaction_number reply = transaction_number header /\
     sub_device reply = sub_device header /\
     message_count reply = queued_message_count (g_responder s) /\
     port_id reply = response_type /\
     (cc = DISCOVERY_COMMAND ->
      command_class reply = DISCOVERY_COMMAND_RESPONSE) /\
     (cc = GET_COMMAND -> command_class reply = GET_COMMAND_RESPONSE) /\
     (cc = SET_COMMAND -> command_class reply = SET_COMMAND_RESPONSE) /\
     param_id reply = param_id header /\
     message_length reply = ml /\
     b !! Z.to_nat ml
     = Some (ShortMSB (checksum16 (take (Z.to_nat ml) b))) /\
     b !! S (Z.to_nat ml)
     = Some (ShortLSB (checksum16 (take (Z.to_nat ml) b)))) /\
  (cc <> DISCOVERY_COMMAND /\ cc <> GET_COMMAND /\ cc <> SET_COMMAND ->
   res = Some (RDM_RESPONDER_NO_RESPONSE, s)).
Proof.
  intros Hok Hwf Hrt Hq Hml res cc. split.
  - intros Hcc.
    assert (Hrcc : exists rcc,
               response_command_class cc = Some rcc /\
               (cc = DISCOVERY_COMMAND -> rcc = DISCOVERY_COMMAND_RESPONSE) /\
               (cc = GET_COMMAND -> rcc = GET_COMMAND_RESPONSE) /\
               (cc = SET_COMMAND -> rcc = SET_COMMAND_RESPONSE)).
    { destruct Hcc as [-> | [-> | ->]]; eexists;
        (split; [reflexivity|]); repeat split; intros; first
          [reflexivity | discriminate]. }
    destruct Hrcc as (rcc & Hrcc & Hd & Hg & Hs).
    unfold res.
    rewrite (AddHeaderAndChecksum_run _ _ _ _ _ Hok Hwf Hrt Hq Hml Hrcc).
    eexists. split; [reflexivity|]. split; [reflexivity|].
    cbn [g_rdm_buffer with_buffer].
    set (q := queued_message_count (g_responder s)).
    set (hdr := reply_header header response_type q rcc ml).
    set (rest := drop 24 (g_rdm_buffer s)).
    assert (Hhl : length hdr = 24%nat) by (apply reply_header_length, Hwf).
    assert (Hrl : length rest = 233%nat).
    { subst rest. rewrite length_drop. unfold buffer_ok in Hok.
      rewrite Hok. reflexivity. }
    unfold reply_frame. fold q hdr rest.
    pose proof (append_checksum_lookup (Z.to_nat ml) (hdr ++ rest)) as Hck.
    rewrite length_app, Hhl, Hrl in Hck. specialize (Hck ltac:(lia)).
    cbv zeta in Hck. destruct Hck as [Hck1 Hck2].
    rewrite (append_checksum_split (Z.to_nat ml) hdr rest) in * by lia.
    subst hdr. rewrite RDMHeader_of_reply by exact Hwf.
    cbn [dest_uid src_uid transaction_number sub_device message_count
         port_id command_class param_id message_length].
    repeat split; auto.
  - intros (Hd & Hg & Hs). unfold res, RDMResponder_AddHeaderAndChecksum.
    fold cc. unfold response_command_class.
    destruct (Z.eqb_spec cc DISCOVERY_COMMAND); [contradiction|].
    destruct (Z.eqb_spec cc GET_COMMAND); [contradiction|].
    destruct (Z.eqb_spec cc SET_COMMAND); [contradiction|].
    reflexivity.
Qed.

(** ** ACK and NACK replies *)

Ltac uint_by_compute :=
  unfold is_uint8, is_uint16;
  split; [apply Z.leb_le | apply Z.ltb_lt]; vm_compute; reflexivity.

Lemma PushUInt16_run (ptr : nat) (v : Z) (s : State) :
  buffer_ok s -> (S ptr < RDM_FRAME_SIZE)%nat ->
  PushUInt16 ptr v s
  = Some (S (S ptr),
          with_buffer (fun b => <[S ptr := to_uint8 (ShortLSB v)]>
                                  (<[ptr := to_uint8 (ShortMSB v)]> b)) s).
Proof.
  intros Hok Hlt. unfold PushUInt16.
  rewrite run_bind, run_store8 by (auto; lia). cbv beta iota.
  rewrite run_bind, run_store8 by (auto with rdm). cbv beta iota.
  run. reflexivity.
Qed.

(** A 16-bit value pushed after the header and framed: the pattern of
    [RDMResponder_BuildNack], of the mute replies and of the 16-bit
    getters. *)
Lemma push16_reply (header : RDMHeader) (rt v rcc : Z) (s : State) :
  buffer_ok s -> RDMHeader_wf header ->
  is_uint8 rt -> is_uint8 (queued_message_count (g_responder s)) ->
  is_uint16 v ->
  response_command_class (command_class header) = Some rcc ->
  exists s',
    (PushUInt16 sizeof_RDMHeader v
       ≫= fun ptr => RDMResponder_AddHeaderAndChecksum header rt
                       (Z.of_nat ptr)) s = Some (28, s') /\
    frame_only s s' /\
    is_reply rt [ShortMSB v; ShortLSB v] (Some (28, s')).
Proof.
  intros Hok Hwf Hrt Hq Hv Hrcc.
  rewrite run_bind, PushUInt16_run by (auto; frame_bound). cbv beta iota.
  set (s1 := with_buffer _ s).
  assert (Hok1 : buffer_ok s1).
  { subst s1. unfold buffer_ok. cbn [g_rdm_buffer with_buffer].
    rewrite !length_insert. exact Hok. }
  assert (Hml : 24 <= Z.of_nat (S (S sizeof_RDMHeader)) <= 255)
    by (unfold sizeof_RDMHeader; lia).
  pose proof (AddHeaderAndChecksum_run header rt _ rcc s1
                Hok1 Hwf Hrt Hq Hml Hrcc) as Hrun.
  pose proof (AddHeaderAndChecksum_is_reply header rt _ rcc s1
                Hok1 Hwf Hrt Hq Hml Hrcc) as Hrep.
  rewrite Hrun in Hrep |- *.
  eexists. split; [reflexivity|]. split.
  - repeat split. cbn [g_rdm_buffer with_buffer].
    apply reply_frame_length; [exact Hwf | exact Hok1].
  - replace (take _ (drop 24 (g_rdm_buffer s1)))
      with [ShortMSB v; ShortLSB v] in Hrep; [exact Hrep|].
    subst s1. cbn [g_rdm_buffer with_buffer]. unfold buffer_ok in Hok.
    destruct (g_rdm_buffer s) as [|? b]; [discriminate Hok|].
    do 25 (destruct b as [|? b]; [discriminate Hok|]).
    rewrite !to_uint8_small by eauto with rdm. reflexivity.
Qed.

Section Replies.
Context `{RDMUtil}.

Lemma BuildNack_not_unicast (header : RDMHeader) (reason : Z) (s : State) :
  RDMUtil_IsUnicast (dest_uid header) = false ->
  RDMResponder_BuildNack header reason s
  = Some (RDM_RESPONDER_NO_RESPONSE, s).
Proof.
  intros Hu. unfold RDMResponder_BuildNack. rewrite Hu. reflexivity.
Qed.

Lemma BuildNack_unicast (header : RDMHeader) (reason rcc : Z) (s : State) :
  RDMUtil_IsUnicast (dest_uid header) = true ->
  buffer_ok s -> RDMHeader_wf header ->
  is_uint8 (queued_message_count (g_responder s)) ->
  is_uint16 reason ->
  response_command_class (command_class header) = Some rcc ->
  exists s',
    RDMResponder_BuildNack header reason s = Some (28, s') /\
    frame_only s s' /\
    is_nack reason (Some (28, s')).
Proof.
  intros Hu Hok Hwf Hq Hr Hrcc. unfold RDMResponder_BuildNack.
  rewrite Hu. cbn [negb].
  apply push16_reply with (rcc := rcc); auto. uint_by_compute.
Qed.

Lemma BuildSetAck_not_unicast (header : RDMHeader) (s : State) :
  RDMUtil_IsUnicast (dest_uid header) = false ->
  RDMResponder_BuildSetAck header s = Some (RDM_RESPONDER_NO_RESPONSE, s).
Proof.
  intros Hu. unfold RDMResponder_BuildSetAck. rewrite Hu. reflexivity.
Qed.

Lemma BuildSetAck_unicast (header : RDMHeader) (rcc : Z) (s : State) :
  RDMUtil_IsUnicast (dest_uid header) = true ->
  buffer_ok s -> RDMHeader_wf header ->
  is_uint8 (queued_message_count (g_responder s)) ->
  response_command_class (command_class header) = Some rcc ->
  exists s',
    RDMResponder_BuildSetAck header s = Some (26, s') /\
    frame_only s s' /\
    is_set_ack (Some (26, s')).
Proof.
  intros Hu Hok Hwf Hq Hrcc. unfold RDMResponder_BuildSetAck.
  rewrite Hu. cbn [negb].
  assert (Hrt : is_uint8 ACK) by uint_by_compute.
  assert (Hml : 24 <= Z.of_nat sizeof_RDMHeader <= 255)
    by (unfold sizeof_RDMHeader; lia).
  pose proof (AddHeaderAndChecksum_run header ACK _ rcc s
                Hok Hwf Hrt Hq Hml Hrcc) as Hrun.
  pose proof (AddHeaderAndChecksum_is_reply header ACK _ rcc s
                Hok Hwf Hrt Hq Hml Hrcc) as Hrep.
  rewrite Hrun in Hrep |- *.
  eexists. split; [reflexivity|]. split.
  - repeat split. cbn [g_rdm_buffer with_buffer].
    apply reply_frame_length; [exact Hwf | exact Hok].
  - exact Hrep.
Qed.

End Replies.

(** ** Replies leave the responder alone *)

Lemma frame_only_refl (s : State) : buffer_ok s -> frame_only s s.
Proof. intros Hok. repeat split. exact Hok. Qed.

Lemma frame_only_trans (s1 s2 s3 : State) :
  frame_only s1 s2 -> frame_only s2 s3 -> frame_only s1 s3.
Proof.
  unfold frame_only. intros (-> & -> & -> & -> & _) (-> & -> & -> & -> & ?).
  repeat split. assumption.
Qed.

Lemma AddHeaderAndChecksum_frame_only (header : RDMHeader) (rt ml : Z)
    (s : State) :
  buffer_ok s -> RDMHeader_wf header ->
  is_uint8 rt -> is_uint8 (queued_message_count (g_responder s)) ->
  24 <= ml <= 255 ->
  exists n s',
    RDMResponder_AddHeaderAndChecksum header rt ml s = Some (n, s') /\
    frame_only s s'.
Proof.
  intros Hok Hwf Hrt Hq Hml.
  destruct (response_command_class (command_class header)) as [rcc|] eqn:Hrcc.
  - rewrite (AddHeaderAndChecksum_run _ _ _ _ _ Hok Hwf Hrt Hq Hml Hrcc).
    do 2 eexists. split; [reflexivity|].
    apply frame_only_with_buffer, reply_frame_length; assumption.
  - unfold RDMResponder_AddHeaderAndChecksum. rewrite Hrcc.
    do 2 eexists. split; [reflexivity|]. apply frame_only_refl, Hok.
Qed.

Lemma push16_frame_only (header : RDMHeader) (rt v : Z) (s : State) :
  buffer_ok s -> RDMHeader_wf header ->
  is_uint8 rt -> is_uint8 (queued_message_count (g_responder s)) ->
  exists n s',
    (PushUInt16 sizeof_RDMHeader v
       ≫= fun ptr => RDMResponder_AddHeaderAndChecksum header rt
                       (Z.of_nat ptr)) s = Some (n, s') /\
    frame_only s s'.
Proof.
  intros Hok Hwf Hrt Hq.
  rewrite run_bind, PushUInt16_run by (auto; frame_bound). cbv beta iota.
  set (s1 := with_buffer _ s).
  assert (Hf1 : frame_only s s1).
  { subst s1. apply frame_only_with_buffer.
    rewrite !length_insert. exact Hok. }
  assert (Hml : 24 <= Z.of_nat (S (S sizeof_RDMHeader)) <= 255)
    by (unfold sizeof_RDMHeader; lia).
  destruct (AddHeaderAndChecksum_frame_only header rt _ s1
              (proj2 (proj2 (proj2 (proj2 Hf1)))) Hwf Hrt Hq Hml)
    as (n & s' & Hrun & Hf).
  exists n, s'. split; [exact Hrun|].
  exact (frame_only_trans _ _ _ Hf1 Hf).
Qed.

Section Frames.
Context `{RDMUtil}.

Lemma BuildNack_frame_only (header : RDMHeader) (reason : Z) (s : State) :
  buffer_ok s -> RDMHeader_wf header ->
  is_uint8 (queued_message_count (g_responder s)) ->
  exists n s',
    RDMResponder_BuildNack header reason s = Some (n, s') /\
    frame_only s s'.
Proof.
  intros Hok Hwf Hq. unfold RDMResponder_BuildNack.
  destruct (RDMUtil_IsUnicast (dest_uid header)); cbn [negb].
  - apply push16_frame_only; auto. uint_by_compute.
  - do 2 eexists. split; [reflexivity|]. apply frame_only_refl, Hok.
Qed.

Lemma BuildSetAck_frame_only (header : RDMHeader) (s : State) :
  buffer_ok s -> RDMHeader_wf header ->
  is_uint8 (queued_message_count (g_responder s)) ->
  exists n s',
    RDMResponder_BuildSetAck header s = Some (n, s') /\
    frame_only s s'.
Proof.
  intros Hok Hwf Hq. unfold RDMResponder_BuildSetAck.
  destruct (RDMUtil_IsUnicast (dest_uid header)); cbn [negb].
  - apply AddHeaderAndChecksum_frame_only; auto.
    + uint_by_compute.
    + unfold sizeof_RDMHeader. lia.
  - do 2 eexists. split; [reflexivity|]. apply frame_only_refl, Hok.
Qed.

End Frames.

(** ** PID dispatch *)

Section Dispatch.
Context `{RDMUtil} `{ModelHandlers}.

Lemma dispatch_scan_found (ds : list PIDDescriptor) (p : Z)
    (d : PIDDescriptor) (header : RDMHeader) (pd : list Z) :
  descriptor_for ds p = Some d ->
  dispatch_scan ds p header pd = dispatch_descriptor d header pd.
Proof.
  unfold descriptor_for.
  induction ds as [|x ds IH]; cbn [List.find dispatch_scan]; [discriminate|].
  destruct (p =? pid x); [intros [= ->]; reflexivity | exact IH].
Qed.

Lemma dispatch_scan_unknown (ds : list PIDDescriptor) (p : Z)
    (header : RDMHeader) (pd : list Z) :
  descriptor_for ds p = None ->
  dispatch_scan ds p header pd = RDMResponder_BuildNack header NR_UNKNOWN_PID.
Proof.
  unfold descriptor_for.
  induction ds as [|x ds IH]; cbn [List.find dispatch_scan]; [reflexivity|].
  destruct (p =? pid x); [discriminate | exact IH].
Qed.

Lemma DispatchPID_run (header : RDMHeader) (pd : list Z) (s : State)
    (definition : ResponderDefinition) :
  def (g_responder s) = Some definition ->
  RDMResponder_DispatchPID header pd s
  = dispatch_scan (descriptors definition) (ntohs (param_id header))
      header pd s.
Proof.
  intros Hdef. unfold RDMResponder_DispatchPID. run. rewrite Hdef.
  reflexivity.
Qed.

Lemma is_nack_of_BuildNack (header : RDMHeader) (reason rcc : Z) (s : State) :
  RDMUtil_IsUnicast (dest_uid header) = true ->
  buffer_ok s -> RDMHeader_wf header ->
  is_uint8 (queued_message_count (g_responder s)) ->
  is_uint16 reason ->
  response_command_class (command_class header) = Some rcc ->
  is_nack reason (RDMResponder_BuildNack header reason s).
Proof.
  intros Hu Hok Hwf Hq Hr Hrcc.
  destruct (BuildNack_unicast header reason rcc s Hu Hok Hwf Hq Hr Hrcc)
    as (s' & -> & _ & Hn).
  exact Hn.
Qed.

End Dispatch.

Lemma is_reply_not_no_response (rt : Z) (data : list Z) (s : State) :
  ~ is_reply rt data (Some (RDM_RESPONDER_NO_RESPONSE, s)).
Proof.
  intros (n & s' & [= <- <-] & Hn & _). unfold RDM_RESPONDER_NO_RESPONSE in Hn.
  lia.
Qed.

(** C3, as stated, at a broadcast SET request for a PID (0x1234) that
    the table does not hold: the result is NO_RESPONSE, not a NACK. *)
Lemma DispatchPID_unknown_pid_counterexample :
  let header := sample_header broadcast_uid SET_COMMAND 0x1234 0 0 in
  let res :=
    @RDMResponder_DispatchPID sample_RDMUtil no_ModelHandlers header []
      sample_state in
  descriptor_for (descriptors sample_definition) (ntohs (param_id header))
  = None /\
  res = Some (RDM_RESPONDER_NO_RESPONSE, sample_state) /\
  ~ is_nack NR_UNKNOWN_PID res.
Proof.
  intros header res.
  assert (Hres : res = Some (RDM_RESPONDER_NO_RESPONSE, sample_state))
    by (vm_compute; reflexivity).
  split; [vm_compute; reflexivity|]. split; [exact Hres|].
  rewrite Hres. apply is_reply_not_no_response.
Qed.

(** C3 (amended): for a GET request whose PID the table holds, the
    result is NO_RESPONSE when the destination is not unicast, else a
    NACK UNSUPPORTED_COMMAND_CLASS when the descriptor has no GET
    handler, else a NACK FORMAT_ERROR when the parameter data length is
    not the descriptor's [get_param_size], else whatever the GET handler
    returns. For a request whose PID the table does not hold, the result
    is that of [RDMResponder_BuildNack] with UNKNOWN_PID: a NACK frame
    when the destination is unicast (and the command class is one a
    reply exists for), NO_RESPONSE with nothing written when it is
    not. *)
Theorem DispatchPID_get_and_unknown `{RDMUtil} `{ModelHandlers}
    (header : RDMHeader) (pd : list Z) (s : State)
    (definition : ResponderDefinition) :
  buffer_ok s -> RDMHeader_wf header ->
  is_uint8 (queued_message_count (g_responder s)) ->
  def (g_responder s) = Some definition ->
  let p := ntohs (param_id header) in
  let res := RDMResponder_DispatchPID header pd s in
  let unicast := RDMUtil_IsUnicast (dest_uid header) in
  (forall d,
     descriptor_for (descriptors definition) p = Some d ->
     command_class header = GET_COMMAND ->
     (unicast = false -> res = Some (RDM_RESPONDER_NO_RESPONSE, s)) /\
     (unicast = true -> get_handler d = None ->
      is_nack NR_UNSUPPORTED_COMMAND_CLASS res) /\
     (unicast = true -> forall handler, get_handler d = Some handler ->
      param_data_length header <> get_param_size d ->
      is_nack NR_FORMAT_ERROR res) /\
     (unicast = true -> forall handler, get_handler d = Some handler ->
      param_data_length header = get_param_size d ->
      res = call_handler handler header pd s)) /\
  (descriptor_for (descriptors definition) p = None ->
   res = RDMResponder_BuildNack header NR_UNKNOWN_PID s /\
   (unicast = false -> res = Some (RDM_RESPONDER_NO_RESPONSE, s)) /\
   (unicast = true ->
    command_class header = DISCOVERY_COMMAND \/
    command_class header = GET_COMMAND \/
    command_class header = SET_COMMAND ->
    is_nack NR_UNKNOWN_PID res)).
Proof.
  intros Hok Hwf Hq Hdef p res unicast.
  assert (Hres := DispatchPID_run header pd s definition Hdef).
  fold res p in Hres. split.
  - intros d Hd Hcc.
    rewrite (dispatch_scan_found _ _ _ _ _ Hd) in Hres.
    unfold dispatch_descriptor in Hres. rewrite Hcc, Z.eqb_refl in Hres.
    fold unicast in Hres.
    assert (Hrcc : response_command_class (command_class header)
                   = Some GET_COMMAND_RESPONSE) by (rewrite Hcc; reflexivity).
    repeat split.
    + intros Hu. rewrite Hu in Hres. exact Hres.
    + intros Hu Hg. rewrite Hu, Hg in Hres. rewrite Hres.
      eapply is_nack_of_BuildNack; eauto. uint_by_compute.
    + intros Hu handler Hg Hne. rewrite Hu, Hg in Hres.
      destruct (Z.eqb_spec (param_data_length header) (get_param_size d));
        [contradiction|].
      rewrite Hres. eapply is_nack_of_BuildNack; eauto. uint_by_compute.
    + intros Hu handler Hg Heq. rewrite Hu, Hg, Heq, Z.eqb_refl in Hres.
      exact Hres.
  - intros Hnone.
    rewrite (dispatch_scan_unknown _ _ _ _ Hnone) in Hres.
    split; [exact Hres|]. split.
    + intros Hu. rewrite Hres. apply BuildNack_not_unicast. exact Hu.
    + intros Hu Hcc. rewrite Hres.
      assert (Hrcc : exists rcc,
                 response_command_class (command_class header) = Some rcc).
      { destruct Hcc as [-> | [-> | ->]]; eexists; reflexivity. }
      destruct Hrcc as [rcc Hrcc].
      eapply is_nack_of_BuildNack; eauto. uint_by_compute.
Qed.

(** C9: a NACK for a request whose destination UID is not unicast is
    never built: [RDMResponder_BuildNack] returns NO_RESPONSE and leaves
    the state, frame buffer included, as it was; so do the NACK paths
    of the dispatcher (unknown PID, no SET handler) and of a SET handler
    (wrong length, value out of range). *)
Theorem BuildNack_suppressed_unless_unicast `{RDMUtil} `{ModelHandlers}
    (header : RDMHeader) (pd : list Z) (s : State) :
  RDMUtil_IsUnicast (dest_uid header) = false ->
  (forall reason,
     RDMResponder_BuildNack header reason s
     = Some (RDM_RESPONDER_NO_RESPONSE, s)) /\
  (forall definition,
     def (g_responder s) = Some definition ->
     descriptor_for (descriptors definition) (ntohs (param_id header)) = None ->
     RDMResponder_DispatchPID header pd s
     = Some (RDM_RESPONDER_NO_RESPONSE, s)) /\
  (forall definition d,
     def (g_responder s) = Some definition ->
     descriptor_for (descriptors definition) (ntohs (param_id header))
     = Some d ->
     command_class header <> GET_COMMAND -> set_handler d = None ->
     RDMResponder_DispatchPID header pd s
     = Some (RDM_RESPONDER_NO_RESPONSE, s)) /\
  (param_data_length header <> 2 ->
   RDMResponder_SetDMXStartAddress header pd s
   = Some (RDM_RESPONDER_NO_RESPONSE, s)) /\
  (param_data_length header = 2 ->
   (let address := JoinShort (byte_at pd 0) (byte_at pd 1) in
    address = 0 \/ MAX_DMX_START_ADDRESS < address) ->
   RDMResponder_SetDMXStartAddress header pd s
   = Some (RDM_RESPONDER_NO_RESPONSE, s)).
Proof.
  intros Hu.
  assert (Hnack : forall reason,
             RDMResponder_BuildNack header reason s
             = Some (RDM_RESPONDER_NO_RESPONSE, s))
    by (intros reason; apply BuildNack_not_unicast, Hu).
  split; [exact Hnack|]. repeat split.
  - intros definition Hdef Hnone.
    rewrite (DispatchPID_run _ _ _ _ Hdef).
    rewrite (dispatch_scan_unknown _ _ _ _ Hnone). apply Hnack.
  - intros definition d Hdef Hd Hcc Hset.
    rewrite (DispatchPID_run _ _ _ _ Hdef).
    rewrite (dispatch_scan_found _ _ _ _ _ Hd).
    unfold dispatch_descriptor.
    destruct (Z.eqb_spec (command_class header) GET_COMMAND);
      [contradiction|].
    rewrite Hset. apply Hnack.
  - intros Hpdl. unfold RDMResponder_SetDMXStartAddress.
    destruct (Z.eqb_spec (param_data_length header) 2); [contradiction|].
    apply Hnack.
  - intros Hpdl Haddr. unfold RDMResponder_SetDMXStartAddress.
    rewrite Hpdl. cbn [Z.eqb Pos.eqb negb]. cbv zeta in Haddr.
    replace ((JoinShort (byte_at pd 0) (byte_at pd 1) =? 0)
             || (MAX_DMX_START_ADDRESS <? JoinShort (byte_at pd 0)
                                            (byte_at pd 1)))
      with true.
    + apply Hnack.
    + symmetry. apply orb_true_iff.
      destruct Haddr as [-> | Hlt]; [left; reflexivity|].
      right. apply Z.ltb_lt. exact Hlt.
Qed.

(** ** SET handlers *)

Section Handlers.
Context `{RDMUtil}.

(** The three ways through [RDMResponder_SetDMXStartAddress]. *)
Lemma SetDMXStartAddress_cases (header : RDMHeader) (pd : list Z) (s : State) :
  let address := JoinShort (byte_at pd 0) (byte_at pd 1) in
  let accept r :=
    set_dmx_start_address address
      (if dmx_start_address r =? address then r
       else set_using_factory_defaults false r) in
  RDMResponder_SetDMXStartAddress header pd s
  = if negb (param_data_length header =? 2)
    then RDMResponder_BuildNack header NR_FORMAT_ERROR s
    else if (address =? 0) || (MAX_DMX_START_ADDRESS <? address)
    then RDMResponder_BuildNack header NR_DATA_OUT_OF_RANGE s
    else RDMResponder_BuildSetAck header (with_responder accept s).
Proof.
  intros address accept. unfold RDMResponder_SetDMXStartAddress.
  fold address.
  destruct (negb (param_data_length header =? 2)); [reflexivity|].
  destruct ((address =? 0) || (MAX_DMX_START_ADDRESS <? address));
    [reflexivity|].
  run. subst accept. cbv beta.
  destruct (dmx_start_address (g_responder s) =? address) eqn:E; run;
    f_equal; apply State_eq; try reflexivity;
    cbn [g_responder with_responder]; rewrite E; reflexivity.
Qed.

Lemma SetDMXPersonality_cases (header : RDMHeader) (pd : list Z) (s : State)
    (d : ResponderDefinition) :
  def (g_responder s) = Some d ->
  let new_personality := byte_at pd 0 in
  let accept r :=
    set_current_personality new_personality
      (if current_personality r =? new_personality then r
       else set_using_factory_defaults false r) in
  RDMResponder_SetDMXPersonality header pd s
  = if negb (param_data_length header =? 1)
    then RDMResponder_BuildNack header NR_FORMAT_ERROR s
    else if (new_personality =? 0) || (personality_count d <? new_personality)
    then RDMResponder_BuildNack header NR_DATA_OUT_OF_RANGE s
    else RDMResponder_BuildSetAck header (with_responder accept s).
Proof.
  intros Hdef new_personality accept. unfold RDMResponder_SetDMXPersonality.
  fold new_personality.
  destruct (negb (param_data_length header =? 1)); [reflexivity|].
  run. rewrite Hdef.
  destruct ((new_personality =? 0) || (personality_count d <? new_personality));
    [reflexivity|].
  subst accept. cbv beta.
  destruct (current_personality (g_responder s) =? new_personality) eqn:E;
    run; f_equal; apply State_eq; try reflexivity;
    cbn [g_responder with_responder]; rewrite E; reflexivity.
Qed.

Lemma SetDeviceLabel_cases (header : RDMHeader) (pd : list Z) (s : State) :
  let accept r :=
    set_using_factory_defaults false
      (set_device_label
         (fst (RDMUtil_StringCopy (device_label r) RDM_DEFAULT_STRING_SIZE
                 pd (param_data_length header))) r) in
  RDMResponder_SetDeviceLabel header pd s
  = if RDM_DEFAULT_STRING_SIZE <? param_data_length header
    then RDMResponder_BuildNack header NR_FORMAT_ERROR s
    else RDMResponder_BuildSetAck header (with_responder accept s).
Proof.
  intros accept. unfold RDMResponder_SetDeviceLabel.
  destruct (RDM_DEFAULT_STRING_SIZE <? param_data_length header);
    [reflexivity|].
  run. f_equal.
Qed.

(** A SET handler that accepted the value: the responder is updated by
    [f], then the ACK is framed (or suppressed). *)
Lemma BuildSetAck_after_update (header : RDMHeader)
    (f : RDMResponder -> RDMResponder) (s : State) :
  buffer_ok s -> RDMHeader_wf header ->
  is_uint8 (queued_message_count (f (g_responder s))) ->
  exists n s',
    RDMResponder_BuildSetAck header (with_responder f s) = Some (n, s') /\
    g_responder s' = f (g_responder s) /\
    g_internal_state s' = g_internal_state s /\
    ports s' = ports s /\
    buffer_ok s' /\
    (RDMUtil_IsUnicast (dest_uid header) = false ->
     n = RDM_RESPONDER_NO_RESPONSE /\ s' = with_responder f s) /\
    (RDMUtil_IsUnicast (dest_uid header) = true ->
     command_class header = SET_COMMAND ->
     is_set_ack (Some (n, s'))).
Proof.
  intros Hok Hwf Hq.
  assert (Hok1 : buffer_ok (with_responder f s)) by auto with rdm.
  destruct (RDMUtil_IsUnicast (dest_uid header)) eqn:Hu.
  - destruct (BuildSetAck_frame_only header _ Hok1 Hwf Hq)
      as (n & s' & Hrun & Hr & Hi & _ & Hp & Hb).
    exists n, s'. repeat split; auto; try discriminate.
    intros _ Hcc.
    destruct (BuildSetAck_unicast header SET_COMMAND_RESPONSE _
                Hu Hok1 Hwf Hq) as (s2 & Hrun2 & _ & Hack).
    { rewrite Hcc. reflexivity. }
    rewrite Hrun in Hrun2. injection Hrun2 as -> ->. exact Hack.
  - rewrite (BuildSetAck_not_unicast _ _ Hu).
    do 2 eexists. repeat split; auto; discriminate.
Qed.

End Handlers.

(** ** DMX start address *)

(** C6, as stated, at a broadcast SET of start address 5: the address
    is stored, but the result is NO_RESPONSE, not a SET ACK. *)
Lemma SetDMXStartAddress_broadcast_counterexample :
  let header :=
    sample_header broadcast_uid SET_COMMAND PID_DMX_START_ADDRESS 0 2 in
  let res :=
    @RDMResponder_SetDMXStartAddress sample_RDMUtil header [0; 5]
      sample_state in
  (exists s', res = Some (RDM_RESPONDER_NO_RESPONSE, s') /\
              dmx_start_address (g_responder s') = 5) /\
  ~ is_set_ack res.
Proof.
  intros header res.
  assert (Hres : res = Some (RDM_RESPONDER_NO_RESPONSE,
                             with_responder
                               (fun r => set_dmx_start_address 5
                                  (set_using_factory_defaults false r))
                               sample_state))
    by (vm_compute; reflexivity).
  split.
  - eexists. split; [exact Hres | reflexivity].
  - rewrite Hres. apply is_reply_not_no_response.
Qed.

(** C6 (amended): for a SET_COMMAND request with the two parameter
    bytes [hi; lo] of the value [v]: when the length is 2 and
    [1 <= v <= 512], [v] is stored in [dmx_start_address] and the reply
    is a SET ACK; when the length is 2 and [v] is 0 or above 512 the
    reply is a NACK DATA_OUT_OF_RANGE and the responder is unchanged;
    when the length is not 2 the reply is a NACK FORMAT_ERROR and the
    responder is unchanged. These replies are sent when the destination
    UID is unicast; when it is not, the same checks and the same store
    happen and the result is NO_RESPONSE. *)
Theorem SetDMXStartAddress_range `{RDMUtil} (header : RDMHeader)
    (hi lo : Z) (s : State) :
  buffer_ok s -> RDMHeader_wf header ->
  is_uint8 (queued_message_count (g_responder s)) ->
  is_uint8 hi -> is_uint8 lo ->
  command_class header = SET_COMMAND ->
  let v := 256 * hi + lo in
  let unicast := RDMUtil_IsUnicast (dest_uid header) in
  let res := RDMResponder_SetDMXStartAddress header [hi; lo] s in
  (param_data_length header = 2 -> 1 <= v <= 512 ->
   exists n s',
     res = Some (n, s') /\
     dmx_start_address (g_responder s') = v /\
     (unicast = true -> is_set_ack res) /\
     (unicast = false -> n = RDM_RESPONDER_NO_RESPONSE)) /\
  (param_data_length header = 2 -> v = 0 \/ 512 < v ->
   exists n s',
     res = Some (n, s') /\
     g_responder s' = g_responder s /\
     (unicast = true -> is_nack NR_DATA_OUT_OF_RANGE res) /\
     (unicast = false -> res = Some (RDM_RESPONDER_NO_RESPONSE, s))) /\
  (forall pd,
     param_data_length header <> 2 ->
     let res := RDMResponder_SetDMXStartAddress header pd s in
     exists n s',
       res = Some (n, s') /\
       g_responder s' = g_responder s /\
       (unicast = true -> is_nack NR_FORMAT_ERROR res) /\
       (unicast = false -> res = Some (RDM_RESPONDER_NO_RESPONSE, s))).
Proof.
  intros Hok Hwf Hq Hhi Hlo Hcc v unicast res.
  assert (Hrcc : response_command_class (command_class header)
                 = Some SET_COMMAND_RESPONSE) by (rewrite Hcc; reflexivity).
  assert (Hnack : forall reason, is_uint16 reason ->
            exists n s',
              RDMResponder_BuildNack header reason s = Some (n, s') /\
              g_responder s' = g_responder s /\
              (unicast = true ->
               is_nack reason (RDMResponder_BuildNack header reason s)) /\
              (unicast = false ->
               RDMResponder_BuildNack header reason s
               = Some (RDM_RESPONDER_NO_RESPONSE, s))).
  { intros reason Hr.
    destruct (BuildNack_frame_only header reason s Hok Hwf Hq)
      as (n & s' & Hrun & Hr' & _).
    exists n, s'. repeat split; auto.
    - intros Hu. eapply is_nack_of_BuildNack; eauto.
    - intros Hu. apply BuildNack_not_unicast, Hu. }
  pose proof (SetDMXStartAddress_cases header [hi; lo] s) as Hcases.
  cbv zeta in Hcases. fold res in Hcases.
  change (byte_at [hi; lo] 0) with hi in Hcases.
  change (byte_at [hi; lo] 1) with lo in Hcases.
  rewrite (JoinShort_bytes hi lo Hhi Hlo) in Hcases. fold v in Hcases.
  split; [|split].
  - intros Hpdl Hv. rewrite Hpdl in Hcases. cbn [Z.eqb Pos.eqb negb] in Hcases.
    replace ((v =? 0) || (MAX_DMX_START_ADDRESS <? v)) with false in Hcases.
    2:{ symmetry. apply orb_false_iff. unfold MAX_DMX_START_ADDRESS.
        split; [apply Z.eqb_neq | apply Z.ltb_ge]; lia. }
    match type of Hcases with
    | _ = RDMResponder_BuildSetAck _ (with_responder ?f _) =>
        destruct (BuildSetAck_after_update header f s Hok Hwf)
          as (n & s' & Hrun & Hr & _ & _ & _ & Hbc & Huc)
    end.
    { cbv beta. destruct (_ =? _); exact Hq. }
    rewrite Hcases, Hrun. exists n, s'.
    split; [reflexivity|]. split; [rewrite Hr; reflexivity|]. split.
    + intros Hu. apply Huc; assumption.
    + intros Hu. apply Hbc, Hu.
  - intros Hpdl Hv. rewrite Hpdl in Hcases. cbn [Z.eqb Pos.eqb negb] in Hcases.
    replace ((v =? 0) || (MAX_DMX_START_ADDRESS <? v)) with true in Hcases.
    2:{ symmetry. apply orb_true_iff. unfold MAX_DMX_START_ADDRESS.
        destruct Hv; [left; apply Z.eqb_eq | right; apply Z.ltb_lt]; lia. }
    rewrite Hcases. apply Hnack. uint_by_compute.
  - intros pd Hpdl res'.
    pose proof (SetDMXStartAddress_cases header pd s) as Hc.
    cbv zeta in Hc. fold res' in Hc.
    destruct (Z.eqb_spec (param_data_length header) 2); [contradiction|].
    cbn [negb] in Hc. rewrite Hc. apply Hnack. uint_by_compute.
Qed.

(** ** Discovery with a sub-device *)

(** C8, as stated, at scenario 4 of the specification: a unicast GET
    DMX_START_ADDRESS with sub_device 0x0001 handed to
    [RDMResponder_DispatchPID] is answered with an ACK of 28 bytes. *)
Lemma DispatchPID_sub_device_counterexample :
  let header :=
    sample_header own_uid GET_COMMAND PID_DMX_START_ADDRESS 1 0 in
  let res :=
    @RDMResponder_DispatchPID sample_RDMUtil no_ModelHandlers header []
      sample_state in
  ntohs (sub_device header) = 1 /\
  ntohs (param_id header) = PID_DMX_START_ADDRESS /\
  (exists s', res = Some (28, s') /\
     port_id (RDMHeader_of_buffer (g_rdm_buffer s')) = ACK /\
     param_data_of_buffer (g_rdm_buffer s') = [0; 1]) /\
  res <> Some (RDM_RESPONDER_NO_RESPONSE, sample_state).
Proof.
  intros header res.
  split; [vm_compute; reflexivity|]. split; [vm_compute; reflexivity|].
  split.
  - eexists. split; [vm_compute; reflexivity|].
    split; vm_compute; reflexivity.
  - vm_compute. discriminate.
Qed.

(** C8 (amended): a request with a non-zero sub_device field handed to
    [RDMResponder_HandleDiscovery] (the DISC_* PIDs) is dropped: the
    result is NO_RESPONSE, whatever the PID, and the state is as
    before. [RDMResponder_DispatchPID] does not read the sub_device
    field: with such a request too, a unicast GET of matching length
    and any SET go to the handler of the descriptor. *)
Theorem HandleDiscovery_drops_sub_device `{RDMUtil} `{ModelHandlers}
    (header : RDMHeader) (pd : list Z) (s : State) :
  is_uint16 (sub_device header) ->
  sub_device header <> 0 ->
  RDMResponder_HandleDiscovery header pd s
  = Some (RDM_RESPONDER_NO_RESPONSE, s) /\
  (forall definition d handler,
     def (g_responder s) = Some definition ->
     descriptor_for (descriptors definition) (ntohs (param_id header))
     = Some d ->
     (command_class header = GET_COMMAND ->
      RDMUtil_IsUnicast (dest_uid header) = true ->
      get_handler d = Some handler ->
      param_data_length header = get_param_size d ->
      RDMResponder_DispatchPID header pd s
      = call_handler handler header pd s) /\
     (command_class header <> GET_COMMAND ->
      set_handler d = Some handler ->
      RDMResponder_DispatchPID header pd s
      = call_handler handler header pd s)).
Proof.
  intros Hsd Hne. split.
  - unfold RDMResponder_HandleDiscovery.
    destruct (Z.eqb_spec (ntohs (sub_device header)) SUBDEVICE_ROOT) as [E|E].
    + apply (proj1 (ntohs_zero_iff _ Hsd)) in E. contradiction.
    + reflexivity.
  - intros definition d handler Hdef Hd.
    rewrite (DispatchPID_run _ _ _ _ Hdef).
    rewrite (dispatch_scan_found _ _ _ _ _ Hd).
    unfold dispatch_descriptor. split.
    + intros Hcc Hu Hg Hpdl.
      rewrite Hcc, Z.eqb_refl, Hu, Hg, Hpdl, Z.eqb_refl. reflexivity.
    + intros Hcc Hset.
      destruct (Z.eqb_spec (command_class header) GET_COMMAND);
        [contradiction|].
      rewrite Hset. reflexivity.
Qed.

(** ** Mute and un-mute *)

Lemma GetControlField_run (s : State) :
  exists cf, GetControlField s = Some (cf, s).
Proof. unfold GetControlField. run. eexists. reflexivity. Qed.

(** C10: with a parameter data length of 0, [RDMResponder_SetMute] sets
    [is_muted] and [RDMResponder_SetUnMute] clears it whether or not
    the destination UID is unicast; a destination that is not unicast
    only turns the result into NO_RESPONSE, after the state change.
    With a non-zero parameter data length the result is NO_RESPONSE and
    the state is as before. *)
Theorem SetMute_state_change_precedes_unicast_check `{RDMUtil}
    (header : RDMHeader) (s : State) :
  buffer_ok s -> RDMHeader_wf header ->
  is_uint8 (queued_message_count (g_responder s)) ->
  let unicast := RDMUtil_IsUnicast (dest_uid header) in
  (param_data_length header = 0 ->
   (exists n s',
      RDMResponder_SetMute header s = Some (n, s') /\
      is_muted (g_responder s') = true /\
      (unicast = false ->
       n = RDM_RESPONDER_NO_RESPONSE /\
       s' = with_ports (set_mute_pin false)
              (with_responder (set_is_muted true) s))) /\
   (exists n s',
      RDMResponder_SetUnMute header s = Some (n, s') /\
      is_muted (g_responder s') = false /\
      (unicast = false ->
       n = RDM_RESPONDER_NO_RESPONSE /\
       s' = with_internal_state
              (set_mute_timer (CoarseTimer_GetTime (g_coarse_timer s)))
              (with_ports (set_mute_pin true)
                 (with_responder (set_is_muted false) s))))) /\
  (param_data_length header <> 0 ->
   RDMResponder_SetMute header s = Some (RDM_RESPONDER_NO_RESPONSE, s) /\
   RDMResponder_SetUnMute header s = Some (RDM_RESPONDER_NO_RESPONSE, s)).
Proof.
  intros Hok Hwf Hq unicast.
  assert (Hack : is_uint8 ACK) by uint_by_compute.
  split.
  - intros Hpdl. split.
    + unfold RDMResponder_SetMute. rewrite Hpdl. cbn [Z.eqb negb].
      run. fold unicast. destruct unicast eqn:Hu; cbn [negb].
      * match goal with
        | |- context [(GetControlField ≫= _) ?s1] =>
            destruct (GetControlField_run s1) as [cf Hcf];
            rewrite run_bind, Hcf; cbv beta iota;
            destruct (push16_frame_only header ACK cf s1)
              as (n & s' & Hrun & Hr & _); auto with rdm
        end.
        rewrite Hrun. exists n, s'. split; [reflexivity|].
        split; [rewrite Hr; reflexivity | discriminate].
      * run. do 2 eexists. split; [reflexivity|].
        split; [reflexivity|]. intros _. split; reflexivity.
    + unfold RDMResponder_SetUnMute. rewrite Hpdl. cbn [Z.eqb negb].
      unfold GetTime. run. fold unicast. destruct unicast eqn:Hu; cbn [negb].
      * match goal with
        | |- context [(GetControlField ≫= _) ?s1] =>
            destruct (GetControlField_run s1) as [cf Hcf];
            rewrite run_bind, Hcf; cbv beta iota;
            destruct (push16_frame_only header ACK cf s1)
              as (n & s' & Hrun & Hr & _); auto with rdm
        end.
        rewrite Hrun. exists n, s'. split; [reflexivity|].
        split; [rewrite Hr; reflexivity | discriminate].
      * run. do 2 eexists. split; [reflexivity|].
        split; [reflexivity|]. intros _. split; reflexivity.
  - intros Hpdl. unfold RDMResponder_SetMute, RDMResponder_SetUnMute.
    destruct (Z.eqb_spec (param_data_length header) 0); [contradiction|].
    split; reflexivity.
Qed.

(** ** The factory-defaults flag *)

Section FactoryDefaults.
Context `{RDMUtil}.

Lemma ResetToFactoryDefaults_flag (s : State) :
  exists s',
    RDMResponder_ResetToFactoryDefaults s = Some (tt, s') /\
    using_factory_defaults (g_responder s') = true.
Proof.
  unfold RDMResponder_ResetToFactoryDefaults. run.
  cbn [g_responder with_responder def set_identify_on set_is_muted
       set_queued_message_count set_current_personality
       set_sub_device_count set_dmx_start_address].
  destruct (def (g_responder s)) as [d|].
  - run. destruct (personality_count d =? 0); run;
      eexists; split; reflexivity.
  - run. eexists; split; reflexivity.
Qed.

Lemma SetDeviceLabel_flag (header : RDMHeader) (pd : list Z) (s : State) :
  buffer_ok s -> RDMHeader_wf header ->
  is_uint8 (queued_message_count (g_responder s)) ->
  param_data_length header <= RDM_DEFAULT_STRING_SIZE ->
  exists n s',
    RDMResponder_SetDeviceLabel header pd s = Some (n, s') /\
    device_label (g_responder s')
    = fst (RDMUtil_StringCopy (device_label (g_responder s))
             RDM_DEFAULT_STRING_SIZE pd (param_data_length header)) /\
    using_factory_defaults (g_responder s') = false.
Proof.
  intros Hok Hwf Hq Hpdl.
  pose proof (SetDeviceLabel_cases header pd s) as Hc. cbv zeta in Hc.
  destruct (Z.ltb_spec RDM_DEFAULT_STRING_SIZE (param_data_length header));
    [lia|].
  match type of Hc with
  | _ = RDMResponder_BuildSetAck _ (with_responder ?f _) =>
      destruct (BuildSetAck_after_update header f s Hok Hwf Hq)
        as (n & s' & Hrun & Hr & _)
  end.
  rewrite Hc, Hrun. exists n, s'. split; [reflexivity|].
  rewrite Hr. split; reflexivity.
Qed.

Lemma SetDMXPersonality_flag (header : RDMHeader) (pd : list Z) (s : State)
    (d : ResponderDefinition) :
  buffer_ok s -> RDMHeader_wf header ->
  is_uint8 (queued_message_count (g_responder s)) ->
  def (g_responder s) = Some d ->
  param_data_length header = 1 ->
  1 <= byte_at pd 0 <= personality_count d ->
  exists n s',
    RDMResponder_SetDMXPersonality header pd s = Some (n, s') /\
    current_personality (g_responder s') = byte_at pd 0 /\
    using_factory_defaults (g_responder s')
    = if current_personality (g_responder s) =? byte_at pd 0
      then using_factory_defaults (g_responder s) else false.
Proof.
  intros Hok Hwf Hq Hdef Hpdl Hv.
  pose proof (SetDMXPersonality_cases header pd s d Hdef) as Hc.
  cbv zeta in Hc. rewrite Hpdl in Hc. cbn [Z.eqb Pos.eqb negb] in Hc.
  replace ((byte_at pd 0 =? 0) || (personality_count d <? byte_at pd 0))
    with false in Hc.
  2:{ symmetry. apply orb_false_iff.
      split; [apply Z.eqb_neq | apply Z.ltb_ge]; lia. }
  match type of Hc with
  | _ = RDMResponder_BuildSetAck _ (with_responder ?f _) =>
      destruct (BuildSetAck_after_update header f s Hok Hwf)
        as (n & s' & Hrun & Hr & _)
  end.
  { cbv beta. destruct (_ =? _); exact Hq. }
  rewrite Hc, Hrun. exists n, s'. split; [reflexivity|].
  rewrite Hr. split; [reflexivity|].
  destruct (current_personality (g_responder s) =? byte_at pd 0);
    reflexivity.
Qed.

Lemma SetDMXStartAddress_flag (header : RDMHeader) (pd : list Z) (s : State) :
  buffer_ok s -> RDMHeader_wf header ->
  is_uint8 (queued_message_count (g_responder s)) ->
  param_data_length header = 2 ->
  let address := JoinShort (byte_at pd 0) (byte_at pd 1) in
  1 <= address <= MAX_DMX_START_ADDRESS ->
  exists n s',
    RDMResponder_SetDMXStartAddress header pd s = Some (n, s') /\
    dmx_start_address (g_responder s') = address /\
    using_factory_defaults (g_responder s')
    = if dmx_start_address (g_responder s) =? address
      then using_factory_defaults (g_responder s) else false.
Proof.
  intros Hok Hwf Hq Hpdl address Hv.
  pose proof (SetDMXStartAddress_cases header pd s) as Hc.
  cbv zeta in Hc. fold address in Hc.
  rewrite Hpdl in Hc. cbn [Z.eqb Pos.eqb negb] in Hc.
  replace ((address =? 0) || (MAX_DMX_START_ADDRESS <? address))
    with false in Hc.
  2:{ symmetry. apply orb_false_iff.
      split; [apply Z.eqb_neq | apply Z.ltb_ge]; lia. }
  match type of Hc with
  | _ = RDMResponder_BuildSetAck _ (with_responder ?f _) =>
      destruct (BuildSetAck_after_update header f s Hok Hwf)
        as (n & s' & Hrun & Hr & _)
  end.
  { cbv beta. destruct (_ =? _); exact Hq. }
  rewrite Hc, Hrun. exists n, s'. split; [reflexivity|].
  rewrite Hr. split; [reflexivity|].
  destruct (dmx_start_address (g_responder s) =? address); reflexivity.
Qed.

Lemma SetIdentifyDevice_flag (header : RDMHeader) (pd : list Z) (s : State)
    (b : bool) :
  buffer_ok s -> RDMHeader_wf header ->
  is_uint8 (queued_message_count (g_responder s)) ->
  param_data_length header = 1 ->
  byte_at pd 0 = (if b then 1 else 0) ->
  exists n s',
    RDMResponder_SetIdentifyDevice header pd s = Some (n, s') /\
    identify_on (g_responder s') = b /\
    using_factory_defaults (g_responder s')
    = if eqb b (identify_on (g_responder s))
      then using_factory_defaults (g_responder s) else false.
Proof.
  intros Hok Hwf Hq Hpdl Hb.
  destruct (BuildSetAck_after_update header (set_identify_on b) s Hok Hwf Hq)
    as (n & s2 & Hrun & Hr & _).
  assert (Hset : RDMResponder_GenericSetBool header pd set_identify_on s
                 = Some (n, s2)).
  { unfold RDMResponder_GenericSetBool. rewrite Hpdl, Hb.
    cbn [Z.eqb Pos.eqb negb]. destruct b; run; exact Hrun. }
  unfold RDMResponder_SetIdentifyDevice.
  rewrite run_bind, run_get. cbv beta iota zeta.
  rewrite run_bind, Hset. cbv beta iota.
  rewrite run_bind, run_get. cbv beta iota.
  rewrite Hr. cbn [identify_on set_identify_on].
  destruct (eqb b (identify_on (g_responder s))) eqn:E.
  - run. exists n, s2. split; [reflexivity|]. rewrite Hr.
    split; reflexivity.
  - unfold GetTime. destruct b; run; do 2 eexists;
      (split; [reflexivity|]); cbn [g_responder with_responder with_ports
        with_internal_state]; rewrite Hr; split; reflexivity.
Qed.

End FactoryDefaults.

(** C7, as stated, at a SET DEVICE_LABEL that carries the label the
    responder already has ("AB"): the label is unchanged, yet the flag
    goes from true to false. *)
Lemma SetDeviceLabel_same_label_counterexample :
  let s := with_responder (set_device_label [0x41; 0x42]) sample_state in
  let header := sample_header own_uid SET_COMMAND PID_DEVICE_LABEL 0 2 in
  exists s',
    @RDMResponder_SetDeviceLabel sample_RDMUtil header [0x41; 0x42] s
    = Some (26, s') /\
    port_id (RDMHeader_of_buffer (g_rdm_buffer s')) = ACK /\
    device_label (g_responder s') = device_label (g_responder s) /\
    using_factory_defaults (g_responder s) = true /\
    using_factory_defaults (g_responder s') = false.
Proof.
  eexists. split; [vm_compute; reflexivity|].
  repeat split; vm_compute; reflexivity.
Qed.

(** C7 (amended): [RDMResponder_ResetToFactoryDefaults] sets
    [using_factory_defaults]. An accepted SET of the personality, of the
    start address or of the identify state clears the flag when the
    value differs from the current one and leaves it alone when the
    value is the current one. An accepted SET of the device label
    clears the flag whatever the label. *)
Theorem factory_defaults_flag `{RDMUtil} (header : RDMHeader)
    (pd : list Z) (s : State) :
  buffer_ok s -> RDMHeader_wf header ->
  is_uint8 (queued_message_count (g_responder s)) ->
  let r := g_responder s in
  (exists s',
     RDMResponder_ResetToFactoryDefaults s = Some (tt, s') /\
     using_factory_defaults (g_responder s') = true) /\
  (param_data_length header <= RDM_DEFAULT_STRING_SIZE ->
   exists n s',
     RDMResponder_SetDeviceLabel header pd s = Some (n, s') /\
     using_factory_defaults (g_responder s') = false) /\
  (forall d,
     def r = Some d -> param_data_length header = 1 ->
     1 <= byte_at pd 0 <= personality_count d ->
     exists n s',
       RDMResponder_SetDMXPersonality header pd s = Some (n, s') /\
       current_personality (g_responder s') = byte_at pd 0 /\
       (current_personality r <> byte_at pd 0 ->
        using_factory_defaults (g_responder s') = false) /\
       (current_personality r = byte_at pd 0 ->
        using_factory_defaults (g_responder s')
        = using_factory_defaults r)) /\
  (param_data_length header = 2 ->
   let address := JoinShort (byte_at pd 0) (byte_at pd 1) in
   1 <= address <= MAX_DMX_START_ADDRESS ->
   exists n s',
     RDMResponder_SetDMXStartAddress header pd s = Some (n, s') /\
     dmx_start_address (g_responder s') = address /\
     (dmx_start_address r <> address ->
      using_factory_defaults (g_responder s') = false) /\
     (dmx_start_address r = address ->
      using_factory_defaults (g_responder s') = using_factory_defaults r)) /\
  (forall b : bool,
     param_data_length header = 1 ->
     byte_at pd 0 = (if b then 1 else 0) ->
     exists n s',
       RDMResponder_SetIdentifyDevice header pd s = Some (n, s') /\
       identify_on (g_responder s') = b /\
       (identify_on r <> b ->
        using_factory_defaults (g_responder s') = false) /\
       (identify_on r = b ->
        using_factory_defaults (g_responder s') = using_factory_defaults r)).
Proof.
  intros Hok Hwf Hq r. split; [apply ResetToFactoryDefaults_flag|].
  split; [|split; [|split]].
  - intros Hpdl.
    destruct (SetDeviceLabel_flag header pd s Hok Hwf Hq Hpdl)
      as (n & s' & Hrun & _ & Hf).
    exists n, s'. split; assumption.
  - intros d Hdef Hpdl Hv.
    destruct (SetDMXPersonality_flag header pd s d Hok Hwf Hq Hdef Hpdl Hv)
      as (n & s' & Hrun & Hcp & Hf).
    exists n, s'. split; [exact Hrun|]. split; [exact Hcp|].
    fold r in Hf.
    destruct (Z.eqb_spec (current_personality r) (byte_at pd 0));
      split; intros; first [contradiction | exact Hf].
  - intros Hpdl address Hv.
    destruct (SetDMXStartAddress_flag header pd s Hok Hwf Hq Hpdl Hv)
      as (n & s' & Hrun & Ha & Hf).
    exists n, s'. split; [exact Hrun|]. split; [exact Ha|].
    fold r address in Hf.
    destruct (Z.eqb_spec (dmx_start_address r) address);
      split; intros; first [contradiction | exact Hf].
  - intros b Hpdl Hb.
    destruct (SetIdentifyDevice_flag header pd s b Hok Hwf Hq Hpdl Hb)
      as (n & s' & Hrun & Hi & Hf).
    exists n, s'. split; [exact Hrun|]. split; [exact Hi|].
    fold r in Hf.
    destruct b, (identify_on r); cbn [eqb] in Hf;
      split; intros; first [congruence | exact Hf].
Qed.

(** ** The theorems at concrete requests *)

Ltac uid_by_compute :=
  split;
  [ reflexivity
  | repeat (constructor; [uint_by_compute|]); constructor ].

Lemma sample_header_wf (dest : list Z) (cc p sub pdl : Z) :
  is_uid dest -> is_uint8 cc -> is_uint16 p -> is_uint16 sub ->
  0 <= pdl <= 231 ->
  RDMHeader_wf (sample_header dest cc p sub pdl).
Proof.
  intros Hd Hcc Hp Hs Hpdl.
  constructor; cbn [sample_header start_code sub_start_code message_length
    dest_uid src_uid transaction_number port_id message_count sub_device
    command_class param_id param_data_length];
    try uint_by_compute; try uid_by_compute; try assumption;
    try (apply ntohs_uint16; assumption);
    unfold is_uint8; lia.
Qed.

Lemma sample_state_ok : buffer_ok sample_state.
Proof. reflexivity. Qed.

Lemma sample_state_qmc :
  is_uint8 (queued_message_count (g_responder sample_state)).
Proof. uint_by_compute. Qed.

Lemma own_uid_is_uid : is_uid own_uid.
Proof. uid_by_compute. Qed.

Lemma broadcast_uid_is_uid : is_uid broadcast_uid.
Proof. uid_by_compute. Qed.


(** A unicast GET of a PID that the sample table does not hold. *)
Lemma DispatchPID_get_and_unknown_witness :
  is_nack NR_UNKNOWN_PID
    (@RDMResponder_DispatchPID sample_RDMUtil no_ModelHandlers
       (sample_header own_uid GET_COMMAND 0x1234 0 0) [] sample_state).
Proof.
  refine (proj2 (proj2 (proj2
    (@DispatchPID_get_and_unknown sample_RDMUtil no_ModelHandlers
       (sample_header own_uid GET_COMMAND 0x1234 0 0) [] sample_state
       sample_definition _ _ _ _) _)) _ _).
  - exact sample_state_ok.
  - apply sample_header_wf;
      [exact own_uid_is_uid | uint_by_compute.. | lia].
  - exact sample_state_qmc.
  - reflexivity.
  - vm_compute. reflexivity.
  - vm_compute. reflexivity.
  - right. left. reflexivity.
Defined.

(** A GET addressed to the responder's own UID: the reply carries it as
    source. *)
Lemma AddHeaderAndChecksum_reply_fields_witness :
  exists s',
    RDMResponder_AddHeaderAndChecksum
      (sample_header own_uid GET_COMMAND PID_DMX_START_ADDRESS 0 0) ACK 24
      sample_state = Some (26, s') /\
    src_uid (RDMHeader_of_buffer (g_rdm_buffer s'))
    = uid (g_responder sample_state).
Proof.
  destruct (proj1
    (AddHeaderAndChecksum_reply_fields
       (sample_header own_uid GET_COMMAND PID_DMX_START_ADDRESS 0 0) ACK 24
       sample_state sample_state_ok
       (sample_header_wf own_uid GET_COMMAND PID_DMX_START_ADDRESS 0 0
          own_uid_is_uid ltac:(uint_by_compute) ltac:(uint_by_compute)
          ltac:(uint_by_compute) ltac:(lia))
       ltac:(uint_by_compute) sample_state_qmc ltac:(lia))
    (or_intror (or_introl eq_refl)))
    as (s' & Hrun & _ & _ & _ & Hsrc & _).
  exists s'. split; [exact Hrun|]. apply Hsrc. reflexivity.
Defined.

(** Scenario 5 of the specification turned valid: a unicast SET of
    start address 5. *)
Lemma SetDMXStartAddress_range_witness :
  exists n s',
    @RDMResponder_SetDMXStartAddress sample_RDMUtil
      (sample_header own_uid SET_COMMAND PID_DMX_START_ADDRESS 0 2) [0; 5]
      sample_state = Some (n, s') /\
    dmx_start_address (g_responder s') = 5.
Proof.
  destruct (proj1
    (@SetDMXStartAddress_range sample_RDMUtil
       (sample_header own_uid SET_COMMAND PID_DMX_START_ADDRESS 0 2) 0 5
       sample_state sample_state_ok
       (sample_header_wf own_uid SET_COMMAND PID_DMX_START_ADDRESS 0 2
          own_uid_is_uid ltac:(uint_by_compute) ltac:(uint_by_compute)
          ltac:(uint_by_compute) ltac:(lia))
       sample_state_qmc ltac:(uint_by_compute) ltac:(uint_by_compute)
       eq_refl)
    eq_refl ltac:(lia))
    as (n & s' & Hrun & Haddr & _).
  exists n, s'. split; [exact Hrun | exact Haddr].
Defined.

Lemma factory_defaults_flag_witness :
  exists s',
    @RDMResponder_ResetToFactoryDefaults sample_RDMUtil sample_state
    = Some (tt, s') /\
    using_factory_defaults (g_responder s') = true.
Proof.
  exact (proj1
    (@factory_defaults_flag sample_RDMUtil
       (sample_header own_uid SET_COMMAND PID_DEVICE_LABEL 0 0) []
       sample_state sample_state_ok
       (sample_header_wf own_uid SET_COMMAND PID_DEVICE_LABEL 0 0
          own_uid_is_uid ltac:(uint_by_compute) ltac:(uint_by_compute)
          ltac:(uint_by_compute) ltac:(lia))
       sample_state_qmc)).
Defined.

(** DISC_MUTE with sub_device 0x0001. *)
Lemma HandleDiscovery_drops_sub_device_witness :
  @RDMResponder_HandleDiscovery sample_RDMUtil
    (sample_header own_uid DISCOVERY_COMMAND PID_DISC_MUTE 1 0) []
    sample_state
  = Some (RDM_RESPONDER_NO_RESPONSE, sample_state).
Proof.
  refine (proj1
    (@HandleDiscovery_drops_sub_device sample_RDMUtil no_ModelHandlers
       (sample_header own_uid DISCOVERY_COMMAND PID_DISC_MUTE 1 0) []
       sample_state _ _)).
  - uint_by_compute.
  - vm_compute. discriminate.
Defined.

(** A broadcast request: no NACK UNKNOWN_PID. *)
Lemma BuildNack_suppressed_unless_unicast_witness :
  @RDMResponder_BuildNack sample_RDMUtil
    (sample_header broadcast_uid SET_COMMAND 0x1234 0 0) NR_UNKNOWN_PID
    sample_state
  = Some (RDM_RESPONDER_NO_RESPONSE, sample_state).
Proof.
  refine (proj1
    (@BuildNack_suppressed_unless_unicast sample_RDMUtil no_ModelHandlers
       (sample_header broadcast_uid SET_COMMAND 0x1234 0 0) [] sample_state
       _) NR_UNKNOWN_PID).
  vm_compute. reflexivity.
Defined.

(** A broadcast DISC_MUTE mutes the responder. *)
Lemma SetMute_state_change_precedes_unicast_check_witness :
  exists n s',
    @RDMResponder_SetMute sample_RDMUtil
      (sample_header broadcast_uid DISCOVERY_COMMAND PID_DISC_MUTE 0 0)
      sample_state = Some (n, s') /\
    is_muted (g_responder s') = true.
Proof.
  destruct (proj1 (proj1
    (@SetMute_state_change_precedes_unicast_check sample_RDMUtil
       (sample_header broadcast_uid DISCOVERY_COMMAND PID_DISC_MUTE 0 0)
       sample_state sample_state_ok
       (sample_header_wf broadcast_uid DISCOVERY_COMMAND PID_DISC_MUTE 0 0
          broadcast_uid_is_uid ltac:(uint_by_compute) ltac:(uint_by_compute)
          ltac:(uint_by_compute) ltac:(lia))
       sample_state_qmc) eq_refl))
    as (n & s' & Hrun & Hm & _).
  exists n, s'. split; [exact Hrun | exact Hm].
Defined.

(** ** End-to-end scenarios of the specification *)

(** Scenario 1: DISC_MUTE of the root, addressed to the responder: an
    ACK with the two-byte control field 00 00, and the responder is
    muted. *)
Example scenario_DISC_MUTE_root :
  let header :=
    sample_header own_uid DISCOVERY_COMMAND PID_DISC_MUTE 0 0 in
  exists s',
    @RDMResponder_HandleDiscovery sample_RDMUtil header [] sample_state
    = Some (28, s') /\
    is_muted (g_responder s') = true /\
    take 28 (g_rdm_buffer s')
    = [0xCC; 0x01; 26; 0; 1; 0; 0; 0; 1; 0x7a; 0x70; 0; 0; 0; 1; 7; 0; 0;
       0; 0; 0x11; 0; 2; 2; 0; 0; 0x01; 0xF0].
Proof.
  eexists. split; [vm_compute; reflexivity|].
  split; vm_compute; reflexivity.
Qed.

(** Scenario 3: a DUB whose upper bound 7a70:00000000 is below the own
    UID: nothing is emitted. *)
Example scenario_DUB_miss :
  RDMResponder_HandleDUBRequest
    [0x7a; 0x70; 0; 0; 0; 0; 0x7a; 0x70; 0; 0; 0; 0] 12 sample_state
  = Some (RDM_RESPONDER_NO_RESPONSE, sample_state).
Proof. vm_compute. reflexivity. Qed.

(** Scenario 5: a unicast SET DMX_START_ADDRESS to 513 (02 01): NACK
    DATA_OUT_OF_RANGE, start address unchanged. *)
Example scenario_SET_start_address_513 :
  let header :=
    sample_header own_uid SET_COMMAND PID_DMX_START_ADDRESS 0 2 in
  exists s',
    @RDMResponder_SetDMXStartAddress sample_RDMUtil header [0x02; 0x01]
      sample_state = Some (28, s') /\
    port_id (RDMHeader_of_buffer (g_rdm_buffer s')) = NACK_REASON /\
    param_data_of_buffer (g_rdm_buffer s')
    = [ShortMSB NR_DATA_OUT_OF_RANGE; ShortLSB NR_DATA_OUT_OF_RANGE] /\
    dmx_start_address (g_responder s')
    = dmx_start_address (g_responder sample_state).
Proof.
  eexists. split; [vm_compute; reflexivity|].
  repeat split; vm_compute; reflexivity.
Qed.

(** * Further properties *)

(** ** Coarse timer: ticks, differences, durations *)

Lemma to_uint32_idemp_add (a b : Z) :
  to_uint32 (to_uint32 a + b) = to_uint32 (a + b).
Proof. unfold to_uint32. apply Zplus_mod_idemp_l. Qed.

Lemma TimerEvent_iter_count (n : nat) (g : CoarseTimer_Data) :
  is_uint32 (timer_count g) ->
  timer_count (Nat.iter n CoarseTimer_TimerEvent g)
  = to_uint32 (timer_count g + Z.of_nat n).
Proof.
  intros Hg. induction n as [|n IH].
  - change (Nat.iter 0 CoarseTimer_TimerEvent g) with g.
    rewrite Z.add_0_r. symmetry. apply Z.mod_small. exact Hg.
  - rewrite Nat.iter_succ.
    change (timer_count (CoarseTimer_TimerEvent ?x))
      with (to_uint32 (timer_count x + 1)).
    rewrite IH, to_uint32_idemp_add. f_equal. lia.
Qed.

(** X1: [n] tick interrupts after a reading of the counter,
    [CoarseTimer_ElapsedTime] and [CoarseTimer_Delta] of that reading
    give [n] modulo 2^32, whatever the counter held and also across its
    wrap: exactly [n] while fewer than 2^32 ticks have passed, and the
    same answer for [n] and for [n + 2^32] ticks. *)
Theorem ElapsedTime_counts_ticks (g : CoarseTimer_Data) (n : nat) :
  let start := CoarseTimer_GetTime g in
  let g' := Nat.iter n CoarseTimer_TimerEvent g in
  is_uint32 (timer_count g) ->
  CoarseTimer_ElapsedTime g' start = to_uint32 (Z.of_nat n) /\
  CoarseTimer_Delta start (CoarseTimer_GetTime g') = to_uint32 (Z.of_nat n) /\
  (Z.of_nat n < 4294967296 ->
   CoarseTimer_ElapsedTime g' start = Z.of_nat n) /\
  CoarseTimer_ElapsedTime
    (Nat.iter (n + Z.to_nat 4294967296) CoarseTimer_TimerEvent g) start
  = CoarseTimer_ElapsedTime g' start.
Proof.
  intros start g' Hg.
  assert (Hcount : forall m,
            timer_count (Nat.iter m CoarseTimer_TimerEvent g)
            = to_uint32 (timer_count g + Z.of_nat m))
    by (intros m; apply TimerEvent_iter_count, Hg).
  assert (Hel : forall m,
            CoarseTimer_ElapsedTime (Nat.iter m CoarseTimer_TimerEvent g) start
            = to_uint32 (Z.of_nat m)).
  { intros m. unfold CoarseTimer_ElapsedTime, start, CoarseTimer_GetTime.
    rewrite Hcount. unfold to_uint32. rewrite Zminus_mod_idemp_l.
    f_equal. lia. }
  subst g'. split; [apply Hel|]. split; [|split].
  - unfold CoarseTimer_Delta, CoarseTimer_GetTime. apply (Hel n).
  - intros Hn. rewrite Hel. apply Z.mod_small. lia.
  - rewrite !Hel. unfold to_uint32.
    rewrite Nat2Z.inj_add, Z2Nat.id by lia.
    replace (Z.of_nat n + 4294967296) with (Z.of_nat n + 1 * 4294967296)
      by lia.
    apply Z_mod_plus_full.
Qed.

(** The counter read as 0xFFFFFFFE, then three ticks: it wrapped to 1,
    and three ticks are reported. *)
Lemma ElapsedTime_counts_ticks_witness :
  CoarseTimer_ElapsedTime
    (Nat.iter 3 CoarseTimer_TimerEvent {| timer_count := 4294967294 |})
    4294967294 = 3.
Proof.
  refine (proj1 (proj2 (proj2
    (ElapsedTime_counts_ticks {| timer_count := 4294967294 |} 3 _))) _).
  - unfold is_uint32. cbn [timer_count]. lia.
  - lia.
Defined.

(** X2: [CoarseTimer_Delta] is the unsigned distance from [start_time]
    to [end_time]: adding it to [start_time] gives [end_time] back
    modulo 2^32, it is 0 exactly when the two times are equal, and the
    distances over consecutive intervals add up modulo 2^32. *)
Theorem Delta_distance (a b c : Z) :
  is_uint32 a -> is_uint32 b -> is_uint32 c ->
  is_uint32 (CoarseTimer_Delta a b) /\
  to_uint32 (a + CoarseTimer_Delta a b) = b /\
  (CoarseTimer_Delta a b = 0 <-> a = b) /\
  to_uint32 (CoarseTimer_Delta a b + CoarseTimer_Delta b c)
  = CoarseTimer_Delta a c.
Proof.
  intros Ha Hb Hc. unfold CoarseTimer_Delta, to_uint32, is_uint32 in *.
  split; [apply Z.mod_pos_bound; lia|]. split; [|split].
  - rewrite Zplus_mod_idemp_r.
    replace (a + (b - a)) with b by lia. apply Z.mod_small. exact Hb.
  - split.
    + intros H0.
      destruct (Z.le_gt_cases a b).
      * rewrite Z.mod_small in H0 by lia. lia.
      * replace (b - a) with (b - a + 4294967296 - 1 * 4294967296) in H0
          by lia.
        rewrite Zminus_mod, Z_mod_mult, Z.sub_0_r, Z.mod_mod in H0 by lia.
        rewrite Z.mod_small in H0 by lia. lia.
    + intros ->. rewrite Z.sub_diag. reflexivity.
  - rewrite <- Zplus_mod. f_equal. lia.
Qed.

Lemma Delta_distance_witness :
  to_uint32 (4294967290 + CoarseTimer_Delta 4294967290 4) = 4.
Proof.
  refine (proj1 (proj2 (Delta_distance 4294967290 4 0 _ _ _)));
    unfold is_uint32; lia.
Defined.

(** X3: in its duration, [CoarseTimer_HasElapsed] is downward closed:
    a timer that has elapsed for a duration has elapsed for every
    shorter one. The longest duration, 0xFFFFFFFF, never elapses. *)
Theorem HasElapsed_duration_bounds (g : CoarseTimer_Data)
    (start d d' : Z) :
  0 <= d' <= d ->
  (CoarseTimer_HasElapsed g start d = true ->
   CoarseTimer_HasElapsed g start d' = true) /\
  (d <> 0 -> CoarseTimer_HasElapsed g start d = true -> d < 4294967295) /\
  CoarseTimer_HasElapsed g start 4294967295 = false.
Proof.
  intros Hd.
  assert (Hr : 0 <= to_uint32 (timer_count g - start) < 4294967296)
    by (apply Z.mod_pos_bound; lia).
  unfold CoarseTimer_HasElapsed. split; [|split].
  - destruct (Z.eqb_spec d' 0); [reflexivity|].
    destruct (Z.eqb_spec d 0); [lia|].
    intros Hlt. apply Z.ltb_lt in Hlt. apply Z.ltb_lt. lia.
  - intros Hne. destruct (Z.eqb_spec d 0); [contradiction|].
    intros Hlt. apply Z.ltb_lt in Hlt. lia.
  - cbn [Z.eqb]. apply Z.ltb_ge. lia.
Qed.

Lemma HasElapsed_duration_bounds_witness :
  CoarseTimer_HasElapsed {| timer_count := 50 |} 10 20 = true.
Proof.
  refine (proj1
    (HasElapsed_duration_bounds {| timer_count := 50 |} 10 30 20 _) _).
  - lia.
  - reflexivity.
Defined.

(** ** Staging parameter data behind the header *)

Lemma write_bytes_length (ptr : nat) (k b : list Z) :
  (ptr + length k <= length b)%nat ->
  length (write_bytes ptr k b) = length b.
Proof.
  intros Hle. unfold write_bytes.
  rewrite !length_app, length_take, length_drop. lia.
Qed.

Lemma insert_write_bytes (i : nat) (v : Z) (b : list Z) :
  (i < length b)%nat -> <[i := v]> b = write_bytes i [v] b.
Proof.
  intros Hlt. unfold write_bytes. cbn [length app].
  rewrite Nat.add_1_r. apply insert_take_drop. exact Hlt.
Qed.

Lemma write_bytes_app (ptr : nat) (k1 k2 b : list Z) :
  (ptr + length k1 <= length b)%nat ->
  write_bytes (ptr + length k1) k2 (write_bytes ptr k1 b)
  = write_bytes ptr (k1 ++ k2) b.
Proof.
  intros Hle. unfold write_bytes.
  assert (Ht : ptr = length (take ptr b)) by (rewrite length_take; lia).
  rewrite (take_app_add' (take ptr b) _ ptr (length k1) Ht).
  rewrite take_app_length.
  rewrite <- (Nat.add_assoc ptr (length k1) (length k2)).
  rewrite (drop_app_add' (take ptr b) _ ptr _ Ht).
  rewrite drop_app_add, drop_drop, length_app, <- !app_assoc.
  rewrite Nat.add_assoc. reflexivity.
Qed.

Lemma write_bytes_payload (k b : list Z) :
  (sizeof_RDMHeader + length k <= length b)%nat ->
  take (length k) (drop sizeof_RDMHeader (write_bytes sizeof_RDMHeader k b))
  = k.
Proof.
  intros Hle. unfold write_bytes.
  rewrite drop_app_length' by (rewrite length_take; lia).
  apply take_app_length.
Qed.

Lemma staged_nil (s : State) :
  buffer_ok s -> staged s s sizeof_RDMHeader [].
Proof.
  intros Hok. split; [|reflexivity].
  apply State_eq; try reflexivity.
  cbn [g_rdm_buffer with_buffer]. unfold write_bytes. cbn [app length].
  rewrite Nat.add_0_r, take_drop. reflexivity.
Qed.

Lemma staged_buffer_ok (s s1 : State) (ptr : nat) (data : list Z) :
  buffer_ok s -> (ptr <= RDM_FRAME_SIZE)%nat ->
  staged s s1 ptr data -> buffer_ok s1.
Proof.
  intros Hok Hle [-> ->]. unfold buffer_ok in *.
  cbn [g_rdm_buffer with_buffer]. rewrite write_bytes_length; [exact Hok|].
  rewrite Hok. exact Hle.
Qed.

Lemma staged_frame_only (s s1 : State) (ptr : nat) (data : list Z) :
  buffer_ok s -> (ptr <= RDM_FRAME_SIZE)%nat ->
  staged s s1 ptr data -> frame_only s s1.
Proof.
  intros Hok Hle Hst.
  pose proof (staged_buffer_ok _ _ _ _ Hok Hle Hst) as Hok1.
  destruct Hst as [-> _]. repeat split. exact Hok1.
Qed.

(** One more byte staged. *)
Lemma staged_store8 (s s1 : State) (ptr : nat) (data : list Z) (v : Z) :
  buffer_ok s -> (ptr < RDM_FRAME_SIZE)%nat ->
  staged s s1 ptr data ->
  exists s2,
    store8 ptr v s1 = Some (tt, s2) /\
    staged s s2 (S ptr) (data ++ [to_uint8 v]).
Proof.
  intros Hok Hlt Hst.
  assert (Hok1 : buffer_ok s1)
    by (apply (staged_buffer_ok s s1 ptr data); [assumption | lia | assumption]).
  rewrite run_store8 by assumption.
  eexists. split; [reflexivity|].
  destruct Hst as [-> ->]. split.
  - apply State_eq; try reflexivity.
    cbn [g_rdm_buffer with_buffer].
    rewrite insert_write_bytes.
    + apply write_bytes_app. unfold buffer_ok in Hok. rewrite Hok. lia.
    + rewrite write_bytes_length; unfold buffer_ok in Hok; rewrite Hok; lia.
  - rewrite length_app. cbn [length]. lia.
Qed.

Lemma staged_store8_inc (s s1 : State) (ptr : nat) (data : list Z) (v : Z) :
  buffer_ok s -> (ptr < RDM_FRAME_SIZE)%nat ->
  staged s s1 ptr data ->
  exists s2,
    store8_inc ptr v s1 = Some (S ptr, s2) /\
    staged s s2 (S ptr) (data ++ [to_uint8 v]).
Proof.
  intros Hok Hlt Hst.
  destruct (staged_store8 s s1 ptr data v Hok Hlt Hst) as (s2 & Hrun & Hst2).
  exists s2. split; [|exact Hst2].
  unfold store8_inc. rewrite run_bind, Hrun. reflexivity.
Qed.

(** A 16-bit value staged. *)
Lemma staged_PushUInt16 (s s1 : State) (ptr : nat) (data : list Z) (v : Z) :
  buffer_ok s -> (S ptr < RDM_FRAME_SIZE)%nat ->
  staged s s1 ptr data -> is_uint16 v ->
  exists s2,
    PushUInt16 ptr v s1 = Some (S (S ptr), s2) /\
    staged s s2 (S (S ptr)) (data ++ be16 v).
Proof.
  intros Hok Hlt Hst Hv.
  destruct (staged_store8 s s1 ptr data (ShortMSB v) Hok ltac:(lia) Hst)
    as (s2 & Hrun2 & Hst2).
  destruct (staged_store8 s s2 (S ptr) _ (ShortLSB v) Hok Hlt Hst2)
    as (s3 & Hrun3 & Hst3).
  exists s3. split.
  - unfold PushUInt16. rewrite run_bind, Hrun2. cbv beta iota.
    rewrite run_bind, Hrun3. reflexivity.
  - rewrite <- app_assoc in Hst3. cbn [app] in Hst3.
    rewrite !to_uint8_small in Hst3 by eauto with rdm. exact Hst3.
Qed.

(** The staged parameter data framed: the reply. *)
Lemma staged_reply (header : RDMHeader) (rt rcc : Z) (s s1 : State)
    (ptr : nat) (data : list Z) :
  buffer_ok s -> RDMHeader_wf header ->
  is_uint8 rt -> is_uint8 (queued_message_count (g_responder s)) ->
  response_command_class (command_class header) = Some rcc ->
  (length data <= 231)%nat ->
  staged s s1 ptr data ->
  exists s',
    RDMResponder_AddHeaderAndChecksum header rt (Z.of_nat ptr) s1
    = Some (Z.of_nat ptr + 2, s') /\
    frame_only s s' /\
    is_reply rt data (Some (Z.of_nat ptr + 2, s')) /\
    RDMHeader_of_buffer (g_rdm_buffer s')
    = reply_to header rt (queued_message_count (g_responder s)) rcc
        (Z.of_nat ptr).
Proof.
  intros Hok Hwf Hrt Hq Hrcc Hlen Hst.
  assert (Hptr : (ptr <= RDM_FRAME_SIZE)%nat)
    by (destruct Hst as [_ ->]; unfold RDM_FRAME_SIZE, sizeof_RDMHeader; lia).
  pose proof (staged_frame_only _ _ _ _ Hok Hptr Hst)
    as Hf1.
  assert (Hok1 : buffer_ok s1) by apply Hf1.
  assert (Hq1 : queued_message_count (g_responder s1)
                = queued_message_count (g_responder s))
    by (destruct Hf1 as [-> _]; reflexivity).
  assert (Hml : 24 <= Z.of_nat ptr <= 255)
    by (destruct Hst as [_ ->]; unfold sizeof_RDMHeader; lia).
  pose proof (AddHeaderAndChecksum_run header rt _ rcc s1
                Hok1 Hwf Hrt ltac:(rewrite Hq1; exact Hq) Hml Hrcc) as Hrun.
  pose proof (AddHeaderAndChecksum_is_reply header rt _ rcc s1
                Hok1 Hwf Hrt ltac:(rewrite Hq1; exact Hq) Hml Hrcc) as Hrep.
  rewrite Hrun in Hrep |- *.
  eexists. split; [reflexivity|]. split; [|split].
  - eapply frame_only_trans; [exact Hf1|].
    apply frame_only_with_buffer, reply_frame_length; assumption.
  - replace (take _ (drop 24 (g_rdm_buffer s1))) with data in Hrep;
      [exact Hrep|].
    destruct Hst as [-> ->]. cbn [g_rdm_buffer with_buffer].
    replace (Z.to_nat (Z.of_nat (sizeof_RDMHeader + length data)) - 24)%nat
      with (length data) by (unfold sizeof_RDMHeader; lia).
    symmetry. apply write_bytes_payload.
    unfold buffer_ok in Hok. rewrite Hok.
    unfold RDM_FRAME_SIZE, sizeof_RDMHeader. lia.
  - cbn [g_rdm_buffer with_buffer]. unfold reply_frame.
    rewrite append_checksum_split
      by (rewrite reply_header_length by exact Hwf; lia).
    rewrite RDMHeader_of_reply by exact Hwf. rewrite Hq1. reflexivity.
Qed.

(** ** ACK_TIMER and the generic getters and setters *)

Lemma response_class_of (cc : Z) :
  cc = DISCOVERY_COMMAND \/ cc = GET_COMMAND \/ cc = SET_COMMAND ->
  exists rcc, response_command_class cc = Some rcc.
Proof. intros [-> | [-> | ->]]; eexists; reflexivity. Qed.



Lemma lor_shiftl_add (hi lo n : Z) :
  0 <= n -> 0 <= hi -> 0 <= lo < 2 ^ n ->
  Z.lor (Z.shiftl hi n) lo = hi * 2 ^ n + lo.
Proof.
  intros Hn Hhi Hlo.
  assert (Hland : Z.land (Z.shiftl hi n) lo = 0).
  { apply Z.bits_inj'. intros i Hi.
    rewrite Z.land_spec, Z.bits_0.
    destruct (Z.lt_ge_cases i n) as [Hlt | Hge].
    - rewrite Z.shiftl_spec_low by exact Hlt. reflexivity.
    - replace (Z.testbit lo i) with false; [apply andb_false_r|].
      symmetry. destruct (Z.eq_dec lo 0) as [-> | Hne];
        [apply Z.bits_0|].
      apply Z.bits_above_log2; [lia|].
      apply Z.lt_le_trans with n; [|exact Hge].
      apply Z.log2_lt_pow2; lia. }
  rewrite <- Z.lxor_lor by exact Hland.
  rewrite <- Z.add_nocarry_lxor by exact Hland.
  rewrite Z.shiftl_mul_pow2 by exact Hn. reflexivity.
Qed.

Lemma ExtractUInt16_bytes (b0 b1 : Z) :
  is_uint8 b0 -> is_uint8 b1 -> ExtractUInt16 [b0; b1] = 256 * b0 + b1.
Proof. intros H0 H1. apply JoinShort_bytes; assumption. Qed.

Lemma lor_mul_add (hi lo n : Z) :
  0 <= n -> 0 <= hi -> 0 <= lo < 2 ^ n ->
  Z.lor (hi * 2 ^ n) lo = hi * 2 ^ n + lo.
Proof.
  intros Hn Hhi Hlo. rewrite <- (Z.shiftl_mul_pow2 hi n) by exact Hn.
  rewrite lor_shiftl_add by assumption.
  rewrite Z.shiftl_mul_pow2 by exact Hn. reflexivity.
Qed.

Lemma ExtractUInt32_bytes (b0 b1 b2 b3 : Z) :
  is_uint8 b0 -> is_uint8 b1 -> is_uint8 b2 -> is_uint8 b3 ->
  ExtractUInt32 [b0; b1; b2; b3]
  = 16777216 * b0 + 65536 * b1 + 256 * b2 + b3.
Proof.
  unfold is_uint8. intros H0 H1 H2 H3. unfold ExtractUInt32.
  change (byte_at [b0; b1; b2; b3] 0) with b0.
  change (byte_at [b0; b1; b2; b3] 1) with b1.
  change (byte_at [b0; b1; b2; b3] 2) with b2.
  change (byte_at [b0; b1; b2; b3] 3) with b3.
  rewrite !Z.shiftl_mul_pow2 by lia.
  rewrite (lor_mul_add b0 (b1 * 2 ^ 16) 24) by lia.
  rewrite (lor_mul_add b2 b3 8) by lia.
  replace (b0 * 2 ^ 24 + b1 * 2 ^ 16) with ((b0 * 256 + b1) * 2 ^ 16) by lia.
  rewrite lor_mul_add by lia.
  unfold to_uint32. rewrite Z.mod_small by lia. lia.
Qed.

Lemma staged_PushUInt32 (s s1 : State) (ptr : nat) (data : list Z)
    (b0 b1 b2 b3 : Z) :
  buffer_ok s -> (ptr + 3 < RDM_FRAME_SIZE)%nat ->
  staged s s1 ptr data ->
  is_uint8 b0 -> is_uint8 b1 -> is_uint8 b2 -> is_uint8 b3 ->
  exists s2,
    PushUInt32 ptr (ExtractUInt32 [b0; b1; b2; b3]) s1
    = Some (S (S (S (S ptr))), s2) /\
    staged s s2 (S (S (S (S ptr)))) (data ++ [b0; b1; b2; b3]).
Proof.
  intros Hok Hlt Hst H0 H1 H2 H3.
  set (v := ExtractUInt32 [b0; b1; b2; b3]).
  destruct (staged_store8 s s1 ptr data (Z.shiftr v 24) Hok ltac:(lia) Hst)
    as (s2 & Hrun2 & Hst2).
  destruct (staged_store8 s s2 (S ptr) _ (Z.shiftr v 16) Hok ltac:(lia) Hst2)
    as (s3 & Hrun3 & Hst3).
  destruct (staged_store8 s s3 (S (S ptr)) _ (Z.shiftr v 8) Hok ltac:(lia)
              Hst3) as (s4 & Hrun4 & Hst4).
  destruct (staged_store8 s s4 (S (S (S ptr))) _ v Hok ltac:(lia) Hst4)
    as (s5 & Hrun5 & Hst5).
  exists s5. split.
  - unfold PushUInt32. fold v.
    rewrite run_bind, Hrun2. cbv beta iota.
    rewrite run_bind, Hrun3. cbv beta iota.
    rewrite run_bind, Hrun4. cbv beta iota.
    rewrite run_bind, Hrun5. reflexivity.
  - rewrite <- !app_assoc in Hst5. cbn [app] in Hst5.
    assert (Hv : v = 16777216 * b0 + 65536 * b1 + 256 * b2 + b3)
      by (apply ExtractUInt32_bytes; assumption).
    unfold is_uint8 in *.
    replace (to_uint8 (Z.shiftr v 24)) with b0 in Hst5.
    2:{ rewrite Z.shiftr_div_pow2 by lia. unfold to_uint8.
        change (2 ^ 24) with 16777216. Z.div_mod_to_equations. lia. }
    replace (to_uint8 (Z.shiftr v 16)) with b1 in Hst5.
    2:{ rewrite Z.shiftr_div_pow2 by lia. unfold to_uint8.
        change (2 ^ 16) with 65536. Z.div_mod_to_equations. lia. }
    replace (to_uint8 (Z.shiftr v 8)) with b2 in Hst5.
    2:{ rewrite Z.shiftr_div_pow2 by lia. unfold to_uint8.
        change (2 ^ 8) with 256. Z.div_mod_to_equations. lia. }
    replace (to_uint8 v) with b3 in Hst5.
    2:{ unfold to_uint8. Z.div_mod_to_equations. lia. }
    exact Hst5.
Qed.

Lemma uint32_bytes (v : Z) :
  is_uint32 v ->
  exists b0 b1 b2 b3,
    is_uint8 b0 /\ is_uint8 b1 /\ is_uint8 b2 /\ is_uint8 b3 /\
    v = ExtractUInt32 [b0; b1; b2; b3].
Proof.
  unfold is_uint32. intros Hv.
  exists (v / 16777216), (v / 65536 mod 256), (v / 256 mod 256), (v mod 256).
  assert (H0 : is_uint8 (v / 16777216))
    by (unfold is_uint8; Z.div_mod_to_equations; lia).
  assert (H1 : is_uint8 (v / 65536 mod 256))
    by (unfold is_uint8; Z.div_mod_to_equations; lia).
  assert (H2 : is_uint8 (v / 256 mod 256))
    by (unfold is_uint8; Z.div_mod_to_equations; lia).
  assert (H3 : is_uint8 (v mod 256))
    by (unfold is_uint8; Z.div_mod_to_equations; lia).
  repeat (split; [assumption|]).
  rewrite ExtractUInt32_bytes by assumption.
  Z.div_mod_to_equations. lia.
Qed.



Section GenericSetters.
Context `{RDMUtil}.

(** What a NACK comes to: the frame when the request was unicast,
    silence and no change at all when it was not. *)
Lemma BuildNack_outcome (header : RDMHeader) (reason : Z) (s : State) :
  buffer_ok s -> RDMHeader_wf header ->
  is_uint8 (queued_message_count (g_responder s)) ->
  is_uint16 reason ->
  command_class header = DISCOVERY_COMMAND \/
  command_class header = GET_COMMAND \/
  command_class header = SET_COMMAND ->
  exists r s',
    RDMResponder_BuildNack header reason s = Some (r, s') /\
    frame_only s s' /\
    (RDMUtil_IsUnicast (dest_uid header) = true ->
     r = 28 /\ is_nack reason (Some (r, s'))) /\
    (RDMUtil_IsUnicast (dest_uid header) = false ->
     r = RDM_RESPONDER_NO_RESPONSE /\ s' = s).
Proof.
  intros Hok Hwf Hq Hr Hcc.
  destruct (response_class_of _ Hcc) as [rcc Hrcc].
  destruct (RDMUtil_IsUnicast (dest_uid header)) eqn:Hu.
  - destruct (BuildNack_unicast header reason rcc s Hu Hok Hwf Hq Hr Hrcc)
      as (s' & Hrun & Hf & Hn).
    exists 28, s'. split; [exact Hrun|]. split; [exact Hf|].
    split; [intros _; split; [reflexivity | exact Hn] | discriminate].
  - exists RDM_RESPONDER_NO_RESPONSE, s.
    split; [apply BuildNack_not_unicast; exact Hu|].
    split; [apply frame_only_refl; exact Hok|].
    split; [discriminate | intros _; split; reflexivity].
Qed.

Lemma BuildSetAck_outcome (header : RDMHeader) (s : State) :
  buffer_ok s -> RDMHeader_wf header ->
  is_uint8 (queued_message_count (g_responder s)) ->
  command_class header = DISCOVERY_COMMAND \/
  command_class header = GET_COMMAND \/
  command_class header = SET_COMMAND ->
  exists r s',
    RDMResponder_BuildSetAck header s = Some (r, s') /\
    frame_only s s' /\
    (RDMUtil_IsUnicast (dest_uid header) = true ->
     r = 26 /\ is_set_ack (Some (r, s'))) /\
    (RDMUtil_IsUnicast (dest_uid header) = false ->
     r = RDM_RESPONDER_NO_RESPONSE /\ s' = s).
Proof.
  intros Hok Hwf Hq Hcc.
  destruct (response_class_of _ Hcc) as [rcc Hrcc].
  destruct (RDMUtil_IsUnicast (dest_uid header)) eqn:Hu.
  - destruct (BuildSetAck_unicast header rcc s Hu Hok Hwf Hq Hrcc)
      as (s' & Hrun & Hf & Hn).
    exists 26, s'. split; [exact Hrun|]. split; [exact Hf|].
    split; [intros _; split; [reflexivity | exact Hn] | discriminate].
  - exists RDM_RESPONDER_NO_RESPONSE, s.
    split; [apply BuildSetAck_not_unicast; exact Hu|].
    split; [apply frame_only_refl; exact Hok|].
    split; [discriminate | intros _; split; reflexivity].
Qed.


End GenericSetters.

(** ** RDMResponder_BuildHeader *)

Lemma ntohs_MSB (x : Z) : is_uint16 x -> ShortMSB (ntohs x) = ShortLSB x.
Proof.
  intros Hx. rewrite ShortMSB_div, ShortLSB_mod, ntohs_bytes by exact Hx.
  unfold is_uint16 in Hx.
  assert (0 <= x mod 256 < 256) by (apply Z.mod_pos_bound; lia).
  assert (0 <= x / 256 < 256)
    by (split; [apply Z.div_pos; lia | apply Z.div_lt_upper_bound; lia]).
  symmetry. apply Z.div_unique with (r := x / 256); lia.
Qed.

Lemma ntohs_LSB (x : Z) : is_uint16 x -> ShortLSB (ntohs x) = ShortMSB x.
Proof.
  intros Hx. rewrite ShortMSB_div, ShortLSB_mod, ntohs_bytes by exact Hx.
  unfold is_uint16 in Hx.
  assert (0 <= x mod 256 < 256) by (apply Z.mod_pos_bound; lia).
  assert (0 <= x / 256 < 256)
    by (split; [apply Z.div_pos; lia | apply Z.div_lt_upper_bound; lia]).
  symmetry. apply Z.mod_unique with (q := x mod 256); lia.
Qed.

Lemma htons_ntohs (x : Z) : is_uint16 x -> htons (ntohs x) = x.
Proof.
  intros Hx. unfold htons.
  rewrite (ntohs_bytes (ntohs x)) by (apply ntohs_uint16; exact Hx).
  rewrite <- ShortLSB_mod, <- ShortMSB_div, ntohs_MSB, ntohs_LSB by exact Hx.
  rewrite ShortMSB_div, ShortLSB_mod.
  unfold is_uint16 in Hx. pose proof (Z.div_mod x 256 ltac:(lia)). lia.
Qed.

Lemma store16_run (i : nat) (v : Z) (s : State) :
  buffer_ok s -> (S i < RDM_FRAME_SIZE)%nat -> is_uint16 v ->
  store16 i v s
  = Some (tt, with_buffer (fun b => <[S i := ShortMSB v]> b)
                (with_buffer (fun b => <[i := ShortLSB v]> b) s)).
Proof.
  intros Hok Hlt Hv. unfold store16.
  rewrite run_bind, run_store8 by (auto; lia). cbv beta iota.
  rewrite run_store8 by (auto with rdm).
  do 2 f_equal. apply State_eq; try reflexivity.
  cbn [g_rdm_buffer with_buffer].
  unfold to_uint16. rewrite (Z.mod_small v) by exact Hv.
  fold (ShortLSB v). fold (ShortMSB v).
  rewrite !to_uint8_small by eauto with rdm. reflexivity.
Qed.

Lemma BuildHeader_run (header : RDMHeader) (rt cc pid ml : Z) (s : State) :
  buffer_ok s -> RDMHeader_wf header ->
  is_uint8 rt -> is_uint8 (queued_message_count (g_responder s)) ->
  is_uint8 cc -> is_uint16 pid -> 24 <= ml <= 255 ->
  RDMResponder_BuildHeader header rt cc pid ml s
  = Some (tt,
          with_buffer
            (fun b =>
               ([RDM_START_CODE; SUB_START_CODE; ml]
                ++ src_uid header ++ dest_uid header
                ++ [transaction_number header; rt;
                    queued_message_count (g_responder s);
                    ShortLSB (sub_device header);
                    ShortMSB (sub_device header);
                    cc;
                    ShortLSB (htons pid); ShortMSB (htons pid);
                    ml - 24])
               ++ drop 24 b) s).
Proof.
  intros Hok Hwf Hrt Hq Hcc Hpid Hml.
  unfold RDMResponder_BuildHeader, UID_LENGTH. cbn [memcpy].
  assert (Hh : is_uint16 (htons pid)) by (apply ntohs_uint16; exact Hpid).
  pose proof (wf_sub_device _ Hwf) as Hsd.
  run.
  rewrite store16_run by (eauto 40 with rdm; frame_bound).
  cbv beta iota. run.
  rewrite store16_run by (eauto 40 with rdm; frame_bound).
  cbv beta iota. run.
  do 2 f_equal. apply State_eq; try reflexivity.
  cbn [g_rdm_buffer with_buffer g_responder].
  destruct Hwf as [_ _ _ [Hdl Hdb] [Hsl Hsb] Htn _ _ _ _ _ _].
  unfold buffer_ok in *.
  destruct (src_uid header) as [|s0 [|s1 [|s2 [|s3 [|s4 [|s5 [|]]]]]]];
    try discriminate Hsl.
  destruct (dest_uid header) as [|d0 [|d1 [|d2 [|d3 [|d4 [|d5 [|]]]]]]];
    try discriminate Hdl.
  destruct (g_rdm_buffer s) as [|? b]; [discriminate Hok|].
  do 23 (destruct b as [|? b]; [discriminate Hok|]).
  repeat match goal with
         | Hf : Forall _ (_ :: _) |- _ =>
             apply Forall_cons_iff in Hf; destruct Hf as [? Hf]
         end.
  cbn -[to_uint8 to_uint16 to_uint32 ShortMSB ShortLSB htons Z.sub].
  rewrite (to_uint8_small (to_uint32 _)) by
    (unfold to_uint32, sizeof_RDMHeader; rewrite Z.mod_small;
     unfold is_uint8; lia).
  rewrite !to_uint8_small by
    (eauto 10 with rdm || (unfold is_uint8, RDM_START_CODE, SUB_START_CODE;
                           lia)).
  unfold to_uint32, sizeof_RDMHeader. rewrite Z.mod_small by lia.
  reflexivity.
Qed.

(** X7: [RDMResponder_BuildHeader] changes the first 24 bytes of the
    frame buffer and nothing else. The header read back from the buffer
    is addressed to the source of the request, has the destination of
    the request as its source, repeats its transaction number and
    sub-device, and carries the given response type, command class and
    message length, the PID in network order and the queued message
    count. Called with the response class of the request and with its
    PID, and followed by [RDMUtil_AppendChecksum], it is
    [RDMResponder_AddHeaderAndChecksum]. *)
Theorem BuildHeader_header (header : RDMHeader) (rt cc pid ml : Z)
    (s : State) :
  buffer_ok s -> RDMHeader_wf header ->
  is_uint8 rt -> is_uint8 (queued_message_count (g_responder s)) ->
  is_uint8 cc -> is_uint16 pid -> 24 <= ml <= 255 ->
  (exists s1,
     RDMResponder_BuildHeader header rt cc pid ml s = Some (tt, s1) /\
     frame_only s s1 /\
     drop 24 (g_rdm_buffer s1) = drop 24 (g_rdm_buffer s) /\
     RDMHeader_of_buffer (g_rdm_buffer s1)
     = {| start_code := RDM_START_CODE;
          sub_start_code := SUB_START_CODE;
          message_length := ml;
          dest_uid := src_uid header;
          src_uid := dest_uid header;
          transaction_number := transaction_number header;
          port_id := rt;
          message_count := queued_message_count (g_responder s);
          sub_device := sub_device header;
          command_class := cc;
          param_id := htons pid;
          param_data_length := ml - 24 |}) /\
  (response_command_class (command_class header) = Some cc ->
   pid = ntohs (param_id header) ->
   (RDMResponder_BuildHeader header rt cc pid ml;;
    RDMUtil_AppendChecksum) s
   = RDMResponder_AddHeaderAndChecksum header rt ml s).
Proof.
  intros Hok Hwf Hrt Hq Hcc Hpid Hml.
  pose proof (BuildHeader_run header rt cc pid ml s Hok Hwf Hrt Hq Hcc Hpid
                Hml) as Hrun.
  assert (Hh : is_uint16 (htons pid)) by (apply ntohs_uint16; exact Hpid).
  pose proof (wf_sub_device _ Hwf) as Hsd.
  assert (Hlen : forall (b : list Z), length b = RDM_FRAME_SIZE ->
            length (([RDM_START_CODE; SUB_START_CODE; ml]
                ++ src_uid header ++ dest_uid header
                ++ [transaction_number header; rt;
                    queued_message_count (g_responder s);
                    ShortLSB (sub_device header);
                    ShortMSB (sub_device header);
                    cc;
                    ShortLSB (htons pid); ShortMSB (htons pid);
                    ml - 24]) ++ drop 24 b) = RDM_FRAME_SIZE).
  { intros b Hb. destruct Hwf as [_ _ _ [Hdl _] [Hsl _] _ _ _ _ _ _ _].
    rewrite !length_app, length_drop, Hb, Hsl, Hdl. reflexivity. }
  split.
  - eexists. split; [exact Hrun|]. split; [|split].
    + apply frame_only_with_buffer. apply Hlen. exact Hok.
    + cbn [g_rdm_buffer with_buffer].
      destruct Hwf as [_ _ _ [Hdl _] [Hsl _] _ _ _ _ _ _ _].
      rewrite drop_app_length'; [reflexivity|].
      rewrite !length_app, Hsl, Hdl. reflexivity.
    + cbn [g_rdm_buffer with_buffer].
      destruct Hwf as [_ _ _ [Hdl _] [Hsl _] _ _ _ _ _ _ _].
      destruct (src_uid header) as [|s0 [|s1 [|s2 [|s3 [|s4 [|s5 [|]]]]]]];
        try discriminate Hsl.
      destruct (dest_uid header) as [|d0 [|d1 [|d2 [|d3 [|d4 [|d5 [|]]]]]]];
        try discriminate Hdl.
      unfold RDMHeader_of_buffer, load16, byte_at.
      cbn -[ShortMSB ShortLSB htons Z.sub Z.mul Z.add].
      f_equal.
      * rewrite ShortMSB_div, ShortLSB_mod. unfold is_uint16 in Hsd.
        pose proof (Z.div_mod (sub_device header) 256 ltac:(lia)). lia.
      * rewrite ShortMSB_div, ShortLSB_mod. unfold is_uint16 in Hh.
        pose proof (Z.div_mod (htons pid) 256 ltac:(lia)). lia.
  - intros Hrcc ->.
    rewrite run_bind, Hrun. cbv beta iota.
    rewrite (AddHeaderAndChecksum_run _ _ _ _ _ Hok Hwf Hrt Hq Hml Hrcc).
    pose proof (wf_param_id _ Hwf) as Hp.
    rewrite htons_ntohs by exact Hp.
    rewrite <- (ntohs_MSB (sub_device header)) by exact Hsd.
    rewrite <- (ntohs_LSB (sub_device header)) by exact Hsd.
    rewrite <- (ntohs_MSB (param_id header)) by exact Hp.
    rewrite <- (ntohs_LSB (param_id header)) by exact Hp.
    fold (reply_header header rt (queued_message_count (g_responder s)) cc ml).
    rewrite (AppendChecksum_run _ (Z.to_nat ml)).
    + rewrite Z2Nat.id by lia. reflexivity.
    + unfold buffer_ok. cbn [g_rdm_buffer with_buffer].
      rewrite length_app, reply_header_length, length_drop by exact Hwf.
      rewrite Hok. reflexivity.
    + cbn [g_rdm_buffer with_buffer]. unfold reply_header. cbn [app].
      unfold byte_at. cbn [lookup list_lookup default from_option id]. lia.
    + unfold RDM_FRAME_SIZE. lia.
Qed.

Lemma BuildHeader_header_witness :
  (RDMResponder_BuildHeader
     (sample_header own_uid GET_COMMAND PID_DMX_START_ADDRESS 0 0)
     ACK GET_COMMAND_RESPONSE PID_DMX_START_ADDRESS 26;;
   RDMUtil_AppendChecksum) sample_state
  = RDMResponder_AddHeaderAndChecksum
      (sample_header own_uid GET_COMMAND PID_DMX_START_ADDRESS 0 0)
      ACK 26 sample_state.
Proof.
  apply (proj2 (BuildHeader_header
    (sample_header own_uid GET_COMMAND PID_DMX_START_ADDRESS 0 0)
    ACK GET_COMMAND_RESPONSE PID_DMX_START_ADDRESS 26 sample_state
    sample_state_ok
    (sample_header_wf own_uid GET_COMMAND PID_DMX_START_ADDRESS 0 0
       own_uid_is_uid ltac:(uint_by_compute) ltac:(uint_by_compute)
       ltac:(uint_by_compute) ltac:(lia))
    ltac:(uint_by_compute) sample_state_qmc ltac:(uint_by_compute)
    ltac:(uint_by_compute) ltac:(lia))).
  - reflexivity.
  - vm_compute. reflexivity.
Defined.

(** ** SET followed by GET *)

Lemma GetDMXStartAddress_reply (header : RDMHeader) (pd : list Z)
    (s : State) :
  buffer_ok s -> RDMHeader_wf header ->
  is_uint8 (queued_message_count (g_responder s)) ->
  is_uint16 (dmx_start_address (g_responder s)) ->
  command_class header = GET_COMMAND ->
  exists s',
    RDMResponder_GetDMXStartAddress header pd s = Some (28, s') /\
    frame_only s s' /\
    is_reply ACK (be16 (dmx_start_address (g_responder s))) (Some (28, s')).
Proof.
  intros Hok Hwf Hq Ha Hcc. unfold RDMResponder_GetDMXStartAddress.
  rewrite run_bind, run_get. cbv beta iota.
  apply push16_reply with (rcc := GET_COMMAND_RESPONSE); auto.
  - uint_by_compute.
  - rewrite Hcc. reflexivity.
Qed.

Lemma be16_bytes (b0 b1 : Z) :
  is_uint8 b0 -> is_uint8 b1 -> be16 (256 * b0 + b1) = [b0; b1].
Proof.
  unfold is_uint8, be16. intros H0 H1.
  rewrite ShortMSB_div, ShortLSB_mod. f_equal; [|f_equal].
  - symmetry. apply Z.div_unique with (r := b1); lia.
  - symmetry. apply Z.mod_unique with (q := b0); lia.
Qed.

Section SetGet.
Context `{RDMUtil}.

(** X8: a SET DMX_START_ADDRESS of two bytes followed by a GET. When
    the address the bytes give is between 1 and 512, the GET replies
    with these two bytes, whatever the destination of the SET was; for
    any other address the GET replies with the address the responder
    had before. *)
Theorem DMXStartAddress_set_then_get (set_header get_header : RDMHeader)
    (b0 b1 : Z) (pd : list Z) (s : State) :
  buffer_ok s -> RDMHeader_wf set_header -> RDMHeader_wf get_header ->
  is_uint8 (queued_message_count (g_responder s)) ->
  is_uint16 (dmx_start_address (g_responder s)) ->
  command_class get_header = GET_COMMAND ->
  param_data_length set_header = 2 ->
  is_uint8 b0 -> is_uint8 b1 ->
  exists r s1 s2,
    RDMResponder_SetDMXStartAddress set_header [b0; b1] s = Some (r, s1) /\
    RDMResponder_GetDMXStartAddress get_header pd s1 = Some (28, s2) /\
    is_reply ACK
      (if (1 <=? 256 * b0 + b1) && (256 * b0 + b1 <=? MAX_DMX_START_ADDRESS)
       then [b0; b1]
       else be16 (dmx_start_address (g_responder s)))
      (Some (28, s2)).
Proof.
  intros Hok Hws Hwg Hq Ha Hcc Hpdl H0 H1.
  rewrite SetDMXStartAddress_cases, Hpdl. cbn [Z.eqb Pos.eqb negb].
  change (byte_at [b0; b1] 0) with b0. change (byte_at [b0; b1] 1) with b1.
  rewrite JoinShort_bytes by assumption.
  unfold MAX_DMX_START_ADDRESS.
  destruct ((256 * b0 + b1 =? 0) || (512 <? 256 * b0 + b1)) eqn:Hr.
  - replace ((1 <=? 256 * b0 + b1) && (256 * b0 + b1 <=? 512)) with false
      by (unfold is_uint8 in *; lia).
    destruct (BuildNack_frame_only set_header NR_DATA_OUT_OF_RANGE s
                Hok Hws Hq) as (r & s1 & Hrun & Hf).
    destruct Hf as (Hr1 & Hi1 & Ht1 & Hp1 & Hok1).
    destruct (GetDMXStartAddress_reply get_header pd s1 Hok1 Hwg
                ltac:(rewrite Hr1; exact Hq) ltac:(rewrite Hr1; exact Ha) Hcc)
      as (s2 & Hget & _ & Hrep).
    exists r, s1, s2. split; [exact Hrun|]. split; [exact Hget|].
    rewrite Hr1 in Hrep. exact Hrep.
  - replace ((1 <=? 256 * b0 + b1) && (256 * b0 + b1 <=? 512)) with true
      by (unfold is_uint8 in *; lia).
    match goal with
    | |- context [with_responder ?f s] =>
        destruct (BuildSetAck_after_update set_header f s Hok Hws)
          as (r & s1 & Hrun & Hr1 & _ & _ & Hok1 & _)
    end.
    { destruct (dmx_start_address (g_responder s) =? 256 * b0 + b1);
        exact Hq. }
    assert (Haddr : dmx_start_address (g_responder s1) = 256 * b0 + b1)
      by (rewrite Hr1; reflexivity).
    assert (Hq1 : queued_message_count (g_responder s1)
                  = queued_message_count (g_responder s)).
    { rewrite Hr1.
      destruct (dmx_start_address (g_responder s) =? 256 * b0 + b1);
        reflexivity. }
    destruct (GetDMXStartAddress_reply get_header pd s1 Hok1 Hwg
                ltac:(rewrite Hq1; exact Hq)
                ltac:(rewrite Haddr; unfold is_uint8, is_uint16 in *; lia)
                Hcc)
      as (s2 & Hget & _ & Hrep).
    exists r, s1, s2. split; [exact Hrun|]. split; [exact Hget|].
    rewrite Haddr, be16_bytes in Hrep by assumption. exact Hrep.
Qed.

End SetGet.

Lemma DMXStartAddress_set_then_get_witness :
  exists r s1 s2,
    RDMResponder_SetDMXStartAddress (H := sample_RDMUtil)
      (sample_header broadcast_uid SET_COMMAND PID_DMX_START_ADDRESS 0 2)
      [1; 44] sample_state = Some (r, s1) /\
    RDMResponder_GetDMXStartAddress
      (sample_header own_uid GET_COMMAND PID_DMX_START_ADDRESS 0 0)
      [] s1 = Some (28, s2) /\
    is_reply ACK [1; 44] (Some (28, s2)).
Proof.
  exact (DMXStartAddress_set_then_get (H := sample_RDMUtil)
    (sample_header broadcast_uid SET_COMMAND PID_DMX_START_ADDRESS 0 2)
    (sample_header own_uid GET_COMMAND PID_DMX_START_ADDRESS 0 0)
    1 44 [] sample_state sample_state_ok
    (sample_header_wf broadcast_uid SET_COMMAND PID_DMX_START_ADDRESS 0 2
       broadcast_uid_is_uid ltac:(uint_by_compute) ltac:(uint_by_compute)
       ltac:(uint_by_compute) ltac:(lia))
    (sample_header_wf own_uid GET_COMMAND PID_DMX_START_ADDRESS 0 0
       own_uid_is_uid ltac:(uint_by_compute) ltac:(uint_by_compute)
       ltac:(uint_by_compute) ltac:(lia))
    sample_state_qmc ltac:(uint_by_compute) eq_refl eq_refl
    ltac:(uint_by_compute) ltac:(uint_by_compute)).
Defined.

(** ** IDENTIFY_DEVICE *)

Section Identify.
Context `{RDMUtil}.

(** The four ways through [RDMResponder_GenericSetBool]. *)
Lemma GenericSetBool_cases (header : RDMHeader) (pd : list Z)
    (set_value : bool -> RDMResponder -> RDMResponder) (s : State) :
  RDMResponder_GenericSetBool header pd set_value s
  = if negb (param_data_length header =? 1)
    then RDMResponder_BuildNack header NR_FORMAT_ERROR s
    else if byte_at pd 0 =? 0
    then RDMResponder_BuildSetAck header (with_responder (set_value false) s)
    else if byte_at pd 0 =? 1
    then RDMResponder_BuildSetAck header (with_responder (set_value true) s)
    else RDMResponder_BuildNack header NR_DATA_OUT_OF_RANGE s.
Proof.
  unfold RDMResponder_GenericSetBool.
  destruct (negb (param_data_length header =? 1)); [reflexivity|].
  destruct (byte_at pd 0) as [|[p|p|]|p]; cbn [Z.eqb Pos.eqb];
    try reflexivity; run; reflexivity.
Qed.

Lemma set_identify_on_same (r : RDMResponder) :
  set_identify_on (identify_on r) r = r.
Proof. destruct r. reflexivity. Qed.

Lemma with_responder_identify_same (s : State) :
  with_responder (set_identify_on (identify_on (g_responder s))) s = s.
Proof. destruct s as [r ? ? ? ?]. destruct r. reflexivity. Qed.

(** What [RDMResponder_GenericSetBool] leaves behind when it is given
    the identify flag. *)
Lemma GenericSetBool_identify (header : RDMHeader) (pd : list Z)
    (s : State) :
  buffer_ok s -> RDMHeader_wf header ->
  is_uint8 (queued_message_count (g_responder s)) ->
  exists r s1,
    RDMResponder_GenericSetBool header pd set_identify_on s = Some (r, s1) /\
    frame_only
      (with_responder
         (set_identify_on
            (if (param_data_length header =? 1)
                && ((byte_at pd 0 =? 0) || (byte_at pd 0 =? 1))
             then byte_at pd 0 =? 1
             else identify_on (g_responder s))) s) s1.
Proof.
  intros Hok Hwf Hq. rewrite GenericSetBool_cases.
  destruct (param_data_length header =? 1); cbn [negb andb].
  - destruct (byte_at pd 0 =? 0) eqn:E0; cbn [orb].
    + apply Z.eqb_eq in E0. rewrite E0. cbn [Z.eqb].
      apply BuildSetAck_frame_only; auto with rdm.
    + destruct (byte_at pd 0 =? 1).
      * apply BuildSetAck_frame_only; auto with rdm.
      * rewrite with_responder_identify_same.
        apply BuildNack_frame_only; auto.
  - rewrite with_responder_identify_same.
    apply BuildNack_frame_only; auto.
Qed.

(** Every way through [RDMResponder_SetIdentifyDevice]. *)
Lemma SetIdentifyDevice_run (header : RDMHeader) (pd : list Z)
    (s : State) :
  buffer_ok s -> RDMHeader_wf header ->
  is_uint8 (queued_message_count (g_responder s)) ->
  exists r s',
    RDMResponder_SetIdentifyDevice header pd s = Some (r, s') /\
    buffer_ok s' /\
    g_coarse_timer s' = g_coarse_timer s /\
    mute_pin (ports s') = mute_pin (ports s) /\
    mute_timer (g_internal_state s') = mute_timer (g_internal_state s) /\
    let old := identify_on (g_responder s) in
    let new :=
      if (param_data_length header =? 1)
         && ((byte_at pd 0 =? 0) || (byte_at pd 0 =? 1))
      then byte_at pd 0 =? 1 else old in
    identify_on (g_responder s') = new /\
    if eqb new old
    then frame_only s s'
    else
      identify_pin (ports s') = new /\
      using_factory_defaults (g_responder s') = false /\
      identify_timer (g_internal_state s')
      = (if new then timer_count (g_coarse_timer s)
         else identify_timer (g_internal_state s)) /\
      g_responder s'
      = set_using_factory_defaults false
          (set_identify_on new (g_responder s)).
Proof.
  intros Hok Hwf Hq.
  destruct (GenericSetBool_identify header pd s Hok Hwf Hq)
    as (r & s1 & Hset & Hr1 & Hi1 & Ht1 & Hp1 & Hok1).
  cbv zeta.
  set (new := if (param_data_length header =? 1)
                 && ((byte_at pd 0 =? 0) || (byte_at pd 0 =? 1))
              then byte_at pd 0 =? 1 else identify_on (g_responder s)) in *.
  cbn [g_responder g_internal_state g_coarse_timer ports with_responder]
    in Hr1, Hi1, Ht1, Hp1.
  unfold RDMResponder_SetIdentifyDevice.
  rewrite run_bind, run_get. cbv beta iota zeta.
  rewrite run_bind, Hset. cbv beta iota.
  rewrite run_bind, run_get. cbv beta iota.
  rewrite Hr1. cbn [identify_on set_identify_on].
  destruct (eqb new (identify_on (g_responder s))) eqn:E.
  - rewrite run_ret. exists r, s1.
    split; [reflexivity|]. split; [exact Hok1|]. split; [exact Ht1|].
    split; [rewrite Hp1; reflexivity|]. split; [rewrite Hi1; reflexivity|].
    split; [rewrite Hr1; reflexivity|].
    apply eqb_prop in E. repeat split; try assumption.
    rewrite Hr1, E. apply set_identify_on_same.
  - unfold GetTime, CoarseTimer_GetTime.
    destruct new; run; do 2 eexists; (split; [reflexivity|]);
      cbn [g_responder g_internal_state g_coarse_timer ports g_rdm_buffer
           with_responder with_ports with_internal_state
           mute_pin identify_pin set_identify_pin
           mute_timer identify_timer set_identify_timer];
      rewrite ?Hr1, ?Hi1, ?Ht1, ?Hp1;
      repeat split; auto with rdm.
Qed.

Lemma GetIdentifyDevice_reply (header : RDMHeader) (pd : list Z)
    (s : State) :
  buffer_ok s -> RDMHeader_wf header ->
  is_uint8 (queued_message_count (g_responder s)) ->
  command_class header = GET_COMMAND ->
  exists s',
    RDMResponder_GetIdentifyDevice header pd s = Some (27, s') /\
    frame_only s s' /\
    is_reply ACK [if identify_on (g_responder s) then 1 else 0]
      (Some (27, s')).
Proof.
  intros Hok Hwf Hq Hcc.
  unfold RDMResponder_GetIdentifyDevice, RDMResponder_GenericGetBool.
  rewrite run_bind, run_get. cbv beta iota.
  set (v := if identify_on (g_responder s) then 1 else 0).
  assert (Hv : is_uint8 v)
    by (subst v; destruct (identify_on (g_responder s)); uint_by_compute).
  destruct (staged_store8 s s sizeof_RDMHeader [] v Hok
              ltac:(frame_bound) (staged_nil s Hok))
    as (s1 & Hst8 & Hst).
  rewrite run_bind, Hst8. cbv beta iota.
  rewrite to_uint8_small in Hst by exact Hv.
  destruct (staged_reply header ACK GET_COMMAND_RESPONSE s s1 _ ([] ++ [v])
              Hok Hwf ltac:(uint_by_compute) Hq
              ltac:(rewrite Hcc; reflexivity) ltac:(cbn; lia) Hst)
    as (s' & Hrun & Hf & Hrep & _).
  exists s'. split; [exact Hrun|]. split; [exact Hf | exact Hrep].
Qed.

(** X9: what a SET IDENTIFY_DEVICE does, whatever its destination. A
    request that is not one byte 0 or 1 changes nothing but the frame
    buffer, and neither does a request for the state the responder is
    in. A request that switches identify on or off sets or clears the
    identify pin accordingly and clears the factory-defaults flag;
    switching on also restarts the identify timer at the current time.
    The mute pin, the mute timer and the clock are never touched. A GET
    IDENTIFY_DEVICE that follows replies with one byte, 1 when the
    responder is identifying and 0 when it is not. *)
Theorem SetIdentifyDevice_effects (header : RDMHeader) (pd : list Z)
    (s : State) :
  buffer_ok s -> RDMHeader_wf header ->
  is_uint8 (queued_message_count (g_responder s)) ->
  exists r s',
    RDMResponder_SetIdentifyDevice header pd s = Some (r, s') /\
    buffer_ok s' /\
    g_coarse_timer s' = g_coarse_timer s /\
    mute_pin (ports s') = mute_pin (ports s) /\
    mute_timer (g_internal_state s') = mute_timer (g_internal_state s) /\
    let old := identify_on (g_responder s) in
    let new :=
      if (param_data_length header =? 1)
         && ((byte_at pd 0 =? 0) || (byte_at pd 0 =? 1))
      then byte_at pd 0 =? 1 else old in
    identify_on (g_responder s') = new /\
    (if eqb new old
     then frame_only s s'
     else
       identify_pin (ports s') = new /\
       using_factory_defaults (g_responder s') = false /\
       identify_timer (g_internal_state s')
       = (if new then timer_count (g_coarse_timer s)
          else identify_timer (g_internal_state s)) /\
       g_responder s'
       = set_using_factory_defaults false
           (set_identify_on new (g_responder s))) /\
    forall get_header get_pd,
      RDMHeader_wf get_header -> command_class get_header = GET_COMMAND ->
      exists s2,
        RDMResponder_GetIdentifyDevice get_header get_pd s' = Some (27, s2) /\
        is_reply ACK [if new then 1 else 0] (Some (27, s2)).
Proof.
  intros Hok Hwf Hq.
  destruct (SetIdentifyDevice_run header pd s Hok Hwf Hq)
    as (r & s' & Hrun & Hok' & Ht & Hmp & Hmt & Hon & Hcase).
  exists r, s'. do 5 (split; [assumption|]).
  cbv zeta in *. split; [exact Hon|]. split; [exact Hcase|].
  intros get_header get_pd Hwg Hcc.
  assert (Hq' : is_uint8 (queued_message_count (g_responder s'))).
  { destruct (eqb _ _) in Hcase.
    - destruct Hcase as (-> & _). exact Hq.
    - destruct Hcase as (_ & _ & _ & ->). exact Hq. }
  destruct (GetIdentifyDevice_reply get_header get_pd s' Hok' Hwg Hq' Hcc)
    as (s2 & Hget & _ & Hrep).
  exists s2. split; [exact Hget|]. rewrite Hon in Hrep. exact Hrep.
Qed.

End Identify.

Lemma SetIdentifyDevice_effects_witness :
  exists r s',
    RDMResponder_SetIdentifyDevice (H := sample_RDMUtil)
      (sample_header broadcast_uid SET_COMMAND PID_IDENTIFY_DEVICE 0 1)
      [1] sample_state = Some (r, s') /\
    identify_on (g_responder s') = true /\
    identify_pin (ports s') = true.
Proof.
  destruct (SetIdentifyDevice_effects (H := sample_RDMUtil)
    (sample_header broadcast_uid SET_COMMAND PID_IDENTIFY_DEVICE 0 1)
    [1] sample_state sample_state_ok
    (sample_header_wf broadcast_uid SET_COMMAND PID_IDENTIFY_DEVICE 0 1
       broadcast_uid_is_uid ltac:(uint_by_compute) ltac:(uint_by_compute)
       ltac:(uint_by_compute) ltac:(lia))
    sample_state_qmc)
    as (r & s' & Hrun & _ & _ & _ & _ & Hon & (Hpin & _) & _).
  exists r, s'. split; [exact Hrun|]. split; [exact Hon | exact Hpin].
Defined.

(** ** DMX_PERSONALITY *)

Lemma GetDMXPersonality_reply (header : RDMHeader) (pd : list Z)
    (s : State) (d : ResponderDefinition) :
  buffer_ok s -> RDMHeader_wf header ->
  is_uint8 (queued_message_count (g_responder s)) ->
  def (g_responder s) = Some d ->
  is_uint8 (current_personality (g_responder s)) ->
  is_uint8 (personality_count d) ->
  command_class header = GET_COMMAND ->
  exists s',
    RDMResponder_GetDMXPersonality header pd s = Some (28, s') /\
    frame_only s s' /\
    is_reply ACK [current_personality (g_responder s); personality_count d]
      (Some (28, s')).
Proof.
  intros Hok Hwf Hq Hdef Hcur Hcnt Hcc.
  unfold RDMResponder_GetDMXPersonality.
  rewrite run_bind, run_get. cbv beta iota.
  destruct (staged_store8_inc s s sizeof_RDMHeader []
              (current_personality (g_responder s)) Hok
              ltac:(frame_bound) (staged_nil s Hok))
    as (s1 & Hrun1 & Hst1).
  rewrite run_bind, Hrun1. cbv beta iota. rewrite Hdef.
  destruct (staged_store8_inc s s1 (S sizeof_RDMHeader) _
              (personality_count d) Hok ltac:(frame_bound) Hst1)
    as (s2 & Hrun2 & Hst2).
  rewrite run_bind, Hrun2. cbv beta iota.
  rewrite !to_uint8_small in Hst2 by assumption.
  assert (Hrt : is_uint8 ACK) by uint_by_compute.
  destruct (staged_reply header ACK GET_COMMAND_RESPONSE s s2 _
              (([] ++ [current_personality (g_responder s)])
               ++ [personality_count d])
              Hok Hwf Hrt Hq ltac:(rewrite Hcc; reflexivity)
              ltac:(cbn; lia) Hst2)
    as (s' & Hrun & Hf & Hrep & _).
  exists s'. split; [exact Hrun|]. split; [exact Hf | exact Hrep].
Qed.

Section Personality.
Context `{RDMUtil}.

(** X10: a SET DMX_PERSONALITY followed by a GET, on a responder whose
    current personality is one of the [personality_count] of its
    definition. The personality stays in that range whatever the SET
    carried: it becomes the first byte of the parameter data when that
    is the only byte and names one of the personalities, and is left as
    it was otherwise. The GET replies with the personality and the
    count. *)
Theorem DMXPersonality_set_then_get (set_header get_header : RDMHeader)
    (v : Z) (rest pd : list Z) (s : State) (d : ResponderDefinition) :
  buffer_ok s -> RDMHeader_wf set_header -> RDMHeader_wf get_header ->
  is_uint8 (queued_message_count (g_responder s)) ->
  def (g_responder s) = Some d ->
  is_uint8 (personality_count d) ->
  1 <= current_personality (g_responder s) <= personality_count d ->
  command_class get_header = GET_COMMAND ->
  is_uint8 v ->
  exists r s1 s2,
    RDMResponder_SetDMXPersonality set_header (v :: rest) s = Some (r, s1) /\
    RDMResponder_GetDMXPersonality get_header pd s1 = Some (28, s2) /\
    is_reply ACK [current_personality (g_responder s1); personality_count d]
      (Some (28, s2)) /\
    1 <= current_personality (g_responder s1) <= personality_count d /\
    current_personality (g_responder s1)
    = if (param_data_length set_header =? 1)
         && (1 <=? v) && (v <=? personality_count d)
      then v else current_personality (g_responder s).
Proof.
  intros Hok Hws Hwg Hq Hdef Hcnt Hcur Hcc Hv8.
  rewrite (SetDMXPersonality_cases set_header (v :: rest) s d Hdef).
  change (byte_at (v :: rest) 0) with v.
  assert (Hkeep : forall s1,
            frame_only s s1 ->
            exists s2,
              RDMResponder_GetDMXPersonality get_header pd s1 = Some (28, s2) /\
              is_reply ACK
                [current_personality (g_responder s1); personality_count d]
                (Some (28, s2)) /\
              1 <= current_personality (g_responder s1)
                <= personality_count d /\
              current_personality (g_responder s1)
              = current_personality (g_responder s)).
  { intros s1 (Hr1 & _ & _ & _ & Hok1).
    assert (Hc1 : is_uint8 (current_personality (g_responder s1)))
      by (rewrite Hr1; unfold is_uint8 in *; lia).
    destruct (GetDMXPersonality_reply get_header pd s1 d Hok1 Hwg
                ltac:(rewrite Hr1; exact Hq) ltac:(rewrite Hr1; exact Hdef)
                Hc1 Hcnt Hcc) as (s2 & Hget & _ & Hrep).
    exists s2. rewrite Hr1 in *. auto. }
  destruct (param_data_length set_header =? 1); cbn [negb andb].
  - destruct ((v =? 0) || (personality_count d <? v)) eqn:Hr.
    + replace ((1 <=? v) && (v <=? personality_count d)) with false
        by (unfold is_uint8 in *; lia).
      destruct (BuildNack_frame_only set_header NR_DATA_OUT_OF_RANGE s
                  Hok Hws Hq) as (r & s1 & Hrun & Hf).
      destruct (Hkeep s1 Hf) as (s2 & Hget & Hrep & Hin & He).
      exists r, s1, s2. auto.
    + assert (Hv : 1 <= v <= personality_count d)
        by (unfold is_uint8 in *; lia).
      replace ((1 <=? v) && (v <=? personality_count d)) with true by lia.
      match goal with
      | |- context [with_responder ?f s] =>
          destruct (BuildSetAck_after_update set_header f s Hok Hws)
            as (r & s1 & Hrun & Hr1 & _ & _ & Hok1 & _)
      end.
      { destruct (current_personality (g_responder s) =? v); exact Hq. }
      assert (Hp : current_personality (g_responder s1) = v)
        by (rewrite Hr1; reflexivity).
      destruct (GetDMXPersonality_reply get_header pd s1 d Hok1 Hwg)
        as (s2 & Hget & _ & Hrep); auto.
      * rewrite Hr1.
        destruct (current_personality (g_responder s) =? v); exact Hq.
      * rewrite Hr1.
        destruct (current_personality (g_responder s) =? v); exact Hdef.
      * rewrite Hp. unfold is_uint8 in *. lia.
      * exists r, s1, s2. rewrite Hp in *. auto.
  - destruct (BuildNack_frame_only set_header NR_FORMAT_ERROR s
                Hok Hws Hq) as (r & s1 & Hrun & Hf).
    destruct (Hkeep s1 Hf) as (s2 & Hget & Hrep & Hin & He).
    exists r, s1, s2. auto.
Qed.

End Personality.

Lemma DMXPersonality_set_then_get_witness :
  exists r s1 s2,
    RDMResponder_SetDMXPersonality (H := sample_RDMUtil)
      (sample_header own_uid SET_COMMAND PID_DMX_PERSONALITY 0 1)
      [3] sample_state = Some (r, s1) /\
    RDMResponder_GetDMXPersonality
      (sample_header own_uid GET_COMMAND PID_DMX_PERSONALITY 0 0)
      [] s1 = Some (28, s2) /\
    current_personality (g_responder s1) = 1.
Proof.
  destruct (DMXPersonality_set_then_get (H := sample_RDMUtil)
    (sample_header own_uid SET_COMMAND PID_DMX_PERSONALITY 0 1)
    (sample_header own_uid GET_COMMAND PID_DMX_PERSONALITY 0 0)
    3 [] [] sample_state sample_definition sample_state_ok
    (sample_header_wf own_uid SET_COMMAND PID_DMX_PERSONALITY 0 1
       own_uid_is_uid ltac:(uint_by_compute) ltac:(uint_by_compute)
       ltac:(uint_by_compute) ltac:(lia))
    (sample_header_wf own_uid GET_COMMAND PID_DMX_PERSONALITY 0 0
       own_uid_is_uid ltac:(uint_by_compute) ltac:(uint_by_compute)
       ltac:(uint_by_compute) ltac:(lia))
    sample_state_qmc eq_refl ltac:(uint_by_compute)
    ltac:(vm_compute; split; discriminate) eq_refl ltac:(uint_by_compute))
    as (r & s1 & s2 & Hset & Hget & _ & _ & Hcur).
  exists r, s1, s2. split; [exact Hset|]. split; [exact Hget | exact Hcur].
Defined.

(** ** Start-up, factory reset and the periodic task *)

Section Lifecycle.
Context `{RDMUtil} `{ModelHandlers}.

(** X11: [RDMResponder_ResetToFactoryDefaults] always returns. It
    leaves the responder unmuted and not identifying, with no
    sub-devices, no queued messages, personality 1 and the
    factory-defaults flag set; the start address is 1 when the
    definition has personalities and [INVALID_DMX_START_ADDRESS] when
    it has none or when there is no definition. The UID, the
    definition, the frame buffer and the clock are left alone, and so
    are the two pins and the two timers: the reset clears [is_muted]
    and [identify_on] without driving the pins. *)
Theorem ResetToFactoryDefaults_state (s : State) :
  exists s',
    RDMResponder_ResetToFactoryDefaults s = Some (tt, s') /\
    let r := g_responder s in
    let r' := g_responder s' in
    dmx_start_address r'
    = match def r with
      | Some d => if personality_count d =? 0
                  then INVALID_DMX_START_ADDRESS else 1
      | None => INVALID_DMX_START_ADDRESS
      end /\
    sub_device_count r' = 0 /\ current_personality r' = 1 /\
    queued_message_count r' = 0 /\
    is_muted r' = false /\ identify_on r' = false /\
    using_factory_defaults r' = true /\
    device_label r'
    = match def r with
      | Some d =>
          fst (RDMUtil_StringCopy (device_label r) RDM_DEFAULT_STRING_SIZE
                 (default_device_label d) RDM_DEFAULT_STRING_SIZE)
      | None => device_label r
      end /\
    uid r' = uid r /\ def r' = def r /\
    is_subdevice r' = is_subdevice r /\
    is_managed_proxy r' = is_managed_proxy r /\
    is_proxied_device r' = is_proxied_device r /\
    g_rdm_buffer s' = g_rdm_buffer s /\
    g_internal_state s' = g_internal_state s /\
    g_coarse_timer s' = g_coarse_timer s /\
    ports s' = ports s.
Proof.
  unfold RDMResponder_ResetToFactoryDefaults. run.
  cbn [g_responder with_responder def set_identify_on set_is_muted
       set_queued_message_count set_current_personality
       set_sub_device_count set_dmx_start_address].
  destruct (def (g_responder s)) as [d|] eqn:Hdef.
  - run. destruct (personality_count d =? 0); run;
      (eexists; split; [reflexivity|]); cbn; rewrite ?Hdef;
      repeat split; reflexivity.
  - run. eexists. split; [reflexivity|]. cbn. rewrite ?Hdef.
    repeat split; reflexivity.
Qed.

Lemma Initialize_run (settings : RDMResponderSettings) (s : State) :
  RDMResponder_Initialize settings s
  = Some (tt,
          {| g_responder :=
               {| def := None;
                  device_label := device_label (g_responder s);
                  uid := take UID_LENGTH (settings_uid settings);
                  dmx_start_address := INVALID_DMX_START_ADDRESS;
                  sub_device_count := 0;
                  current_personality := 1;
                  queued_message_count := 0;
                  is_muted := false;
                  identify_on := false;
                  using_factory_defaults := true;
                  is_subdevice := false;
                  is_managed_proxy := false;
                  is_proxied_device := false |};
             g_rdm_buffer := g_rdm_buffer s;
             g_internal_state :=
               {| mute_timer := timer_count (g_coarse_timer s);
                  identify_timer := 0 |};
             g_coarse_timer := g_coarse_timer s;
             ports := {| mute_pin := true; identify_pin := false |} |}).
Proof.
  unfold RDMResponder_Initialize, RDMResponder_InitResponder,
    RDMResponder_ResetToFactoryDefaults, GetTime. run.
  reflexivity.
Qed.

(** X12: [RDMResponder_Initialize] always returns, with the UID of the
    settings installed, the mute pin set and the identify pin cleared,
    the responder unmuted and at its factory defaults, and no
    definition. In this state discovery works: a DISC_UNIQUE_BRANCH
    request for a range that holds the UID is answered with the
    encoding of that UID. A GET or SET does not: until a definition is
    installed [RDMResponder_DispatchPID] reads through the null
    definition pointer. *)
Theorem Initialize_then_discovery (settings : RDMResponderSettings)
    (header : RDMHeader) (lower upper : list Z) (s : State) :
  buffer_ok s -> is_uid (settings_uid settings) ->
  is_uid lower -> is_uid upper ->
  ntohs (sub_device header) = SUBDEVICE_ROOT ->
  ntohs (param_id header) = PID_DISC_UNIQUE_BRANCH ->
  param_data_length header = 12 ->
  uid_lex_le lower (settings_uid settings) ->
  uid_lex_le (settings_uid settings) upper ->
  exists s1 s2,
    RDMResponder_Initialize settings s = Some (tt, s1) /\
    RDMResponder_GetUID s1 = Some (settings_uid settings, s1) /\
    mute_pin (ports s1) = true /\ identify_pin (ports s1) = false /\
    is_muted (g_responder s1) = false /\
    using_factory_defaults (g_responder s1) = true /\
    dmx_start_address (g_responder s1) = INVALID_DMX_START_ADDRESS /\
    def (g_responder s1) = None /\
    RDMResponder_HandleDiscovery header (lower ++ upper) s1
    = Some (- DUB_RESPONSE_LENGTH, s2) /\
    DUB_decode (take 24 (g_rdm_buffer s2)) = Some (settings_uid settings) /\
    (forall h pd, RDMResponder_DispatchPID h pd s1 = None).
Proof.
  intros Hok Huid Hlo Hup Hsub Hpid Hpdl Hle1 Hle2.
  assert (Htake : take UID_LENGTH (settings_uid settings)
                  = settings_uid settings)
    by (apply take_ge; destruct Huid as [-> _]; reflexivity).
  rewrite Initialize_run, Htake.
  set (s1 := {| g_responder := _ |}).
  assert (Hg : DUB_guard s1 (lower ++ upper) 12 = true).
  { apply DUB_guard_range; try assumption. repeat split; assumption. }
  pose proof (HandleDUBRequest_hit s1 (lower ++ upper) 12 Hok Huid Hg)
    as Hhit.
  exists s1. eexists.
  split; [reflexivity|].
  split; [unfold RDMResponder_GetUID; run; cbn [g_responder uid s1];
          rewrite Htake; reflexivity|].
  do 6 (split; [reflexivity|]).
  split; [|split].
  - unfold RDMResponder_HandleDiscovery.
    rewrite Hsub, Hpid, Hpdl. cbn [Z.eqb Pos.eqb negb]. exact Hhit.
  - cbn [g_rdm_buffer with_buffer s1 g_responder uid]. unfold DUB_staged.
    rewrite take_app_length' by (symmetry; apply DUB_encode_length, Huid).
    apply DUB_decode_encode, Huid.
  - intros h pd. unfold RDMResponder_DispatchPID. run. reflexivity.
Qed.

End Lifecycle.

Lemma Initialize_then_discovery_witness :
  exists s1 s2,
    RDMResponder_Initialize (H := sample_RDMUtil)
      {| settings_uid := own_uid |} sample_state = Some (tt, s1) /\
    RDMResponder_HandleDiscovery (H := sample_RDMUtil)
      (sample_header broadcast_uid DISCOVERY_COMMAND PID_DISC_UNIQUE_BRANCH
         0 12)
      ([0; 0; 0; 0; 0; 0] ++ [0xFF; 0xFF; 0xFF; 0xFF; 0xFF; 0xFF]) s1
    = Some (- DUB_RESPONSE_LENGTH, s2) /\
    DUB_decode (take 24 (g_rdm_buffer s2)) = Some own_uid.
Proof.
  destruct (Initialize_then_discovery (H := sample_RDMUtil)
    (H0 := no_ModelHandlers)
    {| settings_uid := own_uid |}
    (sample_header broadcast_uid DISCOVERY_COMMAND PID_DISC_UNIQUE_BRANCH
       0 12)
    [0; 0; 0; 0; 0; 0] [0xFF; 0xFF; 0xFF; 0xFF; 0xFF; 0xFF] sample_state
    sample_state_ok own_uid_is_uid ltac:(uid_by_compute)
    ltac:(uid_by_compute) eq_refl eq_refl eq_refl
    ltac:(right; apply uid_lex_lt_head; lia)
    ltac:(right; apply uid_lex_lt_head; lia))
    as (s1 & s2 & Hinit & _ & _ & _ & _ & _ & _ & _ & Hdub & Hdec & _).
  exists s1, s2. split; [exact Hinit|]. split; [exact Hdub | exact Hdec].
Defined.

Lemma HasElapsed_now (g : CoarseTimer_Data) (d : Z) :
  0 < d -> CoarseTimer_HasElapsed g (timer_count g) d = false.
Proof.
  intros Hd. unfold CoarseTimer_HasElapsed.
  destruct (Z.eqb_spec d 0); [lia|].
  rewrite Z.sub_diag. change (to_uint32 0) with 0. apply Z.ltb_ge. lia.
Qed.

(** A run of [RDMResponder_Tasks] with nothing due. *)
Lemma Tasks_quiescent (s : State) :
  (identify_on (g_responder s) = true ->
   CoarseTimer_HasElapsed (g_coarse_timer s)
     (identify_timer (g_internal_state s)) FLASH_FAST = false) ->
  (is_muted (g_responder s) = false ->
   CoarseTimer_HasElapsed (g_coarse_timer s)
     (mute_timer (g_internal_state s)) FLASH_SLOW = false) ->
  RDMResponder_Tasks s = Some (tt, s).
Proof.
  intros Hi Hm. unfold RDMResponder_Tasks. run.
  destruct (identify_on (g_responder s)).
  - rewrite Hi by reflexivity. run.
    destruct (is_muted (g_responder s)); cbn [negb]; [reflexivity|].
    rewrite Hm by reflexivity. reflexivity.
  - run. destruct (is_muted (g_responder s)); cbn [negb]; [reflexivity|].
    rewrite Hm by reflexivity. reflexivity.
Qed.

(** X13: [RDMResponder_Tasks] always returns and touches nothing but
    the two pins and the two timers. The identify pin is toggled, and
    the identify timer restarted at the current time, exactly when the
    responder is identifying and more than [FLASH_FAST] ticks have
    passed since the timer was started; the mute pin and timer likewise
    when the responder is not muted and more than [FLASH_SLOW] ticks
    have passed. A second run at the same time changes nothing. *)
Theorem Tasks_flashes (s : State) :
  exists s',
    RDMResponder_Tasks s = Some (tt, s') /\
    g_responder s' = g_responder s /\
    g_rdm_buffer s' = g_rdm_buffer s /\
    g_coarse_timer s' = g_coarse_timer s /\
    (let due :=
       identify_on (g_responder s)
       && CoarseTimer_HasElapsed (g_coarse_timer s)
            (identify_timer (g_internal_state s)) FLASH_FAST in
     identify_pin (ports s') = xorb due (identify_pin (ports s)) /\
     identify_timer (g_internal_state s')
     = if due then timer_count (g_coarse_timer s)
       else identify_timer (g_internal_state s)) /\
    (let due :=
       negb (is_muted (g_responder s))
       && CoarseTimer_HasElapsed (g_coarse_timer s)
            (mute_timer (g_internal_state s)) FLASH_SLOW in
     mute_pin (ports s') = xorb due (mute_pin (ports s)) /\
     mute_timer (g_internal_state s')
     = if due then timer_count (g_coarse_timer s)
       else mute_timer (g_internal_state s)) /\
    RDMResponder_Tasks s' = Some (tt, s').
Proof.
  assert (Hfast : 0 < FLASH_FAST) by reflexivity.
  assert (Hslow : 0 < FLASH_SLOW) by reflexivity.
  pose proof (HasElapsed_now (g_coarse_timer s) _ Hfast) as Hnf.
  pose proof (HasElapsed_now (g_coarse_timer s) _ Hslow) as Hns.
  unfold RDMResponder_Tasks at 1. unfold GetTime, CoarseTimer_GetTime.
  destruct s as [r b i g p]. destruct i as [mt it]. destruct p as [mp ip].
  cbn [g_responder g_rdm_buffer g_internal_state g_coarse_timer ports
       mute_timer identify_timer mute_pin identify_pin] in *.
  destruct (identify_on r) eqn:Hid;
    destruct (CoarseTimer_HasElapsed g it FLASH_FAST) eqn:Hef;
    destruct (is_muted r) eqn:Hm;
    destruct (CoarseTimer_HasElapsed g mt FLASH_SLOW) eqn:Hes;
    run;
    cbn [g_responder g_rdm_buffer g_internal_state g_coarse_timer ports
         with_ports with_internal_state toggle_identify_pin toggle_mute_pin
         set_identify_pin set_mute_pin set_identify_timer set_mute_timer
         mute_timer identify_timer mute_pin identify_pin negb];
    rewrite ?Hid, ?Hm, ?Hef, ?Hes; cbn [negb];
    run;
    cbn [g_responder g_rdm_buffer g_internal_state g_coarse_timer ports
         with_ports with_internal_state toggle_identify_pin toggle_mute_pin
         set_identify_pin set_mute_pin set_identify_timer set_mute_timer
         mute_timer identify_timer mute_pin identify_pin negb];
    rewrite ?Hid, ?Hm, ?Hef, ?Hes; cbn [negb];
    (eexists; split; [reflexivity|]);
    cbn [g_responder g_rdm_buffer g_internal_state g_coarse_timer ports
         mute_timer identify_timer mute_pin identify_pin andb negb xorb];
    (do 3 (split; [reflexivity|]));
    (split; [split; try reflexivity; destruct ip; reflexivity|]);
    (split; [split; try reflexivity; destruct mp; reflexivity|]);
    apply Tasks_quiescent;
    cbn [g_responder g_rdm_buffer g_internal_state g_coarse_timer ports
         with_ports with_internal_state toggle_identify_pin toggle_mute_pin
         set_identify_pin set_mute_pin set_identify_timer set_mute_timer
         mute_timer identify_timer mute_pin identify_pin];
    intros; try assumption; congruence.
Qed.

(** ** Discovery *)

Lemma push16_outcome (header : RDMHeader) (rt v : Z) (s : State) :
  buffer_ok s -> RDMHeader_wf header ->
  is_uint8 rt -> is_uint8 (queued_message_count (g_responder s)) ->
  is_uint16 v ->
  exists r s',
    (PushUInt16 sizeof_RDMHeader v
       ≫= fun ptr => RDMResponder_AddHeaderAndChecksum header rt
                       (Z.of_nat ptr)) s = Some (r, s') /\
    frame_only s s' /\
    (r = RDM_RESPONDER_NO_RESPONSE \/
     r = 28 /\ is_reply rt (be16 v) (Some (r, s'))).
Proof.
  intros Hok Hwf Hrt Hq Hv.
  destruct (response_command_class (command_class header)) as [rcc|] eqn:Hrcc.
  - destruct (push16_reply header rt v rcc s Hok Hwf Hrt Hq Hv Hrcc)
      as (s' & Hrun & Hf & Hrep).
    exists 28, s'. split; [exact Hrun|]. split; [exact Hf|].
    right. split; [reflexivity | exact Hrep].
  - destruct (push16_frame_only header rt v s Hok Hwf Hrt Hq)
      as (n & s' & Hrun & Hf).
    exists n, s'. split; [exact Hrun|]. split; [exact Hf|]. left.
    rewrite run_bind, PushUInt16_run in Hrun by (auto; frame_bound).
    cbv beta iota in Hrun.
    unfold RDMResponder_AddHeaderAndChecksum in Hrun.
    rewrite Hrcc, run_ret in Hrun. injection Hrun as <- _. reflexivity.
Qed.

Lemma GetControlField_value (s : State) :
  exists cf, GetControlField s = Some (cf, s) /\ is_uint16 cf.
Proof.
  unfold GetControlField. run. eexists. split; [reflexivity|].
  destruct (sub_device_count (g_responder s) =? 0),
    (is_managed_proxy (g_responder s)), (is_proxied_device (g_responder s));
    uint_by_compute.
Qed.

Lemma set_is_muted_same (r : RDMResponder) :
  r = set_is_muted (is_muted r) r.
Proof. destruct r. reflexivity. Qed.

Section Discovery.
Context `{RDMUtil}.

(** [RDMResponder_SetMute] with empty parameter data. *)
Lemma SetMute_run (header : RDMHeader) (s : State) :
  buffer_ok s -> RDMHeader_wf header ->
  is_uint8 (queued_message_count (g_responder s)) ->
  param_data_length header = 0 ->
  exists r s1,
    RDMResponder_SetMute header s = Some (r, s1) /\
    frame_only
      (with_ports (set_mute_pin false)
         (with_responder (set_is_muted true) s)) s1 /\
    (r = RDM_RESPONDER_NO_RESPONSE \/
     r = 28 /\ exists cf, is_reply ACK (be16 cf) (Some (r, s1))).
Proof.
  intros Hok Hwf Hq Hpdl. unfold RDMResponder_SetMute.
  rewrite Hpdl. cbn [Z.eqb negb]. run.
  set (s0 := with_ports _ _).
  assert (Hok0 : buffer_ok s0) by (subst s0; auto with rdm).
  destruct (RDMUtil_IsUnicast (dest_uid header)); cbn [negb].
  - destruct (GetControlField_value s0) as (cf & Hcf & Hcf16).
    rewrite run_bind, Hcf. cbv beta iota.
    destruct (push16_outcome header ACK cf s0 Hok0 Hwf
                ltac:(uint_by_compute) Hq Hcf16)
      as (r & s1 & Hrun & Hf & Hres).
    exists r, s1. split; [exact Hrun|]. split; [exact Hf|].
    destruct Hres as [-> | [-> Hrep]]; [left; reflexivity|].
    right. split; [reflexivity|]. exists cf. exact Hrep.
  - rewrite run_ret. exists RDM_RESPONDER_NO_RESPONSE, s0.
    split; [reflexivity|]. split; [apply frame_only_refl, Hok0|].
    left. reflexivity.
Qed.

(** [RDMResponder_SetUnMute] with empty parameter data. *)
Lemma SetUnMute_run (header : RDMHeader) (s : State) :
  buffer_ok s -> RDMHeader_wf header ->
  is_uint8 (queued_message_count (g_responder s)) ->
  param_data_length header = 0 ->
  exists r s1,
    RDMResponder_SetUnMute header s = Some (r, s1) /\
    frame_only
      (with_internal_state
         (set_mute_timer (timer_count (g_coarse_timer s)))
         (with_ports (set_mute_pin true)
            (with_responder (set_is_muted false) s))) s1 /\
    (r = RDM_RESPONDER_NO_RESPONSE \/
     r = 28 /\ exists cf, is_reply ACK (be16 cf) (Some (r, s1))).
Proof.
  intros Hok Hwf Hq Hpdl. unfold RDMResponder_SetUnMute, GetTime.
  rewrite Hpdl. cbn [Z.eqb negb]. run.
  unfold CoarseTimer_GetTime.
  cbn [g_coarse_timer with_ports with_responder].
  set (s0 := with_internal_state _ _).
  assert (Hok0 : buffer_ok s0) by (subst s0; auto with rdm).
  destruct (RDMUtil_IsUnicast (dest_uid header)); cbn [negb].
  - destruct (GetControlField_value s0) as (cf & Hcf & Hcf16).
    rewrite run_bind, Hcf. cbv beta iota.
    destruct (push16_outcome header ACK cf s0 Hok0 Hwf
                ltac:(uint_by_compute) Hq Hcf16)
      as (r & s1 & Hrun & Hf & Hres).
    exists r, s1. split; [exact Hrun|]. split; [exact Hf|].
    destruct Hres as [-> | [-> Hrep]]; [left; reflexivity|].
    right. split; [reflexivity|]. exists cf. exact Hrep.
  - rewrite run_ret. exists RDM_RESPONDER_NO_RESPONSE, s0.
    split; [reflexivity|]. split; [apply frame_only_refl, Hok0|].
    left. reflexivity.
Qed.

(** X14: muting and discovery together. After a DISC_MUTE with empty
    parameter data, unicast or broadcast, the responder keeps silent on
    a DISC_UNIQUE_BRANCH for a range that holds its UID, and leaves the
    state as it is; after a DISC_UN_MUTE it answers the same request
    with the encoding of its UID. The mute pin is cleared by the first
    and set by the second. *)
Theorem Mute_silences_DUB (mute unmute dub : RDMHeader)
    (pd1 pd2 lower upper : list Z) (s : State) :
  buffer_ok s -> is_uid (uid (g_responder s)) ->
  is_uint8 (queued_message_count (g_responder s)) ->
  RDMHeader_wf mute -> RDMHeader_wf unmute ->
  ntohs (sub_device mute) = SUBDEVICE_ROOT ->
  ntohs (sub_device unmute) = SUBDEVICE_ROOT ->
  ntohs (sub_device dub) = SUBDEVICE_ROOT ->
  ntohs (param_id mute) = PID_DISC_MUTE ->
  ntohs (param_id unmute) = PID_DISC_UN_MUTE ->
  ntohs (param_id dub) = PID_DISC_UNIQUE_BRANCH ->
  param_data_length mute = 0 -> param_data_length unmute = 0 ->
  param_data_length dub = 12 ->
  is_uid lower -> is_uid upper ->
  uid_lex_le lower (uid (g_responder s)) ->
  uid_lex_le (uid (g_responder s)) upper ->
  exists r1 s1 r2 s2 s3,
    RDMResponder_HandleDiscovery mute pd1 s = Some (r1, s1) /\
    mute_pin (ports s1) = false /\
    RDMResponder_HandleDiscovery dub (lower ++ upper) s1
    = Some (RDM_RESPONDER_NO_RESPONSE, s1) /\
    RDMResponder_HandleDiscovery unmute pd2 s1 = Some (r2, s2) /\
    mute_pin (ports s2) = true /\
    RDMResponder_HandleDiscovery dub (lower ++ upper) s2
    = Some (- DUB_RESPONSE_LENGTH, s3) /\
    DUB_decode (take 24 (g_rdm_buffer s3)) = Some (uid (g_responder s)).
Proof.
  intros Hok Huid Hq Hwm Hwu Hsm Hsu Hsd Hpm Hpu Hpd Hlm Hlu Hld
    Hlo Hup Hle1 Hle2.
  destruct (SetMute_run mute s Hok Hwm Hq Hlm)
    as (r1 & s1 & Hrun1 & (Hr1 & Hi1 & Ht1 & Hp1 & Hok1) & _).
  cbn [g_responder g_internal_state g_coarse_timer ports with_ports
       with_responder with_internal_state] in Hr1, Hi1, Ht1, Hp1.
  assert (Hq1 : is_uint8 (queued_message_count (g_responder s1)))
    by (rewrite Hr1; exact Hq).
  destruct (SetUnMute_run unmute s1 Hok1 Hwu Hq1 Hlu)
    as (r2 & s2 & Hrun2 & (Hr2 & Hi2 & Ht2 & Hp2 & Hok2) & _).
  cbn [g_responder g_internal_state g_coarse_timer ports with_ports
       with_responder with_internal_state] in Hr2, Hi2, Ht2, Hp2.
  assert (Hu2 : uid (g_responder s2) = uid (g_responder s))
    by (rewrite Hr2, Hr1; reflexivity).
  assert (Hg1 : DUB_guard s1 (lower ++ upper) 12 = false)
    by (unfold DUB_guard; rewrite Hr1; reflexivity).
  assert (Hg2 : DUB_guard s2 (lower ++ upper) 12 = true).
  { apply DUB_guard_range; try assumption.
    - rewrite Hu2. exact Huid.
    - rewrite Hu2. repeat split; try assumption.
      rewrite Hr2. reflexivity. }
  pose proof (HandleDUBRequest_hit s2 (lower ++ upper) 12 Hok2
                ltac:(rewrite Hu2; exact Huid) Hg2) as Hhit.
  exists r1, s1, r2, s2. eexists.
  unfold RDMResponder_HandleDiscovery.
  rewrite Hsm, Hsu, Hsd, Hpm, Hpu, Hpd, Hld. cbn [Z.eqb Pos.eqb negb].
  split; [exact Hrun1|]. split; [rewrite Hp1; reflexivity|].
  split; [apply HandleDUBRequest_miss, Hg1|].
  split; [exact Hrun2|]. split; [rewrite Hp2; reflexivity|].
  split; [exact Hhit|].
  cbn [g_rdm_buffer with_buffer]. unfold DUB_staged. rewrite Hu2.
  rewrite take_app_length' by (symmetry; apply DUB_encode_length, Huid).
  apply DUB_decode_encode, Huid.
Qed.

(** X15: every way through [RDMResponder_HandleDiscovery]. It always
    returns, and with one of three results: no response, a
    DISC_UNIQUE_BRANCH response (the encoding of the UID in the first 24
    bytes of the buffer), or a 28-byte ACK that carries a control field;
    it never builds a NACK. Of the responder it can change [is_muted]
    only; the identify pin, the identify timer and the clock are left
    alone. *)
Theorem HandleDiscovery_outcomes (header : RDMHeader) (pd : list Z)
    (s : State) :
  buffer_ok s -> RDMHeader_wf header ->
  is_uint8 (queued_message_count (g_responder s)) ->
  is_uid (uid (g_responder s)) ->
  exists r s',
    RDMResponder_HandleDiscovery header pd s = Some (r, s') /\
    buffer_ok s' /\
    (r = RDM_RESPONDER_NO_RESPONSE \/
     (r = - DUB_RESPONSE_LENGTH /\
      take 24 (g_rdm_buffer s') = DUB_encode (uid (g_responder s))) \/
     (r = 28 /\ exists cf, is_reply ACK (be16 cf) (Some (r, s')))) /\
    g_responder s'
    = set_is_muted (is_muted (g_responder s')) (g_responder s) /\
    identify_pin (ports s') = identify_pin (ports s) /\
    identify_timer (g_internal_state s')
    = identify_timer (g_internal_state s) /\
    g_coarse_timer s' = g_coarse_timer s.
Proof.
  intros Hok Hwf Hq Huid.
  assert (Hsame : exists r s',
            Some (RDM_RESPONDER_NO_RESPONSE, s) = Some (r, s') /\
            buffer_ok s' /\
            (r = RDM_RESPONDER_NO_RESPONSE \/
             (r = - DUB_RESPONSE_LENGTH /\
              take 24 (g_rdm_buffer s') = DUB_encode (uid (g_responder s))) \/
             (r = 28 /\ exists cf, is_reply ACK (be16 cf) (Some (r, s')))) /\
            g_responder s'
            = set_is_muted (is_muted (g_responder s')) (g_responder s) /\
            identify_pin (ports s') = identify_pin (ports s) /\
            identify_timer (g_internal_state s')
            = identify_timer (g_internal_state s) /\
            g_coarse_timer s' = g_coarse_timer s).
  { exists RDM_RESPONDER_NO_RESPONSE, s. split; [reflexivity|].
    split; [exact Hok|]. split; [left; reflexivity|].
    split; [apply set_is_muted_same|]. repeat split. }
  unfold RDMResponder_HandleDiscovery.
  destruct (negb (ntohs (sub_device header) =? SUBDEVICE_ROOT));
    [rewrite run_ret; exact Hsame|].
  destruct (ntohs (param_id header) =? PID_DISC_UNIQUE_BRANCH).
  { destruct (DUB_guard s pd (param_data_length header)) eqn:Hg.
    - rewrite (HandleDUBRequest_hit s pd _ Hok Huid Hg).
      do 2 eexists. split; [reflexivity|].
      split; [apply frame_only_with_buffer; unfold DUB_staged;
              rewrite length_app, length_drop, DUB_encode_length
                by apply Huid; rewrite Hok; reflexivity|].
      split.
      + right. left. split; [reflexivity|].
        cbn [g_rdm_buffer with_buffer]. unfold DUB_staged.
        apply take_app_length'. symmetry. apply DUB_encode_length, Huid.
      + cbn [g_responder with_buffer ports g_internal_state g_coarse_timer].
        split; [apply set_is_muted_same|]. repeat split.
    - rewrite (HandleDUBRequest_miss s pd _ Hg). exact Hsame. }
  destruct (ntohs (param_id header) =? PID_DISC_MUTE).
  { destruct (Z.eqb_spec (param_data_length header) 0) as [Hpdl | Hpdl].
    - destruct (SetMute_run header s Hok Hwf Hq Hpdl)
        as (r & s1 & Hrun & (Hr1 & Hi1 & Ht1 & Hp1 & Hok1) & Hres).
      cbn [g_responder g_internal_state g_coarse_timer ports with_ports
           with_responder with_internal_state] in Hr1, Hi1, Ht1, Hp1.
      exists r, s1. split; [exact Hrun|]. split; [exact Hok1|].
      split; [destruct Hres as [-> | Hres]; [left; reflexivity |
                                             right; right; exact Hres]|].
      rewrite Hr1, Hi1, Ht1, Hp1. repeat split.
    - unfold RDMResponder_SetMute.
      destruct (param_data_length header =? 0) eqn:E;
        [apply Z.eqb_eq in E; contradiction|].
      cbn [negb]. rewrite run_ret. exact Hsame. }
  destruct (ntohs (param_id header) =? PID_DISC_UN_MUTE).
  { destruct (Z.eqb_spec (param_data_length header) 0) as [Hpdl | Hpdl].
    - destruct (SetUnMute_run header s Hok Hwf Hq Hpdl)
        as (r & s1 & Hrun & (Hr1 & Hi1 & Ht1 & Hp1 & Hok1) & Hres).
      cbn [g_responder g_internal_state g_coarse_timer ports with_ports
           with_responder with_internal_state] in Hr1, Hi1, Ht1, Hp1.
      exists r, s1. split; [exact Hrun|]. split; [exact Hok1|].
      split; [destruct Hres as [-> | Hres]; [left; reflexivity |
                                             right; right; exact Hres]|].
      rewrite Hr1, Hi1, Ht1, Hp1. repeat split.
    - unfold RDMResponder_SetUnMute.
      destruct (param_data_length header =? 0) eqn:E;
        [apply Z.eqb_eq in E; contradiction|].
      cbn [negb]. rewrite run_ret. exact Hsame. }
  rewrite run_ret. exact Hsame.
Qed.

End Discovery.

(** ** Sensors *)

Lemma for_each_update_lookup
    (f : SensorDefinition -> SensorData -> SensorData)
    (defs : list SensorDefinition) (n : nat) :
  forall (i : nat) (sensors : list SensorData),
    (i + n = length defs)%nat -> length sensors = length defs ->
    exists sensors',
      for_each_sensor (update_sensor f) defs sensors i n = Some sensors' /\
      length sensors' = length defs /\
      forall j,
        sensors' !! j
        = if (i <=? j)%nat then zip_with f defs sensors !! j
          else sensors !! j.
Proof.
  induction n as [|n IH]; intros i sensors Hin Hlen.
  - exists sensors. split; [reflexivity|]. split; [exact Hlen|].
    intros j. destruct (Nat.leb_spec i j) as [Hle | Hlt]; [|reflexivity].
    rewrite !(lookup_ge_None_2 _ j); try reflexivity; try lia.
    rewrite length_zip_with. lia.
  - cbn [for_each_sensor]. unfold update_sensor at 1.
    destruct (lookup_lt_is_Some_2 defs i ltac:(lia)) as [d Hd].
    destruct (lookup_lt_is_Some_2 sensors i ltac:(lia)) as [x Hx].
    rewrite Hd, Hx.
    destruct (IH (S i) (<[i := f d x]> sensors) ltac:(lia)
                ltac:(rewrite length_insert; exact Hlen))
      as (sensors' & Hrun & Hlen' & Hlook).
    exists sensors'. split; [exact Hrun|]. split; [exact Hlen'|].
    intros j. rewrite Hlook, !lookup_zip_with.
    destruct (Nat.leb_spec (S i) j) as [Hle | Hlt].
    + rewrite list_lookup_insert_ne by lia.
      destruct (Nat.leb_spec i j); [reflexivity | lia].
    + destruct (Nat.eq_dec i j) as [<- | Hne].
      * rewrite list_lookup_insert_eq by lia.
        rewrite Nat.leb_refl, Hd, Hx. reflexivity.
      * rewrite list_lookup_insert_ne by exact Hne.
        destruct (Nat.leb_spec i j); [lia | reflexivity].
Qed.

(** The loop over all the sensors applies [f] to each of them. *)
Lemma for_each_update
    (f : SensorDefinition -> SensorData -> SensorData)
    (defs : list SensorDefinition) (sensors : list SensorData) :
  length sensors = length defs ->
  for_each_sensor (update_sensor f) defs sensors 0 (length defs)
  = Some (zip_with f defs sensors).
Proof.
  intros Hlen.
  destruct (for_each_update_lookup f defs (length defs) 0 sensors
              ltac:(lia) Hlen) as (sensors' & -> & _ & Hlook).
  f_equal. apply list_eq. exact Hlook.
Qed.

Lemma staged_memset (s : State) (v : Z) (n : nat) :
  forall (s1 : State) (ptr : nat) (data : list Z),
    buffer_ok s -> (ptr + n <= RDM_FRAME_SIZE)%nat ->
    staged s s1 ptr data ->
    exists s2,
      memset ptr v n s1 = Some (tt, s2) /\
      staged s s2 (ptr + n) (data ++ repeat (to_uint8 v) n).
Proof.
  induction n as [|n IH]; intros s1 ptr data Hok Hle Hst.
  - exists s1. split; [reflexivity|].
    rewrite Nat.add_0_r, app_nil_r. exact Hst.
  - cbn [memset].
    destruct (staged_store8 s s1 ptr data v Hok ltac:(lia) Hst)
      as (s2 & Hrun & Hst2).
    destruct (IH s2 (S ptr) _ Hok ltac:(lia) Hst2) as (s3 & Hrun3 & Hst3).
    exists s3. split.
    + rewrite run_bind, Hrun. exact Hrun3.
    + rewrite <- app_assoc in Hst3. cbn [app repeat] in *.
      rewrite Nat.add_succ_r. exact Hst3.
Qed.

Lemma staged_BuildSensorValueResponse (s : State) (index : Z)
    (x : SensorData) :
  buffer_ok s -> is_uint8 index -> sensor_ok x ->
  exists s1,
    BuildSensorValueResponse sizeof_RDMHeader index x s
    = Some ((sizeof_RDMHeader + 9)%nat, s1) /\
    staged s s1 (sizeof_RDMHeader + 9) (sensor_value_data index x).
Proof.
  intros Hok Hi (Hp & Hl & Hh & Hr & _). unfold BuildSensorValueResponse.
  destruct (staged_store8_inc s s sizeof_RDMHeader [] index Hok
              ltac:(frame_bound) (staged_nil s Hok)) as (s1 & Hrun1 & Hst1).
  rewrite run_bind, Hrun1. cbv beta iota.
  rewrite to_uint8_small in Hst1 by exact Hi.
  destruct (staged_PushUInt16 s s1 (S sizeof_RDMHeader) _ (present_value x) Hok
              ltac:(frame_bound) Hst1 Hp) as (s2 & Hrun2 & Hst2).
  rewrite run_bind, Hrun2. cbv beta iota.
  destruct (staged_PushUInt16 s s2 (S (S (S sizeof_RDMHeader))) _ (lowest_value x) Hok
              ltac:(frame_bound) Hst2 Hl) as (s3 & Hrun3 & Hst3).
  rewrite run_bind, Hrun3. cbv beta iota.
  destruct (staged_PushUInt16 s s3 (S (S (S (S (S sizeof_RDMHeader))))) _ (highest_value x) Hok
              ltac:(frame_bound) Hst3 Hh) as (s4 & Hrun4 & Hst4).
  rewrite run_bind, Hrun4. cbv beta iota.
  destruct (staged_PushUInt16 s s4
              (S (S (S (S (S (S (S sizeof_RDMHeader))))))) _
              (recorded_value x) Hok
              ltac:(frame_bound) Hst4 Hr) as (s5 & Hrun5 & Hst5).
  exists s5. split; [exact Hrun5|].
  rewrite <- !app_assoc in Hst5. exact Hst5.
Qed.

Section Sensors.
Context `{RDMUtil}.

Lemma BuildNack_answers (header : RDMHeader) (reason : Z) (s : State) :
  buffer_ok s -> RDMHeader_wf header ->
  is_uint8 (queued_message_count (g_responder s)) ->
  is_uint16 reason ->
  command_class header = DISCOVERY_COMMAND \/
  command_class header = GET_COMMAND \/
  command_class header = SET_COMMAND ->
  answers_unicast header s (is_nack reason)
    (RDMResponder_BuildNack header reason s).
Proof.
  intros Hok Hwf Hq Hr Hcc.
  destruct (BuildNack_outcome header reason s Hok Hwf Hq Hr Hcc)
    as (r & s' & Hrun & Hf & Hu & Hn).
  exists r, s'. split; [exact Hrun|]. split; [exact Hf|].
  split; [intros Hx; apply Hu, Hx | exact Hn].
Qed.

Lemma BuildSetAck_answers (header : RDMHeader) (s : State) :
  buffer_ok s -> RDMHeader_wf header ->
  is_uint8 (queued_message_count (g_responder s)) ->
  command_class header = DISCOVERY_COMMAND \/
  command_class header = GET_COMMAND \/
  command_class header = SET_COMMAND ->
  answers_unicast header s is_set_ack (RDMResponder_BuildSetAck header s).
Proof.
  intros Hok Hwf Hq Hcc.
  destruct (BuildSetAck_outcome header s Hok Hwf Hq Hcc)
    as (r & s' & Hrun & Hf & Hu & Hn).
  exists r, s'. split; [exact Hrun|]. split; [exact Hf|].
  split; [intros Hx; apply Hu, Hx | exact Hn].
Qed.

(** A handler that ends in [r <- m; return (r, sensors')]. *)
Lemma answers_with_sensors (header : RDMHeader) (s : State)
    (kind : option (Z * State) -> Prop) (m : M Z)
    (sensors' : list SensorData) :
  answers_unicast header s kind (m s) ->
  exists r s',
    (m ≫= fun r => mret (r, sensors')) s = Some ((r, sensors'), s') /\
    answers_unicast header s kind (Some (r, s')).
Proof.
  intros (r & s' & Hrun & Hrest). exists r, s'.
  rewrite run_bind, Hrun. split; [reflexivity|].
  exists r, s'. split; [reflexivity | exact Hrest].
Qed.

(** X16: SET RECORD_SENSORS. The recorded value of a sensor becomes its
    present value when the index names a sensor that supports
    recording, and for the index [ALL_SENSORS] the same happens to
    every sensor that supports it while the others are left as they
    are; both are acknowledged. A sensor that does not support
    recording, an index that names no sensor and parameter data of
    another length than 1 are answered with a NACK and record nothing.
    The recording is done whether or not the request was unicast. *)
Theorem SetRecordSensor_records (defs : list SensorDefinition)
    (sensors : list SensorData) (header : RDMHeader) (index : Z)
    (rest : list Z) (s : State) :
  buffer_ok s -> RDMHeader_wf header ->
  is_uint8 (queued_message_count (g_responder s)) ->
  command_class header = SET_COMMAND ->
  length sensors = length defs -> is_uint8 index ->
  let run :=
    RDMResponder_SetRecordSensor defs sensors header (index :: rest) s in
  let outcome kind sensors' :=
    exists r s',
      run = Some ((r, sensors'), s') /\
      answers_unicast header s kind (Some (r, s')) in
  let supports d :=
    negb (Z.land (recorded_value_support d) SENSOR_SUPPORTS_RECORDING_MASK
          =? 0) in
  if negb (param_data_length header =? 1)
  then outcome (is_nack NR_FORMAT_ERROR) sensors
  else
    match defs !! Z.to_nat index, sensors !! Z.to_nat index with
    | Some d, Some x =>
        if supports d
        then outcome is_set_ack
               (<[Z.to_nat index :=
                    {| present_value := present_value x;
                       lowest_value := lowest_value x;
                       highest_value := highest_value x;
                       recorded_value := present_value x;
                       should_nack := should_nack x;
                       nack_reason := nack_reason x |}]> sensors)
        else outcome (is_nack NR_DATA_OUT_OF_RANGE) sensors
    | _, _ =>
        if index =? ALL_SENSORS
        then outcome is_set_ack
               (zip_with (fun d x => if supports d
                                     then {| present_value := present_value x;
                                             lowest_value := lowest_value x;
                                             highest_value := highest_value x;
                                             recorded_value := present_value x;
                                             should_nack := should_nack x;
                                             nack_reason := nack_reason x |}
                                     else x) defs sensors)
        else outcome (is_nack NR_DATA_OUT_OF_RANGE) sensors
    end.
Proof.
  intros Hok Hwf Hq Hcc Hlen Hi run outcome supports.
  assert (Hcc3 : command_class header = DISCOVERY_COMMAND \/
                 command_class header = GET_COMMAND \/
                 command_class header = SET_COMMAND) by auto.
  assert (Hnack : forall reason, is_uint16 reason ->
            exists r s',
              (RDMResponder_BuildNack header reason
                 ≫= fun r => mret (r, sensors)) s
              = Some ((r, sensors), s') /\
              answers_unicast header s (is_nack reason) (Some (r, s'))).
  { intros reason Hr. apply answers_with_sensors.
    apply BuildNack_answers; assumption. }
  assert (Hack : forall sensors' : list SensorData,
            exists r s',
              (RDMResponder_BuildSetAck header
                 ≫= fun r => mret (r, sensors')) s
              = Some ((r, sensors'), s') /\
              answers_unicast header s is_set_ack (Some (r, s'))).
  { intros sensors'. apply answers_with_sensors.
    apply BuildSetAck_answers; assumption. }
  assert (Hrec : forall d x, record_sensor d x
                 = if supports d
                   then {| present_value := present_value x;
                           lowest_value := lowest_value x;
                           highest_value := highest_value x;
                           recorded_value := present_value x;
                           should_nack := should_nack x;
                           nack_reason := nack_reason x |}
                   else x).
  { intros d x. unfold record_sensor, supports.
    destruct (Z.land _ _ =? 0); reflexivity. }
  subst run outcome. cbv beta.
  unfold RDMResponder_SetRecordSensor.
  destruct (negb (param_data_length header =? 1));
    [apply Hnack; uint_by_compute|].
  change (byte_at (index :: rest) 0) with index.
  destruct (Z.ltb_spec index (Z.of_nat (length defs))) as [Hlt | Hge].
  - destruct (lookup_lt_is_Some_2 defs (Z.to_nat index)
                ltac:(unfold is_uint8 in Hi; lia)) as [d Hd].
    destruct (lookup_lt_is_Some_2 sensors (Z.to_nat index)
                ltac:(unfold is_uint8 in Hi; lia)) as [x Hx].
    rewrite Hd, Hx. unfold supports.
    destruct (Z.land (recorded_value_support d)
                SENSOR_SUPPORTS_RECORDING_MASK =? 0) eqn:Es; cbn [negb].
    + apply Hnack. uint_by_compute.
    + unfold RecordSensor, update_sensor. rewrite Hd, Hx.
      unfold record_sensor. rewrite Es. apply Hack.
  - rewrite (lookup_ge_None_2 defs) by (unfold is_uint8 in Hi; lia).
    destruct (index =? ALL_SENSORS).
    + unfold RecordSensor. rewrite for_each_update by exact Hlen.
      replace (zip_with record_sensor defs sensors)
        with (zip_with (fun d x => if supports d
                                   then {| present_value := present_value x;
                                           lowest_value := lowest_value x;
                                           highest_value := highest_value x;
                                           recorded_value := present_value x;
                                           should_nack := should_nack x;
                                           nack_reason := nack_reason x |}
                                   else x) defs sensors).
      * apply Hack.
      * clear - Hrec. revert sensors.
        induction defs as [|d defs IH]; intros [|x sensors];
          cbn [zip_with]; try reflexivity.
        rewrite Hrec, IH. reflexivity.
    + apply Hnack. uint_by_compute.
Qed.

Lemma reset_sensor_ok (d : SensorDefinition) (x : SensorData) :
  sensor_ok x -> sensor_ok (reset_sensor d x).
Proof.
  intros (Hp & _ & _ & _ & Hn). unfold sensor_ok, reset_sensor.
  cbn [present_value lowest_value highest_value recorded_value nack_reason].
  assert (H0 : is_uint16 SENSOR_VALUE_UNSUPPORTED) by uint_by_compute.
  repeat split; try apply Hp; try apply Hn;
    repeat match goal with
           | |- context [if ?c then _ else _] => destruct c
           end; first [apply Hp | apply H0].
Qed.

(** Parameter data of nine bytes framed as an ACK. *)
Lemma staged_ack (header : RDMHeader) (s s1 : State) (data : list Z) :
  buffer_ok s -> RDMHeader_wf header ->
  is_uint8 (queued_message_count (g_responder s)) ->
  command_class header = GET_COMMAND \/ command_class header = SET_COMMAND ->
  length data = 9%nat ->
  staged s s1 (sizeof_RDMHeader + 9) data ->
  exists s',
    RDMResponder_AddHeaderAndChecksum header ACK
      (Z.of_nat (sizeof_RDMHeader + 9)) s1 = Some (35, s') /\
    frame_only s s' /\ is_reply ACK data (Some (35, s')).
Proof.
  intros Hok Hwf Hq Hcc Hlen Hst.
  destruct (response_class_of (command_class header)
              ltac:(destruct Hcc; auto)) as [rcc Hrcc].
  destruct (staged_reply header ACK rcc s s1 _ data Hok Hwf
              ltac:(uint_by_compute) Hq Hrcc ltac:(lia) Hst)
    as (s' & Hrun & Hf & Hrep & _).
  exists s'. split; [exact Hrun|]. split; [exact Hf | exact Hrep].
Qed.

(** X17: SET SENSOR_VALUE. For an index that names a sensor, that
    sensor is reset ([reset_sensor]: the lowest, highest and recorded
    values become the present value where the definition supports
    them, [SENSOR_VALUE_UNSUPPORTED] where it does not), and a unicast
    request gets an ACK with the index and the four values of the
    sensor after the reset. For [ALL_SENSORS] every sensor is reset and
    the ACK carries nine zero bytes; should the index 255 name a sensor,
    only that sensor is reset, and the ACK still carries the nine zero
    bytes. The reset is done before the unicast check, so a broadcast
    resets too. An index that names no sensor and parameter data of
    another length than 1 get a NACK and reset nothing. *)
Theorem SetSensorValue_resets (defs : list SensorDefinition)
    (sensors : list SensorData) (header : RDMHeader) (index : Z)
    (rest : list Z) (s : State) :
  buffer_ok s -> RDMHeader_wf header ->
  is_uint8 (queued_message_count (g_responder s)) ->
  command_class header = SET_COMMAND ->
  length sensors = length defs -> is_uint8 index ->
  Forall sensor_ok sensors ->
  let run :=
    RDMResponder_SetSensorValue defs sensors header (index :: rest) s in
  let outcome kind sensors' :=
    exists r s',
      run = Some ((r, sensors'), s') /\
      answers_unicast header s kind (Some (r, s')) in
  if negb (param_data_length header =? 1)
  then outcome (is_nack NR_FORMAT_ERROR) sensors
  else
    match defs !! Z.to_nat index, sensors !! Z.to_nat index with
    | Some d, Some x =>
        outcome
          (is_reply ACK
             (if index =? ALL_SENSORS then repeat 0 9
              else sensor_value_data index (reset_sensor d x)))
          (<[Z.to_nat index := reset_sensor d x]> sensors)
    | _, _ =>
        if index =? ALL_SENSORS
        then outcome (is_reply ACK (repeat 0 9))
               (zip_with reset_sensor defs sensors)
        else outcome (is_nack NR_DATA_OUT_OF_RANGE) sensors
    end.
Proof.
  intros Hok Hwf Hq Hcc Hlen Hi Hall run outcome.
  assert (Hcc3 : command_class header = DISCOVERY_COMMAND \/
                 command_class header = GET_COMMAND \/
                 command_class header = SET_COMMAND) by auto.
  assert (Hnack : forall reason, is_uint16 reason ->
            exists r s',
              (RDMResponder_BuildNack header reason
                 ≫= fun r => mret (r, sensors)) s
              = Some ((r, sensors), s') /\
              answers_unicast header s (is_nack reason) (Some (r, s'))).
  { intros reason Hr. apply answers_with_sensors.
    apply BuildNack_answers; assumption. }
  assert (Hzero : RDMUtil_IsUnicast (dest_uid header) = true ->
            forall sensors' : list SensorData,
            exists r s',
              (ptr ← (memset sizeof_RDMHeader 0
                        SENSOR_VALUE_PARAM_DATA_LENGTH;;
                      (mret (sizeof_RDMHeader
                             + SENSOR_VALUE_PARAM_DATA_LENGTH)%nat : M nat));
               r ← RDMResponder_AddHeaderAndChecksum header ACK
                     (Z.of_nat ptr);
               mret (r, sensors')) s = Some ((r, sensors'), s') /\
              answers_unicast header s (is_reply ACK (repeat 0 9))
                (Some (r, s'))).
  { intros Hu sensors'.
    destruct (staged_memset s 0 SENSOR_VALUE_PARAM_DATA_LENGTH s
                sizeof_RDMHeader [] Hok
                ltac:(unfold SENSOR_VALUE_PARAM_DATA_LENGTH; frame_bound)
                (staged_nil s Hok)) as (s1 & Hrun1 & Hst1).
    destruct (staged_ack header s s1 (repeat 0 9) Hok Hwf Hq
                ltac:(right; exact Hcc) eq_refl Hst1)
      as (s' & Hrun & Hf & Hrep).
    unfold SENSOR_VALUE_PARAM_DATA_LENGTH in *.
    exists 35, s'. split.
    - rewrite run_bind, run_bind, Hrun1. cbv beta iota.
      rewrite run_ret, run_bind, Hrun. reflexivity.
    - exists 35, s'. split; [reflexivity|]. split; [exact Hf|].
      split; [intros _; exact Hrep | rewrite Hu; discriminate]. }
  assert (Hsilent : RDMUtil_IsUnicast (dest_uid header) = false ->
            forall (kind : option (Z * State) -> Prop),
            answers_unicast header s kind
              (Some (RDM_RESPONDER_NO_RESPONSE, s))).
  { intros Hu kind. exists RDM_RESPONDER_NO_RESPONSE, s.
    split; [reflexivity|]. split; [apply frame_only_refl, Hok|].
    split; [rewrite Hu; discriminate | intros _; split; reflexivity]. }
  subst run outcome. cbv beta.
  unfold RDMResponder_SetSensorValue.
  destruct (negb (param_data_length header =? 1));
    [apply Hnack; uint_by_compute|].
  change (byte_at (index :: rest) 0) with index. cbv zeta.
  destruct (Z.ltb_spec index (Z.of_nat (length defs))) as [Hlt | Hge].
  - destruct (lookup_lt_is_Some_2 defs (Z.to_nat index)
                ltac:(unfold is_uint8 in Hi; lia)) as [d Hd].
    destruct (lookup_lt_is_Some_2 sensors (Z.to_nat index)
                ltac:(unfold is_uint8 in Hi; lia)) as [x Hx].
    rewrite Hd, Hx. unfold ResetSensor, update_sensor. rewrite Hd, Hx.
    destruct (RDMUtil_IsUnicast (dest_uid header)) eqn:Hu; cbn [negb].
    + destruct (index =? ALL_SENSORS); [apply Hzero; reflexivity|].
      rewrite list_lookup_insert_eq
        by (apply lookup_lt_is_Some_1; eexists; exact Hx).
      assert (Hx_ok : sensor_ok (reset_sensor d x)).
      { apply reset_sensor_ok.
        exact (proj1 (Forall_lookup _ _) Hall _ _ Hx). }
      destruct (staged_BuildSensorValueResponse s index _ Hok Hi Hx_ok)
        as (s1 & Hrun1 & Hst1).
      destruct (staged_ack header s s1
                  (sensor_value_data index (reset_sensor d x)) Hok Hwf Hq
                  ltac:(right; exact Hcc) eq_refl Hst1)
        as (s' & Hrun & Hf & Hrep).
      exists 35, s'. split.
      * rewrite run_bind, Hrun1. cbv beta iota.
        rewrite run_bind, Hrun. reflexivity.
      * exists 35, s'. split; [reflexivity|]. split; [exact Hf|].
        split; [intros _; exact Hrep | rewrite Hu; discriminate].
    + rewrite run_ret. do 2 eexists. split; [reflexivity|].
      apply Hsilent. reflexivity.
  - rewrite (lookup_ge_None_2 defs) by (unfold is_uint8 in Hi; lia).
    destruct (index =? ALL_SENSORS) eqn:Eall.
    + unfold ResetSensor. rewrite for_each_update by exact Hlen.
      destruct (RDMUtil_IsUnicast (dest_uid header)) eqn:Hu; cbn [negb].
      * apply Hzero. reflexivity.
      * rewrite run_ret. do 2 eexists. split; [reflexivity|].
        apply Hsilent. reflexivity.
    + apply Hnack. uint_by_compute.
Qed.

(** X18: GET SENSOR_VALUE. An index that names no sensor is answered
    with the NACK NR_DATA_OUT_OF_RANGE and a sensor that is marked
    [should_nack] with a NACK of the reason the sensor holds; both are
    suppressed when the request was not unicast. Any other sensor is
    answered with a 35-byte ACK that carries the index and the present,
    lowest, highest and recorded values in big-endian order. The
    handler does not look at the length of the parameter data. *)
Theorem GetSensorValue_outcomes (defs : list SensorDefinition)
    (sensors : list SensorData) (header : RDMHeader) (index : Z)
    (rest : list Z) (s : State) :
  buffer_ok s -> RDMHeader_wf header ->
  is_uint8 (queued_message_count (g_responder s)) ->
  command_class header = GET_COMMAND ->
  length sensors = length defs -> is_uint8 index ->
  Forall sensor_ok sensors ->
  let res :=
    RDMResponder_GetSensorValue defs sensors header (index :: rest) s in
  match sensors !! Z.to_nat index with
  | None => answers_unicast header s (is_nack NR_DATA_OUT_OF_RANGE) res
  | Some x =>
      if should_nack x
      then answers_unicast header s (is_nack (nack_reason x)) res
      else
        exists s',
          res = Some (35, s') /\ frame_only s s' /\
          is_reply ACK (sensor_value_data index x) (Some (35, s'))
  end.
Proof.
  intros Hok Hwf Hq Hcc Hlen Hi Hall res. subst res.
  assert (Hcc3 : command_class header = DISCOVERY_COMMAND \/
                 command_class header = GET_COMMAND \/
                 command_class header = SET_COMMAND) by auto.
  unfold RDMResponder_GetSensorValue.
  change (byte_at (index :: rest) 0) with index. cbv zeta.
  destruct (Z.leb_spec (Z.of_nat (length defs)) index) as [Hge | Hlt].
  - rewrite (lookup_ge_None_2 sensors) by (unfold is_uint8 in Hi; lia).
    apply BuildNack_answers; auto. uint_by_compute.
  - destruct (lookup_lt_is_Some_2 sensors (Z.to_nat index)
                ltac:(unfold is_uint8 in Hi; lia)) as [x Hx].
    rewrite Hx.
    pose proof (proj1 (Forall_lookup _ _) Hall _ _ Hx) as Hx_ok.
    destruct (should_nack x).
    + apply BuildNack_answers; auto. apply Hx_ok.
    + destruct (staged_BuildSensorValueResponse s index _ Hok Hi Hx_ok)
        as (s1 & Hrun1 & Hst1).
      destruct (staged_ack header s s1 (sensor_value_data index x)
                  Hok Hwf Hq ltac:(left; exact Hcc) eq_refl Hst1)
        as (s' & Hrun & Hf & Hrep).
      exists s'. split; [|split; [exact Hf | exact Hrep]].
      rewrite run_bind, Hrun1. exact Hrun.
Qed.

End Sensors.

(** ** SUPPORTED_PARAMETERS and the SET path of the dispatcher *)

Lemma staged_push_supported (s : State) (ds : list PIDDescriptor) :
  forall (s1 : State) (ptr : nat) (data : list Z),
    buffer_ok s -> staged s s1 ptr data ->
    Forall (fun d => is_uint16 (pid d)) ds ->
    let listed := listed_parameters (is_subdevice (g_responder s)) ds in
    (ptr + 2 * length listed <= RDM_FRAME_SIZE)%nat ->
    exists s2,
      push_supported_parameters ds ptr s1
      = Some ((ptr + 2 * length listed)%nat, s2) /\
      staged s s2 (ptr + 2 * length listed)
        (data ++ flat_map (fun d => be16 (pid d)) listed).
Proof.
  induction ds as [|d ds IH]; intros s1 ptr data Hok Hst Hpids listed Hle.
  - exists s1. subst listed. cbn [listed_parameters List.filter length
      flat_map push_supported_parameters].
    rewrite Nat.mul_0_r, Nat.add_0_r, app_nil_r.
    split; [reflexivity | exact Hst].
  - apply Forall_cons_iff in Hpids as [Hpid Hpids].
    assert (Hsub : is_subdevice (g_responder s1)
                   = is_subdevice (g_responder s))
      by (destruct Hst as [-> _]; reflexivity).
    cbn [push_supported_parameters].
    rewrite run_bind, run_get. cbv beta iota. rewrite Hsub.
    subst listed. unfold listed_parameters in *.
    cbn [List.filter] in *.
    destruct (is_subdevice (g_responder s)
              || negb (listed_for_subdevice_only (pid d))) eqn:Hsel.
    + cbn [length flat_map] in *.
      destruct (staged_PushUInt16 s s1 ptr data (pid d) Hok ltac:(lia)
                  Hst Hpid) as (s2 & Hrun2 & Hst2).
      destruct (IH s2 (S (S ptr)) _ Hok Hst2 Hpids ltac:(lia))
        as (s3 & Hrun3 & Hst3).
      exists s3. split.
      * rewrite run_bind.
        replace (if listed_for_subdevice_only (pid d)
                 then if is_subdevice (g_responder s)
                      then PushUInt16 ptr (pid d) else mret ptr
                 else PushUInt16 ptr (pid d))
          with (PushUInt16 ptr (pid d))
          by (destruct (listed_for_subdevice_only (pid d)),
                (is_subdevice (g_responder s)); try reflexivity;
              discriminate Hsel).
        rewrite Hrun2. cbv beta iota. rewrite Hrun3.
        do 2 f_equal. lia.
      * rewrite <- app_assoc in Hst3.
        replace (ptr + 2 * S (length (List.filter _ ds)))%nat
          with (S (S ptr) + 2 * length (List.filter
                  (fun d0 => is_subdevice (g_responder s)
                             || negb (listed_for_subdevice_only (pid d0)))
                  ds))%nat by lia.
        exact Hst3.
    + destruct (IH s1 ptr data Hok Hst Hpids Hle) as (s3 & Hrun3 & Hst3).
      exists s3. split; [|exact Hst3].
      rewrite run_bind.
      replace (if listed_for_subdevice_only (pid d)
               then if is_subdevice (g_responder s)
                    then PushUInt16 ptr (pid d) else mret ptr
               else PushUInt16 ptr (pid d))
        with (mret ptr : M nat)
        by (destruct (listed_for_subdevice_only (pid d)),
              (is_subdevice (g_responder s)); try reflexivity;
            discriminate Hsel).
      rewrite run_ret. exact Hrun3.
Qed.

Lemma flat_map_be16_length (ds : list PIDDescriptor) :
  length (flat_map (fun d => be16 (pid d)) ds) = (2 * length ds)%nat.
Proof.
  induction ds as [|d ds IH]; [reflexivity|].
  cbn [flat_map length be16 app]. rewrite IH. lia.
Qed.

(** X19: GET SUPPORTED_PARAMETERS replies with the PIDs of the
    descriptor table in table order, two big-endian bytes each. A root
    responder leaves out the nine PIDs of the [switch]
    (DISC_UNIQUE_BRANCH, DISC_MUTE, DISC_UN_MUTE, SUPPORTED_PARAMETERS,
    PARAMETER_DESCRIPTION, DEVICE_INFO, SOFTWARE_VERSION_LABEL,
    DMX_START_ADDRESS, IDENTIFY_DEVICE); a sub-device lists every PID.
    This holds as long as the list fits a frame, that is for at most
    115 listed PIDs: the handler has no overflow handling. *)
Theorem GetSupportedParameters_lists (header : RDMHeader) (pd : list Z)
    (s : State) (d : ResponderDefinition) :
  buffer_ok s -> RDMHeader_wf header ->
  is_uint8 (queued_message_count (g_responder s)) ->
  def (g_responder s) = Some d ->
  command_class header = GET_COMMAND ->
  Forall (fun x => is_uint16 (pid x)) (descriptors d) ->
  let listed :=
    listed_parameters (is_subdevice (g_responder s)) (descriptors d) in
  (length listed <= 115)%nat ->
  exists s',
    RDMResponder_GetSupportedParameters header pd s
    = Some (26 + 2 * Z.of_nat (length listed), s') /\
    frame_only s s' /\
    is_reply ACK (flat_map (fun x => be16 (pid x)) listed)
      (Some (26 + 2 * Z.of_nat (length listed), s')).
Proof.
  intros Hok Hwf Hq Hdef Hcc Hpids listed Hle.
  unfold RDMResponder_GetSupportedParameters.
  rewrite run_bind, run_get. cbv beta iota. rewrite Hdef.
  destruct (staged_push_supported s (descriptors d) s sizeof_RDMHeader []
              Hok (staged_nil s Hok) Hpids
              ltac:(fold listed; unfold RDM_FRAME_SIZE, sizeof_RDMHeader; lia))
    as (s1 & Hrun1 & Hst1).
  fold listed in Hrun1, Hst1. cbn [app] in Hst1.
  rewrite run_bind, Hrun1. cbv beta iota.
  destruct (staged_reply header ACK GET_COMMAND_RESPONSE s s1
              (sizeof_RDMHeader + 2 * length listed)
              (flat_map (fun x => be16 (pid x)) listed)
              Hok Hwf ltac:(uint_by_compute) Hq
              ltac:(rewrite Hcc; reflexivity)
              ltac:(rewrite flat_map_be16_length; lia) Hst1)
    as (s' & Hrun & Hf & Hrep & _).
  replace (Z.of_nat (sizeof_RDMHeader + 2 * length listed) + 2)
    with (26 + 2 * Z.of_nat (length listed)) in Hrun, Hrep
    by (unfold sizeof_RDMHeader; lia).
  exists s'. split; [exact Hrun|]. split; [exact Hf | exact Hrep].
Qed.

Lemma GetSupportedParameters_lists_witness :
  exists s',
    RDMResponder_GetSupportedParameters
      (sample_header own_uid GET_COMMAND PID_SUPPORTED_PARAMETERS 0 0)
      [] sample_state = Some (30, s') /\
    is_reply ACK [0; 130; 0; 224] (Some (30, s')).
Proof.
  destruct (GetSupportedParameters_lists
    (sample_header own_uid GET_COMMAND PID_SUPPORTED_PARAMETERS 0 0)
    [] sample_state sample_definition sample_state_ok
    (sample_header_wf own_uid GET_COMMAND PID_SUPPORTED_PARAMETERS 0 0
       own_uid_is_uid ltac:(uint_by_compute) ltac:(uint_by_compute)
       ltac:(uint_by_compute) ltac:(lia))
    sample_state_qmc eq_refl eq_refl
    ltac:(repeat (constructor; [uint_by_compute|]); constructor)
    ltac:(vm_compute; lia))
    as (s' & Hrun & _ & Hrep).
  exists s'. split; [exact Hrun | exact Hrep].
Defined.

Section SetPath.
Context `{RDMUtil} `{ModelHandlers}.

(** X20: the dispatcher treats every command class but GET_COMMAND as a
    SET. For the first descriptor of the table with the requested PID
    it calls the SET handler, with no check of the destination UID or
    of the parameter data length, both of which it checks for a GET;
    when the descriptor has no SET handler the answer is the NACK
    NR_UNSUPPORTED_COMMAND_CLASS, or silence and an untouched state
    when the request was not unicast. *)
Theorem DispatchPID_set_path (header : RDMHeader) (pd : list Z) (s : State)
    (definition : ResponderDefinition) (d : PIDDescriptor) :
  buffer_ok s -> RDMHeader_wf header ->
  is_uint8 (queued_message_count (g_responder s)) ->
  def (g_responder s) = Some definition ->
  descriptor_for (descriptors definition) (ntohs (param_id header))
  = Some d ->
  command_class header <> GET_COMMAND ->
  match set_handler d with
  | Some handler =>
      RDMResponder_DispatchPID header pd s
      = call_handler handler header pd s
  | None =>
      exists r s',
        RDMResponder_DispatchPID header pd s = Some (r, s') /\
        frame_only s s' /\
        (RDMUtil_IsUnicast (dest_uid header) = true ->
         command_class header = SET_COMMAND ->
         is_nack NR_UNSUPPORTED_COMMAND_CLASS (Some (r, s'))) /\
        (RDMUtil_IsUnicast (dest_uid header) = false ->
         r = RDM_RESPONDER_NO_RESPONSE /\ s' = s)
  end.
Proof.
  intros Hok Hwf Hq Hdef Hd Hcc.
  rewrite (DispatchPID_run header pd s definition Hdef).
  rewrite (dispatch_scan_found _ _ _ _ _ Hd).
  unfold dispatch_descriptor.
  destruct (Z.eqb_spec (command_class header) GET_COMMAND); [contradiction|].
  destruct (set_handler d) as [handler|]; [reflexivity|].
  destruct (BuildNack_frame_only header NR_UNSUPPORTED_COMMAND_CLASS s
              Hok Hwf Hq) as (r & s' & Hrun & Hf).
  exists r, s'. split; [exact Hrun|]. split; [exact Hf|]. split.
  - intros Hu Hset.
    destruct (BuildNack_unicast header NR_UNSUPPORTED_COMMAND_CLASS
                SET_COMMAND_RESPONSE s Hu Hok Hwf Hq
                ltac:(uint_by_compute) ltac:(rewrite Hset; reflexivity))
      as (s2 & Hrun2 & _ & Hn).
    rewrite Hrun in Hrun2. injection Hrun2 as -> ->. exact Hn.
  - intros Hu. rewrite (BuildNack_not_unicast _ _ _ Hu) in Hrun.
    injection Hrun as <- <-. split; reflexivity.
Qed.

End SetPath.

Lemma DispatchPID_set_path_witness :
  RDMResponder_DispatchPID (H := sample_RDMUtil) (H0 := no_ModelHandlers)
    (sample_header broadcast_uid SET_COMMAND PID_DMX_START_ADDRESS 0 2)
    [0; 5] sample_state
  = RDMResponder_SetDMXStartAddress (H := sample_RDMUtil)
      (sample_header broadcast_uid SET_COMMAND PID_DMX_START_ADDRESS 0 2)
      [0; 5] sample_state.
Proof.
  exact (DispatchPID_set_path (H := sample_RDMUtil) (H0 := no_ModelHandlers)
    (sample_header broadcast_uid SET_COMMAND PID_DMX_START_ADDRESS 0 2)
    [0; 5] sample_state sample_definition
    {| pid := PID_DMX_START_ADDRESS;
       get_handler := Some Handler_GetDMXStartAddress;
       set_handler := Some Handler_SetDMXStartAddress;
       get_param_size := 0 |}
    sample_state_ok
    (sample_header_wf broadcast_uid SET_COMMAND PID_DMX_START_ADDRESS 0 2
       broadcast_uid_is_uid ltac:(uint_by_compute) ltac:(uint_by_compute)
       ltac:(uint_by_compute) ltac:(lia))
    sample_state_qmc eq_refl ltac:(vm_compute; reflexivity)
    ltac:(discriminate)).
Defined.

(** ** The further properties on concrete requests *)

Lemma sample_sensors_ok : Forall sensor_ok sample_sensors.
Proof.
  repeat (constructor; [repeat split; vm_compute; congruence|]).
  constructor.
Qed.


Lemma Mute_silences_DUB_witness :
  exists r1 s1 r2 s2 s3,
    RDMResponder_HandleDiscovery (H := sample_RDMUtil)
      (sample_header broadcast_uid DISCOVERY_COMMAND PID_DISC_MUTE 0 0)
      [] sample_state = Some (r1, s1) /\
    RDMResponder_HandleDiscovery (H := sample_RDMUtil)
      (sample_header broadcast_uid DISCOVERY_COMMAND PID_DISC_UNIQUE_BRANCH
         0 12)
      ([0; 0; 0; 0; 0; 0] ++ [0xFF; 0xFF; 0xFF; 0xFF; 0xFF; 0xFF]) s1
    = Some (RDM_RESPONDER_NO_RESPONSE, s1) /\
    RDMResponder_HandleDiscovery (H := sample_RDMUtil)
      (sample_header own_uid DISCOVERY_COMMAND PID_DISC_UN_MUTE 0 0)
      [] s1 = Some (r2, s2) /\
    RDMResponder_HandleDiscovery (H := sample_RDMUtil)
      (sample_header broadcast_uid DISCOVERY_COMMAND PID_DISC_UNIQUE_BRANCH
         0 12)
      ([0; 0; 0; 0; 0; 0] ++ [0xFF; 0xFF; 0xFF; 0xFF; 0xFF; 0xFF]) s2
    = Some (- DUB_RESPONSE_LENGTH, s3) /\
    DUB_decode (take 24 (g_rdm_buffer s3)) = Some own_uid.
Proof.
  destruct (Mute_silences_DUB (H := sample_RDMUtil)
    (sample_header broadcast_uid DISCOVERY_COMMAND PID_DISC_MUTE 0 0)
    (sample_header own_uid DISCOVERY_COMMAND PID_DISC_UN_MUTE 0 0)
    (sample_header broadcast_uid DISCOVERY_COMMAND PID_DISC_UNIQUE_BRANCH
       0 12)
    [] [] [0; 0; 0; 0; 0; 0] [0xFF; 0xFF; 0xFF; 0xFF; 0xFF; 0xFF]
    sample_state sample_state_ok own_uid_is_uid sample_state_qmc
    (sample_header_wf broadcast_uid DISCOVERY_COMMAND PID_DISC_MUTE 0 0
       broadcast_uid_is_uid ltac:(uint_by_compute) ltac:(uint_by_compute)
       ltac:(uint_by_compute) ltac:(lia))
    (sample_header_wf own_uid DISCOVERY_COMMAND PID_DISC_UN_MUTE 0 0
       own_uid_is_uid ltac:(uint_by_compute) ltac:(uint_by_compute)
       ltac:(uint_by_compute) ltac:(lia))
    eq_refl eq_refl eq_refl eq_refl eq_refl eq_refl eq_refl eq_refl eq_refl
    ltac:(uid_by_compute) ltac:(uid_by_compute)
    ltac:(right; apply uid_lex_lt_head; lia)
    ltac:(right; apply uid_lex_lt_head; lia))
    as (r1 & s1 & r2 & s2 & s3 & H1 & _ & H2 & H3 & _ & H4 & H5).
  exists r1, s1, r2, s2, s3. auto.
Defined.

Lemma HandleDiscovery_outcomes_witness :
  exists r s',
    RDMResponder_HandleDiscovery (H := sample_RDMUtil)
      (sample_header own_uid DISCOVERY_COMMAND PID_DISC_MUTE 0 0)
      [] sample_state = Some (r, s') /\
    (r = RDM_RESPONDER_NO_RESPONSE \/
     (r = - DUB_RESPONSE_LENGTH /\
      take 24 (g_rdm_buffer s') = DUB_encode own_uid) \/
     (r = 28 /\ exists cf, is_reply ACK (be16 cf) (Some (r, s')))).
Proof.
  destruct (HandleDiscovery_outcomes (H := sample_RDMUtil)
    (sample_header own_uid DISCOVERY_COMMAND PID_DISC_MUTE 0 0)
    [] sample_state sample_state_ok
    (sample_header_wf own_uid DISCOVERY_COMMAND PID_DISC_MUTE 0 0
       own_uid_is_uid ltac:(uint_by_compute) ltac:(uint_by_compute)
       ltac:(uint_by_compute) ltac:(lia))
    sample_state_qmc own_uid_is_uid)
    as (r & s' & Hrun & _ & Hres & _).
  exists r, s'. split; [exact Hrun | exact Hres].
Defined.

Lemma SetRecordSensor_records_witness :
  exists r s',
    RDMResponder_SetRecordSensor (H := sample_RDMUtil)
      sample_sensor_defs sample_sensors
      (sample_header broadcast_uid SET_COMMAND 0x0202 0 1) [0] sample_state
    = Some ((r,
             [ {| present_value := 300; lowest_value := 5;
                  highest_value := 400; recorded_value := 300;
                  should_nack := false; nack_reason := 0 |};
               {| present_value := 20; lowest_value := 0;
                  highest_value := 0; recorded_value := 0;
                  should_nack := true;
                  nack_reason := NR_HARDWARE_FAULT |} ]), s') /\
    answers_unicast (H := sample_RDMUtil)
      (sample_header broadcast_uid SET_COMMAND 0x0202 0 1) sample_state
      is_set_ack (Some (r, s')).
Proof.
  exact (SetRecordSensor_records (H := sample_RDMUtil)
    sample_sensor_defs sample_sensors
    (sample_header broadcast_uid SET_COMMAND 0x0202 0 1) 0 [] sample_state
    sample_state_ok
    (sample_header_wf broadcast_uid SET_COMMAND 0x0202 0 1
       broadcast_uid_is_uid ltac:(uint_by_compute) ltac:(uint_by_compute)
       ltac:(uint_by_compute) ltac:(lia))
    sample_state_qmc eq_refl eq_refl ltac:(uint_by_compute)).
Defined.

Lemma SetSensorValue_resets_witness :
  exists r s',
    RDMResponder_SetSensorValue (H := sample_RDMUtil)
      sample_sensor_defs sample_sensors
      (sample_header own_uid SET_COMMAND 0x0201 0 1) [0xFF] sample_state
    = Some ((r,
             [ {| present_value := 300; lowest_value := 300;
                  highest_value := 300; recorded_value := 300;
                  should_nack := false; nack_reason := 0 |};
               {| present_value := 20; lowest_value := 0;
                  highest_value := 0; recorded_value := 0;
                  should_nack := true;
                  nack_reason := NR_HARDWARE_FAULT |} ]), s') /\
    answers_unicast (H := sample_RDMUtil)
      (sample_header own_uid SET_COMMAND 0x0201 0 1) sample_state
      (is_reply ACK [0; 0; 0; 0; 0; 0; 0; 0; 0]) (Some (r, s')).
Proof.
  exact (SetSensorValue_resets (H := sample_RDMUtil)
    sample_sensor_defs sample_sensors
    (sample_header own_uid SET_COMMAND 0x0201 0 1) 0xFF [] sample_state
    sample_state_ok
    (sample_header_wf own_uid SET_COMMAND 0x0201 0 1
       own_uid_is_uid ltac:(uint_by_compute) ltac:(uint_by_compute)
       ltac:(uint_by_compute) ltac:(lia))
    sample_state_qmc eq_refl eq_refl ltac:(uint_by_compute)
    sample_sensors_ok).
Defined.

Lemma GetSensorValue_outcomes_witness :
  answers_unicast (H := sample_RDMUtil)
    (sample_header own_uid GET_COMMAND 0x0201 0 1) sample_state
    (is_nack NR_HARDWARE_FAULT)
    (RDMResponder_GetSensorValue (H := sample_RDMUtil)
       sample_sensor_defs sample_sensors
       (sample_header own_uid GET_COMMAND 0x0201 0 1) [1] sample_state).
Proof.
  exact (GetSensorValue_outcomes (H := sample_RDMUtil)
    sample_sensor_defs sample_sensors
    (sample_header own_uid GET_COMMAND 0x0201 0 1) 1 [] sample_state
    sample_state_ok
    (sample_header_wf own_uid GET_COMMAND 0x0201 0 1
       own_uid_is_uid ltac:(uint_by_compute) ltac:(uint_by_compute)
       ltac:(uint_by_compute) ltac:(lia))
    sample_state_qmc eq_refl eq_refl ltac:(uint_by_compute)
    sample_sensors_ok).
Defined.
